(** * Dataset playback for dexmimicgen: a shallow embedding

    This development embeds [scripts/playback_datasets.py] and states the
    properties of its replay engine: the simulator state restorer
    ([reset_to]), the per-episode replay driver
    ([playback_trajectory_with_env], [playback_trajectory_with_obs]) and the
    run driver ([playback_dataset]).

    Conventions.
    - Python code that can raise returns in the monad [M]: a pair of the
      trace of external calls made so far and either a value or the raised
      exception.  The trace is kept when an exception is raised, so that
      "nothing happened before the failure" can be stated.
    - The simulator, the JSON decoder, the random generator and the sort of
      NumPy are collaborators of the script: they are interfaces (type
      classes) here, and every call into them is logged as an [Event].
    - Floating point numbers are not modelled: the scalar type of state
      vectors is abstract ([Numeric]), with the element-wise operations the
      script uses. *)

From Stdlib Require Import List ZArith String Ascii Bool Arith Lia.
From Stdlib Require Import Permutation Sorted.
Import ListNotations.

Local Open Scope Z_scope.
Local Open Scope nat_scope.
Local Open Scope list_scope.

Set Implicit Arguments.

(** ** Python: exceptions, the error-and-trace monad *)

Module Py.

Inductive PyError : Type :=
| AssertionError
| ValueError
| IndexError
| KeyError
| TypeError
| UnboundLocalError
| ZeroDivisionError
| AttributeError
| JSONDecodeError.

Inductive Res (A : Type) : Type :=
| Ok (a : A)
| Raise (e : PyError).

Arguments Ok {A} a.
Arguments Raise {A} e.

(** A computation: the calls it made, in order, and how it ended. *)
Definition M (Ev A : Type) : Type := (list Ev * Res A)%type.

Definition ret {Ev A : Type} (a : A) : M Ev A := ([], Ok a).

Definition raise {Ev A : Type} (e : PyError) : M Ev A := ([], Raise e).

Definition emit {Ev : Type} (e : Ev) : M Ev unit := ([e], Ok tt).

Definition bind {Ev A B : Type} (m : M Ev A) (f : A -> M Ev B) : M Ev B :=
  match m with
  | (t1, Ok a) => let (t2, r) := f a in (t1 ++ t2, r)
  | (t1, Raise e) => (t1, Raise e)
  end.

Definition lift {Ev A : Type} (r : Res A) : M Ev A := ([], r).

Definition trace {Ev A : Type} (m : M Ev A) : list Ev := fst m.

Definition outcome {Ev A : Type} (m : M Ev A) : Res A := snd m.

(** [m] returns; [k] of its calls satisfy [p] and all of them satisfy [Q]. *)
Definition runs {Ev A : Type} (p : Ev -> bool) (Q : Ev -> Prop) (m : M Ev A)
  (k : nat) : Prop :=
  exists tr a,
    m = (tr, Ok a) /\ List.length (filter p tr) = k /\ Forall Q tr.

(** [m] makes no call that satisfies [p], whether it returns or raises. *)
Definition silent {Ev A : Type} (p : Ev -> bool) (m : M Ev A) : Prop :=
  List.length (filter p (trace m)) = 0.

(** [m] raises. *)
Definition fails {Ev A : Type} (m : M Ev A) : Prop :=
  exists e, outcome m = Raise e.

(** [assert b] *)
Definition py_assert {Ev : Type} (b : bool) : M Ev unit :=
  if b then ret tt else raise AssertionError.

(** [d[k]] on something that may lack the key. *)
Definition getitem {Ev A : Type} (o : option A) : M Ev A :=
  match o with
  | Some a => ret a
  | None => raise KeyError
  end.

(** [l[i]] on a sequence, for a non-negative index. *)
Definition index {Ev A : Type} (l : list A) (i : nat) : M Ev A :=
  match nth_error l i with
  | Some a => ret a
  | None => raise IndexError
  end.

(** *** Strings

    A character of a [string] is a byte.  Python strings are sequences of
    code points, so a [string] stands for a Python string only when it is
    ASCII; what is stated below about the text of episode ids is stated
    for ASCII ids. *)

Fixpoint chars (s : string) : list ascii :=
  match s with
  | EmptyString => []
  | String c s' => c :: chars s'
  end.

Definition is_ascii (s : string) : bool :=
  forallb (fun c => nat_of_ascii c <? 128) (chars s).

(** *** [int(s)] on an ASCII string: optional surrounding white space, an
    optional sign, decimal digits with single underscores between digits.
    The white space of an ASCII string is what C's [isspace] accepts: tab,
    line feed, vertical tab, form feed, carriage return and space (the
    separators [chr(28)] to [chr(31)] are stripped only from strings that
    have a character outside ASCII).  A literal of more than
    [max_str_digits] digits is refused, as CPython does by default. *)

Definition is_space (c : ascii) : bool :=
  let n := nat_of_ascii c in
  ((9 <=? n) && (n <=? 13)) || (n =? 32).

Definition digit_of (c : ascii) : option Z :=
  let n := nat_of_ascii c in
  if (48 <=? n) && (n <=? 57) then Some (Z.of_nat (n - 48)) else None.

Fixpoint lstrip (l : list ascii) : list ascii :=
  match l with
  | c :: l' => if is_space c then lstrip l' else l
  | [] => []
  end.

Definition strip (l : list ascii) : list ascii :=
  rev (lstrip (rev (lstrip l))).

(** [after_digit] tells whether the previous character was a digit: an
    underscore is accepted only between two digits. *)
Fixpoint digits (acc : Z) (after_digit : bool) (l : list ascii) : option Z :=
  match l with
  | [] => if after_digit then Some acc else None
  | c :: l' =>
      match digit_of c with
      | Some d => digits (10 * acc + d)%Z true l'
      | None =>
          if (Ascii.eqb c "_"%char) && after_digit
          then match l' with
               | [] => None
               | _ => digits acc false l'
               end
          else None
      end
  end.

(** The default of [sys.int_max_str_digits]. *)
Definition max_str_digits : nat := 4300.

Definition count_digits (l : list ascii) : nat :=
  List.length (filter (fun c => match digit_of c with
                                | Some _ => true
                                | None => false
                                end) l).

Definition int_of_chars (l : list ascii) : option Z :=
  if max_str_digits <? count_digits l then None
  else
    match strip l with
    | c :: l' =>
        if Ascii.eqb c "-"%char then option_map Z.opp (digits 0%Z false l')
        else if Ascii.eqb c "+"%char then digits 0%Z false l'
        else digits 0%Z false (c :: l')
    | [] => None
    end.

Definition int {Ev : Type} (s : string) : M Ev Z :=
  match int_of_chars (chars s) with
  | Some z => ret z
  | None => raise ValueError
  end.

(** [s[k:]] for a non-negative [k], on an ASCII string: the first [k]
    bytes are cut, which are its first [k] characters. *)
Fixpoint slice_from (k : nat) (s : string) : string :=
  match k, s with
  | O, _ => s
  | S k', String _ s' => slice_from k' s'
  | S _, EmptyString => EmptyString
  end.

(** [l[:n]]: a negative [n] counts from the end. *)
Definition slice_to {A : Type} (n : Z) (l : list A) : list A :=
  if (0 <=? n)%Z then firstn (Z.to_nat n) l
  else firstn (Z.to_nat (Z.of_nat (List.length l) + n)) l.

(** [s.split(sep)[0]] for a non-empty separator: what comes before its
    first occurrence, or all of [s] when there is none. *)
Fixpoint split_head (sep s : string) : string :=
  match s with
  | EmptyString => EmptyString
  | String c s' =>
      if String.prefix sep s then EmptyString else String c (split_head sep s')
  end.

End Py.

Export Py.

Declare Scope py_scope.
Delimit Scope py_scope with py.

Notation "x <- c1 ;; c2" := (bind c1 (fun x => c2))
  (at level 61, c1 at next level, right associativity) : py_scope.
Notation "c1 ;; c2" := (bind c1 (fun _ => c2))
  (at level 61, right associativity) : py_scope.

Local Open Scope py_scope.

(** ** NumPy: the array operations the script calls *)

(** Scalars of state vectors and actions (float64 in the datasets).  Only
    the operations the script reaches are required; nothing is assumed
    about them, in particular [s_eqb x x] may be false (NaN). *)
Class Numeric (T : Type) : Type := {
  s_zero : T;
  s_eqb : T -> T -> bool;
  s_sub : T -> T -> T;
  s_add : T -> T -> T;
  s_mul : T -> T -> T;
  s_sqrt : T -> T
}.

Module Np.

Section Vectors.

Context {T : Type} {num : Numeric T}.

Fixpoint zip_with {A B C : Type} (f : A -> B -> C) (x : list A) (y : list B)
  : list C :=
  match x, y with
  | a :: x', b :: y' => f a b :: zip_with f x' y'
  | _, _ => []
  end.

(** A binary ufunc on two one-dimensional arrays: shapes [(n,)] and [(m,)]
    broadcast when [n = m] or one of them is 1, and a [ValueError] is raised
    otherwise. *)
Definition ufunc2 {A B : Type} (f : A -> A -> B) (x y : list A)
  : Res (list B) :=
  if List.length x =? List.length y then Ok (zip_with f x y)
  else match x, y with
       | [a], _ => Ok (map (f a) y)
       | _, [b] => Ok (map (fun a => f a b) x)
       | _, _ => Raise ValueError
       end.

(** [np.equal(x, y)] *)
Definition equal (x y : list T) : Res (list bool) := ufunc2 s_eqb x y.

(** [np.all(b)] *)
Definition all (b : list bool) : bool := forallb (fun v => v) b.

(** [x - y] *)
Definition subtract (x y : list T) : Res (list T) := ufunc2 s_sub x y.

(** [np.linalg.norm(v)] on a one-dimensional array: the 2-norm, the square
    root of the sum of the squares. *)
Definition sum_squares (v : list T) : T :=
  fold_left (fun acc x => s_add acc (s_mul x x)) v s_zero.

Definition linalg_norm (v : list T) : T := s_sqrt (sum_squares v).

End Vectors.

(** Images: arrays of shape (height, width, 3).  The width is kept beside
    the rows so that an image of height 0 still has one. *)
Definition Pixel : Type := (N * N * N)%type.

Record Image : Type := {
  img_width : nat;
  img_rows : list (list Pixel)
}.

Definition img_height (im : Image) : nat := List.length (img_rows im).

Definition well_shaped (im : Image) : Prop :=
  Forall (fun r => List.length r = img_width im) (img_rows im).

(** The pixel at row [r], column [c]. *)
Definition pixel_at (im : Image) (r c : nat) : option Pixel :=
  match nth_error (img_rows im) r with
  | Some row => nth_error row c
  | None => None
  end.

(** [im[::-1]] *)
Definition flip_rows (im : Image) : Image :=
  {| img_width := img_width im; img_rows := rev (img_rows im) |}.

Definition hstack_rows (a b : list (list Pixel)) : list (list Pixel) :=
  zip_with (@app Pixel) a b.

(** [np.concatenate(frames, axis=1)]: at least one array is needed, and all
    dimensions but the second (here: the heights; the channel count is fixed
    by the type) must agree. *)
Definition concatenate_axis1 (frames : list Image) : Res Image :=
  match frames with
  | [] => Raise ValueError
  | f0 :: rest =>
      if forallb (fun g => img_height g =? img_height f0) rest
      then Ok {| img_width :=
                   fold_left (fun w g => w + img_width g) rest (img_width f0);
                 img_rows :=
                   fold_left (fun acc g => hstack_rows acc (img_rows g))
                             rest (img_rows f0) |}
      else Raise ValueError
  end.

(** [np.concatenate((a, b))] along the first axis, for two-dimensional
    arrays given as lists of rows. *)
Definition concatenate_axis0 {A : Type} (a b : list A) : list A := a ++ b.

(** The integers an [int64] array holds.  A list of Python integers
    becomes such an array when they all are in this range; beyond it NumPy
    chooses another element type ([uint64], [float64] or [object]). *)
Definition in_int64 (k : Z) : Prop := (- 2 ^ 63 <= k < 2 ^ 63)%Z.

(** What [np.argsort] promises for a list of integers that fit [int64]: the
    result lists every index once, and reading the list through it gives a
    non-decreasing sequence.  The default sort is not stable, so nothing is
    promised about the order of equal keys; nothing is promised either for
    integers outside [int64], which are compared as [float64] in some
    cases. *)
Definition argsort_contract (argsort : list Z -> list nat) : Prop :=
  forall keys : list Z,
    Forall in_int64 keys ->
    Permutation (argsort keys) (seq 0 (List.length keys)) /\
    Sorted Z.le (map (fun i => nth i keys 0%Z) (argsort keys)).

End Np.

Notation "' pat <- c1 ;; c2" :=
  (bind c1 (fun x => match x with pat => c2 end))
  (at level 61, pat pattern, c1 at next level, right associativity) : py_scope.

(** ** The collaborators of the script *)

(** Library functions and module-level values: [json.loads] ([None] when it
    raises) and the decoded values, the minor version of robosuite, its
    [postprocess_model_xml], [np.argsort] and [random.shuffle].

    A decoded value is a [dict] or not ([meta_is_dict]); only a [dict] has
    [get] and can be indexed by a string.  For a [dict], [meta_item k] is
    its value under [k], [None] when it has no such key, and [meta_lang] is
    [get("lang", None)] as it is printed, [None] when the result is
    [None]. *)
Class Host (Meta : Type) : Type := {
  json_loads : string -> option Meta;
  meta_empty : Meta;
  meta_is_dict : Meta -> bool;
  meta_item : string -> Meta -> option Meta;
  meta_lang : Meta -> option string;
  robosuite_version_id : Z;
  postprocess_model_xml : string -> string;
  np_argsort : list Z -> list nat;
  random_shuffle : list string -> list string
}.

(** The environment handle.  [has_*] are the [hasattr] probes: the methods
    of a handle are those of its class, so they are fixed for a simulator.
    Every other field is a capability of the handle, a function of its
    current state. *)
Class Simulator (T Meta E : Type) : Type := {
  has_set_attrs_from_ep_meta : bool;
  has_set_ep_meta : bool;
  has_update_sites : bool;
  has_update_state : bool;
  set_attrs_from_ep_meta : Meta -> E -> E;
  set_ep_meta : Meta -> E -> E;
  env_reset : E -> E;
  edit_model_xml : E -> string -> string;
  reset_from_xml_string : string -> E -> E;
  sim_reset : E -> E;
  sim_set_state_from_flattened : list T -> E -> E;
  sim_forward : E -> E;
  update_sites : E -> E;
  update_state : E -> E;
  env_step : list T -> E -> E;
  check_success : E -> bool;
  sim_get_state : E -> list T;
  sim_model_get_xml : E -> string;
  sim_render : nat -> nat -> string -> E -> Np.Image;
  viewer_is_none : E -> bool;
  initialize_renderer : E -> E;
  viewer_update : E -> E;
  viewer_close : E -> E;
  robosuite_make : Meta -> Meta -> bool -> E
}.

(** ** Data model *)

Section Model.

Context {T Meta E : Type}.
Context {num : Numeric T} {host : Host Meta} {sim : Simulator T Meta E}.

(** The [state] dictionary of [reset_to]: each entry is [None] when the key
    is absent.  The value under ["ep_meta"] may itself be [None]. *)
Record StateDict : Type := {
  d_states : option (list T);
  d_model : option string;
  d_ep_meta : option (option string)
}.

(** [state.get("ep_meta", None)] *)
Definition get_ep_meta (state : StateDict) : option string :=
  match d_ep_meta state with
  | Some v => v
  | None => None
  end.

(** The observation dictionary the docstring of [reset_to] speaks of. *)
Definition Observation : Type := list (string * list T).

(** One trajectory group of the file: [None] stands for a missing dataset
    or attribute. *)
Record Episode : Type := {
  ep_states : option (list (list T));
  ep_actions : option (list (list T));
  ep_model_file : option string;
  ep_ep_meta : option string;
  ep_obs : list (string * list Np.Image)
}.

Record DataGroup : Type := {
  env_args : option string;
  demos_of : list (string * Episode)
}.

(** The open HDF5 file: the ["data"] group, when there is one, and the
    filter keys under ["mask"]. *)
Record H5File : Type := {
  h5_data : option DataGroup;
  h5_mask : list (string * list string)
}.

Fixpoint assoc {A : Type} (k : string) (l : list (string * A)) : option A :=
  match l with
  | [] => None
  | (k', a) :: l' => if String.eqb k k' then Some a else assoc k l'
  end.

(** [f["data/<ep>"]] *)
Definition h5_episode (f : H5File) (ep : string) : option Episode :=
  match h5_data f with
  | Some d => assoc ep (demos_of d)
  | None => None
  end.

(** [args.render_image_names] and [camera_names]: a list of names, or, after
    the automatic fill-in, a single string. *)
Inductive Names : Type :=
| NameList (l : list string)
| NameStr (s : string).

Fixpoint letters (s : string) : list string :=
  match s with
  | EmptyString => []
  | String c s' => String c EmptyString :: letters s'
  end.

(** Iterating over the names: a string yields its characters. *)
Definition names_iter (n : Names) : list string :=
  match n with
  | NameList l => l
  | NameStr s => letters s
  end.

Definition names_len (n : Names) : nat := List.length (names_iter n).

(** The arguments of [playback_dataset].  [render_image_names] may be
    [None] because [playback_dataset] tests it; the parser of the script
    itself always gives a list (its default is the one name agentview). *)
Record Args : Type := {
  dataset : string;
  filter_key : option string;
  n : option Z;
  use_obs : bool;
  use_actions : bool;
  render : bool;
  video_path : option string;
  video_skip : Z;
  render_image_names : option (list string);
  first : bool;
  extend_states : bool;
  verbose : bool;
  use_current_model : bool
}.

(** What is printed. *)
Inductive Msg : Type :=
| MsgInstruction (lang : string)
| MsgSpawning
| MsgRunning
| MsgDiverged (err : T) (step : nat)
| MsgNotSuccess
| MsgInitializing (env_name : Meta)
| MsgFilterKey (key : string)
| MsgPlayingBack (ep : string)
| MsgSavedVideo (path : string).

(** The calls that leave the script, in the order they are made. *)
Inductive Event : Type :=
| EvPrint (m : Msg)
| EvSetAttrsFromEpMeta (m : Meta)
| EvSetEpMeta (m : Meta)
| EvReset
| EvPostprocessModelXml (xml : string)
| EvEditModelXml (xml : string)
| EvResetFromXmlString (xml : string)
| EvSimReset
| EvSetStateFromFlattened (v : list T)
| EvSimForward
| EvUpdateSites
| EvUpdateState
| EvStep (a : list T)
| EvCheckSuccess
| EvGetState
| EvGetXml
| EvRender (cam : string)
| EvInitializeRenderer
| EvViewerUpdate
| EvViewerClose
| EvMake (offscreen : bool)
| EvGetWriter (path : string)
| EvAppendData (frame : Np.Image)
| EvWriterClose
| EvShuffle
| EvFileClose
| EvEnvClose.

(** An external call: log it, then use its result. *)
Definition call {A : Type} (ev : Event) (a : A) : M Event A :=
  emit ev ;; ret a.

(** [m[k]] on a decoded value, for a string [k]: a [KeyError] when a
    [dict] has no such key, a [TypeError] when [m] is not a [dict]. *)
Definition meta_getitem (k : string) (m : Meta) : M Event Meta :=
  if meta_is_dict m then getitem (meta_item k m) else raise TypeError.

(** [m.get("lang", None)] on a decoded value: an [AttributeError] when [m]
    is not a [dict]. *)
Definition meta_get_lang (m : Meta) : M Event (option string) :=
  if meta_is_dict m then ret (meta_lang m) else raise AttributeError.

(** [m[k] = v] on a decoded value, for a string [k]: a [TypeError] when [m]
    is not a [dict]. *)
Definition meta_setitem_check (m : Meta) : M Event unit :=
  if meta_is_dict m then ret tt else raise TypeError.

(** ** [reset_to] *)

(** The metadata entry point: the older name first, else the newer one. *)
Definition apply_ep_meta (ep_meta : Meta) (env : E) : M Event E :=
  if has_set_attrs_from_ep_meta
  then call (EvSetAttrsFromEpMeta ep_meta) (set_attrs_from_ep_meta ep_meta env)
  else if has_set_ep_meta
       then call (EvSetEpMeta ep_meta) (set_ep_meta ep_meta env)
       else ret env.

(** The refresh entry points: two independent probes. *)
Definition refresh (env : E) : M Event E :=
  env <- (if has_update_sites
          then call EvUpdateSites (update_sites env)
          else ret env) ;;
  if has_update_state
  then call EvUpdateState (update_state env)
  else ret env.

Definition reset_to (env : E) (state : StateDict)
  : M Event (E * option Observation) :=
  env <- match d_model state with
         | Some model =>
             ep_meta <- match get_ep_meta state with
                        | Some s =>
                            match json_loads s with
                            | Some m => ret m
                            | None => raise JSONDecodeError
                            end
                        | None => ret meta_empty
                        end ;;
             env <- apply_ep_meta ep_meta env ;;
             env <- call EvReset (env_reset env) ;;
             xml <- (if (robosuite_version_id <=? 3)%Z
                     then call (EvPostprocessModelXml model)
                               (postprocess_model_xml model)
                     else call (EvEditModelXml model)
                               (edit_model_xml env model)) ;;
             env <- call (EvResetFromXmlString xml)
                         (reset_from_xml_string xml env) ;;
             call EvSimReset (sim_reset env)
         | None => ret env
         end ;;
  env <- match d_states state with
         | Some v =>
             env <- call (EvSetStateFromFlattened v)
                         (sim_set_state_from_flattened v env) ;;
             call EvSimForward (sim_forward env)
         | None => ret env
         end ;;
  env <- refresh env ;;
  ret (env, None).

(** ** [playback_trajectory_with_env] *)

(** The loop state: the handle, [video_count] and [success]. *)
Definition LoopState : Type := (E * Z * bool)%type.

(** [for i in ...: body; if first: break] *)
Fixpoint for_range {S : Type} (body : nat -> S -> M Event S) (brk : bool)
  (indices : list nat) (s : S) : M Event S :=
  match indices with
  | [] => ret s
  | i :: rest =>
      s' <- body i s ;;
      if brk then ret s' else for_range body brk rest s'
  end.

(** The divergence check of one action step (lines 123-134): compare the
    recorded next state with the state read back from the simulator. *)
Definition check_divergence (verbose : bool) (traj_len i : nat)
  (expected state_playback : list T) : M Event unit :=
  eq <- lift (Np.equal expected state_playback) ;;
  if negb (Np.all eq)
  then
    diff <- lift (Np.subtract expected state_playback) ;;
    let err := Np.linalg_norm diff in
    if verbose || (Z.of_nat i =? Z.of_nat traj_len - 2)%Z
    then emit (EvPrint (MsgDiverged err i))
    else ret tt
  else ret tt.

(** The action branch of the loop body (lines 118-134). *)
Definition action_step (states actions : list (list T)) (verbose : bool)
  (traj_len i : nat) (env : E) (success : bool) : M Event (E * bool) :=
  a <- index actions i ;;
  env <- call (EvStep a) (env_step a env) ;;
  ok <- call EvCheckSuccess (check_success env) ;;
  let success := if ok then true else success in
  (if (Z.of_nat i <? Z.of_nat traj_len - 1)%Z
   then
     state_playback <- call EvGetState (sim_get_state env) ;;
     expected <- index states (i + 1) ;;
     check_divergence verbose traj_len i expected state_playback
   else ret tt) ;;
  ret (env, success).

(** The state branch of the loop body (line 136). *)
Definition state_step (states : list (list T)) (i : nat) (env : E)
  : M Event E :=
  st <- index states i ;;
  r <- reset_to env {| d_states := Some st; d_model := None;
                       d_ep_meta := None |} ;;
  ret (fst r).

(** On-screen rendering of one step (lines 139-150).  The pacing sleep is
    real time and is left out. *)
Definition render_step (env : E) : M Event E :=
  env <- (if viewer_is_none env
          then call EvInitializeRenderer (initialize_renderer env)
          else ret env) ;;
  call EvViewerUpdate (viewer_update env).

Fixpoint render_cameras (env : E) (cams : list string)
  : M Event (list Np.Image) :=
  match cams with
  | [] => ret []
  | cam :: rest =>
      im <- call (EvRender cam) (Np.flip_rows (sim_render 512 512 cam env)) ;;
      ims <- render_cameras env rest ;;
      ret (im :: ims)
  end.

(** [x % m == 0] *)
Definition divides_count (video_count video_skip : Z) : M Event bool :=
  if (video_skip =? 0)%Z then raise ZeroDivisionError
  else ret (video_count mod video_skip =? 0)%Z.

(** Video rendering of one step (lines 153-166). *)
Definition video_step (camera_names : option Names) (video_skip : Z)
  (env : E) (video_count : Z) : M Event Z :=
  due <- divides_count video_count video_skip ;;
  (if due
   then
     cams <- match camera_names with
             | Some names => ret (names_iter names)
             | None => raise TypeError
             end ;;
     video_img <- render_cameras env cams ;;
     frame <- lift (Np.concatenate_axis1 video_img) ;;
     emit (EvAppendData frame)
   else ret tt) ;;
  ret (video_count + 1)%Z.

(** The body of the loop (lines 115-166). *)
Definition loop_body (states : list (list T))
  (actions : option (list (list T))) (render : bool)
  (video_writer : option string) (video_skip : Z)
  (camera_names : option Names) (verbose : bool) (traj_len : nat)
  (i : nat) (s : LoopState) : M Event LoopState :=
  let '(env, video_count, success) := s in
  r <- match actions with
       | Some acts => action_step states acts verbose traj_len i env success
       | None => env <- state_step states i env ;; ret (env, success)
       end ;;
  let '(env, success) := r in
  env <- (if render then render_step env else ret env) ;;
  video_count <- match video_writer with
                 | Some _ => video_step camera_names video_skip env video_count
                 | None => ret video_count
                 end ;;
  ret (env, video_count, success).

(** The loop (lines 114-169). *)
Definition replay_loop (states : list (list T))
  (actions : option (list (list T))) (render : bool)
  (video_writer : option string) (video_skip : Z)
  (camera_names : option Names) (first verbose : bool) (s : LoopState)
  : M Event LoopState :=
  let traj_len := List.length states in
  for_range (loop_body states actions render video_writer video_skip
                       camera_names verbose traj_len)
            first (seq 0 traj_len) s.

(** The verbose preamble (lines 97-102). *)
Definition announce (initial_state : StateDict) : M Event unit :=
  blob <- getitem (d_ep_meta initial_state) ;;
  ep_meta <- match blob with
             | Some s =>
                 match json_loads s with
                 | Some m => ret m
                 | None => raise JSONDecodeError
                 end
             | None => raise TypeError
             end ;;
  lang <- meta_get_lang ep_meta ;;
  match lang with
  | Some lang => emit (EvPrint (MsgInstruction lang))
  | None => ret tt
  end ;;
  emit (EvPrint MsgSpawning).

Definition playback_trajectory_with_env (env : E) (initial_state : StateDict)
  (states : list (list T)) (actions : option (list (list T)))
  (render : bool) (video_writer : option string) (video_skip : Z)
  (camera_names : option Names) (first verbose : bool) : M Event E :=
  let write_video :=
    match video_writer with Some _ => true | None => false end in
  let video_count := 0%Z in
  py_assert (negb (render && write_video)) ;;
  (if verbose then announce initial_state else ret tt) ;;
  r <- reset_to env initial_state ;;
  let env := fst r in
  let traj_len := List.length states in
  match actions with
  | Some acts => py_assert (List.length states =? List.length acts)
  | None => ret tt
  end ;;
  (if render then ret tt else emit (EvPrint MsgRunning)) ;;
  let success := false in
  s <- replay_loop states actions render video_writer video_skip
                   camera_names first verbose (env, video_count, success) ;;
  let '(env, _, success) := s in
  env <- (if render
          then if viewer_is_none env then raise AttributeError
               else call EvViewerClose (viewer_close env)
          else ret env) ;;
  match actions with
  | Some _ => if success then ret tt else emit (EvPrint MsgNotSuccess)
  | None => ret tt
  end ;;
  ret env.

(** ** [playback_trajectory_with_obs] *)

Fixpoint mapM {A B : Type} (f : A -> M Event B) (l : list A)
  : M Event (list B) :=
  match l with
  | [] => ret []
  | a :: l' => b <- f a ;; bs <- mapM f l' ;; ret (b :: bs)
  end.

(** [traj_grp["obs/{}".format(k + "_image")]] *)
Definition obs_image (traj_grp : Episode) (k : string)
  : M Event (list Np.Image) :=
  getitem (assoc (String.append k "_image") (ep_obs traj_grp)).

Definition obs_step (traj_grp : Episode) (video_writer : option string)
  (video_skip : Z) (image_names : Names) (i : nat) (video_count : Z)
  : M Event Z :=
  due <- divides_count video_count video_skip ;;
  (if due
   then
     im <- mapM (fun k => arr <- obs_image traj_grp k ;; index arr i)
                (names_iter image_names) ;;
     frame <- lift (Np.concatenate_axis1 im) ;;
     match video_writer with
     | Some _ => emit (EvAppendData frame)
     | None => raise AttributeError
     end
   else ret tt) ;;
  ret (video_count + 1)%Z.

Definition playback_trajectory_with_obs (traj_grp : Episode)
  (video_writer : option string) (video_skip : Z)
  (image_names : option Names) (first : bool) : M Event unit :=
  match image_names with
  | None => raise AssertionError
  | Some names =>
      let video_count := 0%Z in
      k0 <- index (names_iter names) 0 ;;
      arr <- obs_image traj_grp k0 ;;
      let traj_len := List.length arr in
      for_range (obs_step traj_grp video_writer video_skip names)
                first (seq 0 traj_len) video_count ;;
      ret tt
  end.

(** ** [get_env_metadata_from_dataset], with the default [ds_format] *)
Definition get_env_metadata_from_dataset (f : H5File) : M Event Meta :=
  d <- getitem (h5_data f) ;;
  s <- getitem (env_args d) ;;
  match json_loads s with
  | Some m => ret m
  | None => raise JSONDecodeError
  end.

(** ** [playback_dataset] *)

(** [args.render is not True]: the flag is a boolean ([store_true]). *)
Definition write_video_of (args : Args) : bool := negb (render args).

(** The video path after the default fill-in (lines 324-327). *)
Definition video_path_of (args : Args) : string :=
  match video_path args with
  | Some p => p
  | None =>
      let base := split_head ".hdf5" (dataset args) in
      if use_actions args then String.append base "_use_actions.mp4"
      else String.append base ".mp4"
  end.

(** The argument checks (lines 322-344); they return the names to render. *)
Definition check_args (args : Args) (f : H5File) : M Event Names :=
  let write_video := write_video_of args in
  py_assert (negb (render args && write_video)) ;;
  names <- match render_image_names args with
           | None =>
               get_env_metadata_from_dataset f ;;
               ret (NameStr "robot0_agentview_center")
           | Some l => ret (NameList l)
           end ;;
  (if render args then py_assert (names_len names =? 1) else ret tt) ;;
  (if use_obs args
   then py_assert write_video ;; py_assert (negb (use_actions args))
   else ret tt) ;;
  ret names.

(** The environment, created unless observations are played (lines
    346-376).  The keyword arguments of [robosuite.make] are the decoded
    [env_kwargs] with the name of the environment and four renderer
    settings written into them, of which only [has_offscreen_renderer]
    varies, and without [env_lang]: they are given to [robosuite_make] as
    the decoded [env_kwargs], the name and that setting.  The name is
    looked up before it is stored, so a missing name is reported before
    [env_kwargs] that cannot be written to.  The test of line 369 compares
    two different literals: its branch is never taken. *)
Definition make_env (args : Args) (f : H5File) : M Event (option E) :=
  if use_obs args then ret None
  else
    env_meta <- get_env_metadata_from_dataset f ;;
    env_kwargs <- meta_getitem "env_kwargs" env_meta ;;
    env_name <- meta_getitem "env_name" env_meta ;;
    meta_setitem_check env_kwargs ;;
    let write_video := write_video_of args in
    (if verbose args then emit (EvPrint (MsgInitializing env_name))
     else ret tt) ;;
    env <- call (EvMake write_video)
                (robosuite_make env_kwargs env_name write_video) ;;
    ret (Some env).

(** The stored episode ids (lines 381-388).  Ids are strings already: the
    UTF-8 decoding of the filter entries is not modelled. *)
Definition stored_demos (args : Args) (f : H5File) : M Event (list string) :=
  match filter_key args with
  | Some key =>
      emit (EvPrint (MsgFilterKey key)) ;;
      getitem (assoc key (h5_mask f))
  | None =>
      match h5_data f with
      | Some d => ret (map fst (demos_of d))
      | None => raise UnboundLocalError
      end
  end.

(** Sorting by the number after the first five characters (lines
    390-391). *)
Definition sort_demos (demos : list string) : M Event (list string) :=
  keys <- mapM (fun elem => int (slice_from 5 elem)) demos ;;
  let inds := np_argsort keys in
  mapM (fun i => index demos i) inds.

(** The episodes to play (lines 381-396). *)
Definition list_demos (args : Args) (f : H5File) : M Event (list string) :=
  demos <- stored_demos args f ;;
  demos <- sort_demos demos ;;
  match n args with
  | Some k =>
      demos <- call EvShuffle (random_shuffle demos) ;;
      ret (slice_to k demos)
  | None => ret demos
  end.

(** [np.concatenate((states, [states[-1]] * 50))] *)
Definition extend (states : list (list T)) : M Event (list (list T)) :=
  final <- index states (List.length states - 1) ;;
  ret (Np.concatenate_axis0 states (repeat final 50)).

(** The body of the episode loop (lines 404-444).  [env] is [None] only
    when observations are played, which the first branch handles; using it
    otherwise is an [AttributeError]. *)
Definition playback_episode (args : Args) (f : H5File) (names : Names)
  (video_writer : option string) (ep : string) (env : option E)
  : M Event (option E) :=
  emit (EvPrint (MsgPlayingBack ep)) ;;
  if use_obs args
  then
    traj_grp <- getitem (h5_episode f ep) ;;
    playback_trajectory_with_obs traj_grp video_writer (video_skip args)
                                 (Some names) (first args) ;;
    ret env
  else
    grp <- getitem (h5_episode f ep) ;;
    states <- getitem (ep_states grp) ;;
    s0 <- index states 0 ;;
    model <- getitem (ep_model_file grp) ;;
    match env with
    | None => raise AttributeError
    | Some e =>
        model <- (if use_current_model args
                  then call EvGetXml (sim_model_get_xml e)
                  else ret model) ;;
        let initial_state :=
          {| d_states := Some s0; d_model := Some model;
             d_ep_meta := Some (ep_ep_meta grp) |} in
        states <- (if extend_states args then extend states else ret states) ;;
        actions <- (if use_actions args
                    then a <- getitem (ep_actions grp) ;; ret (Some a)
                    else ret None) ;;
        e <- playback_trajectory_with_env e initial_state states actions
               (render args) video_writer (video_skip args) (Some names)
               (first args) (verbose args) ;;
        ret (Some e)
    end.

Fixpoint for_each {A S : Type} (body : A -> S -> M Event S) (l : list A)
  (s : S) : M Event S :=
  match l with
  | [] => ret s
  | a :: rest => s' <- body a s ;; for_each body rest s'
  end.

(** [f] is the content of the file at [args.dataset]: opening it is taken
    to succeed. *)
Definition playback_dataset (args : Args) (f : H5File) : M Event unit :=
  let write_video := write_video_of args in
  let path := video_path_of args in
  names <- check_args args f ;;
  env <- make_env args f ;;
  demos <- list_demos args f ;;
  video_writer <- (if write_video
                   then call (EvGetWriter path) (Some path)
                   else ret None) ;;
  env <- for_each (playback_episode args f names video_writer) demos env ;;
  emit EvFileClose ;;
  (if write_video
   then emit (EvPrint (MsgSavedVideo path)) ;; emit EvWriterClose
   else ret tt) ;;
  match env with
  | Some _ => emit EvEnvClose
  | None => ret tt
  end.

End Model.

Arguments StateDict : clear implicits.
Arguments Observation : clear implicits.
Arguments Episode : clear implicits.
Arguments DataGroup : clear implicits.
Arguments H5File : clear implicits.
Arguments Msg : clear implicits.
Arguments Event : clear implicits.
Arguments LoopState : clear implicits.

(** ** Reading traces *)

Section Reading.

Context {T Meta : Type}.

Definition is_metadata_event (ev : Event T Meta) : bool :=
  match ev with
  | EvSetAttrsFromEpMeta _ | EvSetEpMeta _ => true
  | _ => false
  end.

(** The structural reset and the model load. *)
Definition is_model_event (ev : Event T Meta) : bool :=
  match ev with
  | EvReset | EvPostprocessModelXml _ | EvEditModelXml _
  | EvResetFromXmlString _ | EvSimReset => true
  | _ => false
  end.

Definition is_refresh_event (ev : Event T Meta) : bool :=
  match ev with
  | EvUpdateSites | EvUpdateState => true
  | _ => false
  end.

Definition is_step_event (ev : Event T Meta) : bool :=
  match ev with
  | EvStep _ => true
  | _ => false
  end.

Definition is_frame_event (ev : Event T Meta) : bool :=
  match ev with
  | EvAppendData _ | EvGetWriter _ | EvWriterClose => true
  | _ => false
  end.

Definition is_divergence_warning (ev : Event T Meta) : bool :=
  match ev with
  | EvPrint (MsgDiverged _ _) => true
  | _ => false
  end.

(** An episode is being processed: the simulator is driven or a frame is
    written. *)
Definition is_episode_event (ev : Event T Meta) : bool :=
  match ev with
  | EvPrint (MsgPlayingBack _) | EvStep _ | EvSetStateFromFlattened _
  | EvResetFromXmlString _ | EvAppendData _ => true
  | _ => false
  end.

Definition count (p : Event T Meta -> bool) (tr : list (Event T Meta)) : nat :=
  List.length (filter p tr).

End Reading.

(** ** What the statements below speak of *)

Section Vocabulary.

Context {T Meta E : Type}.
Context {num : Numeric T} {host : Host Meta} {sim : Simulator T Meta E}.

(** The metadata [reset_to] decodes when a model is given: the empty object
    when the request has none, [None] when [json.loads] raises. *)
Definition decode_ep_meta (state : StateDict T) : option Meta :=
  match get_ep_meta state with
  | Some s => json_loads s
  | None => Some meta_empty
  end.

(** The metadata of the request, if it is needed, can be decoded. *)
Definition metadata_decodes (state : StateDict T) : bool :=
  match d_model state, decode_ep_meta state with
  | Some _, None => false
  | _, _ => true
  end.

(** The calls of the metadata step, for a simulator generation. *)
Definition metadata_calls (m : Meta) : list (Event T Meta) :=
  if has_set_attrs_from_ep_meta then [EvSetAttrsFromEpMeta m]
  else if has_set_ep_meta then [EvSetEpMeta m]
  else [].

(** The calls of the refresh step. *)
Definition refresh_calls : list (Event T Meta) :=
  (if has_update_sites then [EvUpdateSites] else []) ++
  (if has_update_state then [EvUpdateState] else []).

(** The handle after the metadata step. *)
Definition with_ep_meta (m : Meta) (env : E) : E :=
  if has_set_attrs_from_ep_meta then set_attrs_from_ep_meta m env
  else if has_set_ep_meta then set_ep_meta m env
  else env.

(** The description that is loaded for a recorded model: the recorded one
    as the library function of robosuite up to 1.3 normalises it, or as the
    environment edits it after the metadata step and the hard reset. *)
Definition normalized_model (model : string) (m : Meta) (env : E) : string :=
  if (robosuite_version_id <=? 3)%Z then postprocess_model_xml model
  else edit_model_xml (env_reset (with_ep_meta m env)) model.

(** The handle after the model branch: each call is made on the handle the
    call before it has left. *)
Definition with_model (model : string) (m : Meta) (env : E) : E :=
  sim_reset (reset_from_xml_string (normalized_model model m env)
                                   (env_reset (with_ep_meta m env))).

(** The handle after the state branch. *)
Definition with_states (state : StateDict T) (env : E) : E :=
  match d_states state with
  | Some v => sim_forward (sim_set_state_from_flattened v env)
  | None => env
  end.

(** The handle after the refresh. *)
Definition refreshed (env : E) : E :=
  let env := if has_update_sites then update_sites env else env in
  if has_update_state then update_state env else env.

(** The normalisation of the model description. *)
Definition normalize_call (model : string) : Event T Meta :=
  if (robosuite_version_id <=? 3)%Z then EvPostprocessModelXml model
  else EvEditModelXml model.

(** The calls of the state injection. *)
Definition inject_calls (state : StateDict T) : list (Event T Meta) :=
  match d_states state with
  | Some v => [EvSetStateFromFlattened v; EvSimForward]
  | None => []
  end.

(** A divergence warning is allowed at step [i] of an episode of
    [traj_len] states. *)
Definition warning_allowed (verbose : bool) (traj_len : nat)
  (ev : Event T Meta) : Prop :=
  match ev with
  | EvPrint (MsgDiverged _ i) =>
      verbose = true \/ (Z.of_nat i = Z.of_nat traj_len - 2)%Z
  | _ => True
  end.

(** The video part of a step can produce its frame: no writer, or a
    non-zero period, at least one camera and renders of one height. *)
Definition video_ready (video_writer : option string) (video_skip : Z)
  (camera_names : option Names) : Prop :=
  video_writer = None \/
  (video_skip <> 0%Z /\
   (exists names, camera_names = Some names /\ names_iter names <> []) /\
   (forall cam env, Np.img_height (sim_render 512 512 cam env) = 512)).

(** A frame is due at this count of the loop (lines 154 and 203). *)
Definition frame_due (video_skip video_count : Z) : Prop :=
  video_skip <> 0%Z /\ (video_count mod video_skip = 0)%Z.

(** The images the cameras give for a frame, in the order of the names. *)
Definition camera_shots (names : Names) (env : E) : list Np.Image :=
  map (fun cam => Np.flip_rows (sim_render 512 512 cam env))
      (names_iter names).

(** [ims] are the stored images of step [i], in the order of the names:
    each name has its array and the array has an image at [i]. *)
Definition stored_shots (traj_grp : Episode T) (names : Names) (i : nat)
  (ims : list Np.Image) : Prop :=
  Forall2 (fun k im =>
             exists arr,
               assoc (String.append k "_image") (ep_obs traj_grp) = Some arr /\
               nth_error arr i = Some im)
          (names_iter names) ims.

(** [out] shows the images of [frames] side by side, in their order: it has
    their height, its width is the sum of theirs, and each of its rows is
    their rows one after the other. *)
Definition side_by_side (frames : list Np.Image) (out : Np.Image) : Prop :=
  Forall (fun g => Np.img_height g = Np.img_height out) frames /\
  Np.img_width out = list_sum (map Np.img_width frames) /\
  forall r, r < Np.img_height out ->
    nth r (Np.img_rows out) [] =
    List.concat (map (fun g => nth r (Np.img_rows g) []) frames).

(** The metadata blob of an episode can be used by the replay driver: it
    decodes, to a [dict] when the verbose preamble reads the instruction in
    it, or it is absent and the verbose preamble, which needs it, is
    off. *)
Definition metadata_usable (verbose : bool) (blob : option string) : bool :=
  match blob with
  | Some s =>
      match json_loads s with
      | Some m => negb verbose || meta_is_dict m
      | None => false
      end
  | None => negb verbose
  end.

(** The number [sort_demos] reads in an ASCII episode id: the integer
    literal that follows its first five characters. *)
Definition demo_number (elem : string) : option Z :=
  if is_ascii elem then int_of_chars (chars (slice_from 5 elem)) else None.

(** [args] with another video path. *)
Definition with_video_path (args : Args) (p : option string) : Args :=
  {| dataset := dataset args;
     filter_key := filter_key args;
     n := n args;
     use_obs := use_obs args;
     use_actions := use_actions args;
     render := render args;
     video_path := p;
     video_skip := video_skip args;
     render_image_names := render_image_names args;
     first := first args;
     extend_states := extend_states args;
     verbose := verbose args;
     use_current_model := use_current_model args |}.

End Vocabulary.

(** ** A small simulator, to run the script on concrete data *)

Module Toy.

#[export] Instance numeric_Z : Numeric Z := {|
  s_zero := 0%Z;
  s_eqb := Z.eqb;
  s_sub := Z.sub;
  s_add := Z.add;
  s_mul := Z.mul;
  s_sqrt := Z.sqrt
|}.

(** Sorting indices by insertion, equal keys in their first order. *)
Fixpoint insert_key (k : Z) (i : nat) (l : list (Z * nat)) : list (Z * nat) :=
  match l with
  | [] => [(k, i)]
  | (k', i') :: l' =>
      if (k <=? k')%Z then (k, i) :: l else (k', i') :: insert_key k i l'
  end.

Definition sort_pairs (l : list (Z * nat)) : list (Z * nat) :=
  fold_right (fun p acc => insert_key (fst p) (snd p) acc) [] l.

Definition argsort (keys : list Z) : list nat :=
  map snd (sort_pairs (combine keys (seq 0 (List.length keys)))).

Definition by_key (p q : Z * nat) : Prop := (fst p <= fst q)%Z.

(** The double quote of JSON texts. *)
Definition dq : string := String "034"%char EmptyString.

Definition quoted (s : string) : string := (dq ++ s ++ dq)%string.

(** The environment metadata of the files below: a name and no keyword
    arguments. *)
Definition lift_args : string :=
  ("{" ++ quoted "env_name" ++ ": " ++ quoted "Lift" ++ ", " ++
   quoted "env_kwargs" ++ ": {}}")%string.

(** A decoded value is kept as its text.  Only the texts used below are
    decoded: the empty object, the empty array and [lift_args]. *)
Definition loads (s : string) : option string :=
  if (s =? "{}")%string || (s =? "[]")%string || (s =? lift_args)%string
  then Some s
  else None.

Definition is_dict (m : string) : bool :=
  match m with
  | String "{"%char _ => true
  | _ => false
  end.

Definition item (k m : string) : option string :=
  if (m =? lift_args)%string
  then if (k =? "env_name")%string then Some (quoted "Lift")
       else if (k =? "env_kwargs")%string then Some "{}"%string
       else None
  else None.

#[export] Instance host : Host string := {|
  json_loads := loads;
  meta_empty := "{}"%string;
  meta_is_dict := is_dict;
  meta_item := item;
  meta_lang := fun _ => None;
  robosuite_version_id := 5%Z;
  postprocess_model_xml := fun xml => xml;
  np_argsort := argsort;
  random_shuffle := @rev string
|}.

(** One degree of freedom: the flattened state is one number. *)
Record Env : Type := {
  model_xml : string;
  ep_meta : option string;
  qpos : Z;
  viewer : bool
}.

(** Which of the optional entry points a simulator generation has. *)
Record Caps : Type := {
  cap_set_attrs_from_ep_meta : bool;
  cap_set_ep_meta : bool;
  cap_update_sites : bool;
  cap_update_state : bool
}.

Definition blank (h w : nat) (p : Np.Pixel) : Np.Image :=
  {| Np.img_width := w; Np.img_rows := repeat (repeat p w) h |}.

Definition simulator (caps : Caps) : Simulator Z string Env := {|
  has_set_attrs_from_ep_meta := cap_set_attrs_from_ep_meta caps;
  has_set_ep_meta := cap_set_ep_meta caps;
  has_update_sites := cap_update_sites caps;
  has_update_state := cap_update_state caps;
  set_attrs_from_ep_meta := fun m e =>
    {| model_xml := model_xml e; ep_meta := Some m; qpos := qpos e;
       viewer := viewer e |};
  set_ep_meta := fun m e =>
    {| model_xml := model_xml e; ep_meta := Some m; qpos := qpos e;
       viewer := viewer e |};
  env_reset := fun e =>
    {| model_xml := model_xml e; ep_meta := ep_meta e; qpos := 0%Z;
       viewer := viewer e |};
  edit_model_xml := fun _ xml => xml;
  reset_from_xml_string := fun xml e =>
    {| model_xml := xml; ep_meta := ep_meta e; qpos := qpos e;
       viewer := viewer e |};
  sim_reset := fun e =>
    {| model_xml := model_xml e; ep_meta := ep_meta e; qpos := 0%Z;
       viewer := viewer e |};
  sim_set_state_from_flattened := fun v e =>
    {| model_xml := model_xml e; ep_meta := ep_meta e; qpos := hd 0%Z v;
       viewer := viewer e |};
  sim_forward := fun e => e;
  update_sites := fun e => e;
  update_state := fun e => e;
  env_step := fun a e =>
    {| model_xml := model_xml e; ep_meta := ep_meta e;
       qpos := (qpos e + hd 0 a)%Z; viewer := viewer e |};
  check_success := fun e => (10 <=? qpos e)%Z;
  sim_get_state := fun e => [qpos e];
  sim_model_get_xml := model_xml;
  sim_render := fun h w cam _ =>
    blank h w (N.of_nat (String.length cam), 0%N, 0%N);
  viewer_is_none := fun e => negb (viewer e);
  initialize_renderer := fun e =>
    {| model_xml := model_xml e; ep_meta := ep_meta e; qpos := qpos e;
       viewer := true |};
  viewer_update := fun e => e;
  viewer_close := fun e =>
    {| model_xml := model_xml e; ep_meta := ep_meta e; qpos := qpos e;
       viewer := false |};
  robosuite_make := fun _ _ _ =>
    {| model_xml := "<mujoco/>"%string; ep_meta := None; qpos := 0%Z;
       viewer := false |}
|}.

Definition caps_none : Caps :=
  {| cap_set_attrs_from_ep_meta := false; cap_set_ep_meta := false;
     cap_update_sites := false; cap_update_state := false |}.

Definition caps_old : Caps :=
  {| cap_set_attrs_from_ep_meta := true; cap_set_ep_meta := false;
     cap_update_sites := true; cap_update_state := false |}.

Definition caps_new : Caps :=
  {| cap_set_attrs_from_ep_meta := false; cap_set_ep_meta := true;
     cap_update_sites := false; cap_update_state := true |}.

Definition caps_all : Caps :=
  {| cap_set_attrs_from_ep_meta := true; cap_set_ep_meta := true;
     cap_update_sites := true; cap_update_state := true |}.

Definition env0 : Env :=
  {| model_xml := "<mujoco/>"%string; ep_meta := None; qpos := 0%Z;
     viewer := false |}.

(** A recorded episode with two transitions: the state is one number, each
    action adds to it.  The last recorded state is off by 3 from what the
    actions produce. *)
Definition episode : Episode Z :=
  {| ep_states := Some [[0]; [1]; [5]]%Z;
     ep_actions := Some [[1]; [1]; [1]]%Z;
     ep_model_file := Some "<mujoco/>"%string;
     ep_ep_meta := Some "{}"%string;
     ep_obs := [] |}.

Definition file_of (ids : list string) (e : Episode Z) : H5File Z :=
  {| h5_data := Some {| env_args := Some lift_args;
                        demos_of := map (fun k => (k, e)) ids |};
     h5_mask := [] |}.

Definition args0 : Args :=
  {| dataset := "demo.hdf5"%string;
     filter_key := None;
     n := None;
     use_obs := false;
     use_actions := false;
     render := false;
     video_path := None;
     video_skip := 5%Z;
     render_image_names := Some ["agentview"%string];
     first := false;
     extend_states := false;
     verbose := false;
     use_current_model := false |}.

(** The simulator at position [q]. *)
Definition env_at (q : Z) : Env :=
  {| model_xml := "<mujoco/>"%string; ep_meta := None; qpos := q;
     viewer := false |}.

Definition request_empty : StateDict Z :=
  {| d_states := None; d_model := None; d_ep_meta := None |}.

Definition request_states : StateDict Z :=
  {| d_states := Some [7%Z]; d_model := None; d_ep_meta := None |}.

Definition request_full : StateDict Z :=
  {| d_states := Some [7%Z]; d_model := Some "<mujoco/>"%string;
     d_ep_meta := Some (Some "{}"%string) |}.

(** [--render --video_path out.mp4 --use-actions] *)
Definition args_render_and_video : Args :=
  {| dataset := "demo.hdf5"%string;
     filter_key := None;
     n := None;
     use_obs := false;
     use_actions := true;
     render := true;
     video_path := Some "out.mp4"%string;
     video_skip := 5%Z;
     render_image_names := Some ["agentview"%string];
     first := false;
     extend_states := false;
     verbose := false;
     use_current_model := false |}.

(** [--use-actions --extend_states] *)
Definition args_extend : Args :=
  {| dataset := "demo.hdf5"%string;
     filter_key := None;
     n := None;
     use_obs := false;
     use_actions := true;
     render := false;
     video_path := None;
     video_skip := 5%Z;
     render_image_names := Some ["agentview"%string];
     first := false;
     extend_states := true;
     verbose := false;
     use_current_model := false |}.

Definition two_demos : H5File Z :=
  file_of ["demo_10"; "demo_2"]%string episode.

Definition run_render_and_video : M (Event Z string) unit :=
  playback_dataset (sim := simulator caps_new) args_render_and_video
                   two_demos.

Definition red : Np.Pixel := (255%N, 0%N, 0%N).

Definition blue : Np.Pixel := (0%N, 0%N, 255%N).

End Toy.

(** ** [ObservationKeyToModalityDict] *)

Module Modality.

(** A [dict] from observation keys to modality names: its entries in
    insertion order, each key once. *)
Definition Dict : Type := list (string * string).

(** What the class prints. *)
Inductive Notice : Type :=
| NotFound (item : string).

(** [item in self.keys()] *)
Definition contains (item : string) (self : Dict) : bool :=
  existsb (fun kv => String.eqb item (fst kv)) self.

(** [dict.__setitem__]: the value of a key that is there is replaced in
    place, a new key goes to the end. *)
Fixpoint setitem (item value : string) (self : Dict) : Dict :=
  match self with
  | [] => [(item, value)]
  | (k, v) :: rest =>
      if String.eqb item k then (k, value) :: rest
      else (k, v) :: setitem item value rest
  end.

(** [dict.__getitem__] *)
Definition dict_getitem (item : string) (self : Dict) : M Notice string :=
  getitem (assoc item self).

(** [ObservationKeyToModalityDict.__getitem__]: the value and the
    dictionary after the call. *)
Definition getitem_default (item : string) (self : Dict)
  : M Notice (string * Dict) :=
  self <- (if negb (contains item self)
           then emit (NotFound item) ;;
                ret (setitem item "low_dim" self)
           else ret self) ;;
  value <- dict_getitem item self ;;
  ret (value, self).

End Modality.

(** ** More to read in traces *)

Section MoreReading.

Context {T Meta : Type}.

Definition is_inject_event (ev : Event T Meta) : bool :=
  match ev with
  | EvSetStateFromFlattened _ => true
  | _ => false
  end.

Definition is_append_event (ev : Event T Meta) : bool :=
  match ev with
  | EvAppendData _ => true
  | _ => false
  end.

Definition is_render_event (ev : Event T Meta) : bool :=
  match ev with
  | EvRender _ => true
  | _ => false
  end.

(** The file, the video writer or the environment is closed. *)
Definition is_close_event (ev : Event T Meta) : bool :=
  match ev with
  | EvFileClose | EvWriterClose | EvEnvClose => true
  | _ => false
  end.

(** A call on the simulator side: the creation of an environment, a call
    on its handle, or the normalisation of a model. *)
Definition is_simulator_event (ev : Event T Meta) : bool :=
  match ev with
  | EvPrint _ | EvGetWriter _ | EvAppendData _ | EvWriterClose | EvShuffle
  | EvFileClose => false
  | _ => true
  end.

(** The calls of state-injection replay: the injection and its forward
    pass, the refresh, and the rendering of the step. *)
Definition is_state_replay_event (ev : Event T Meta) : bool :=
  match ev with
  | EvSetStateFromFlattened _ | EvSimForward | EvUpdateSites | EvUpdateState
  | EvRender _ | EvAppendData _ | EvInitializeRenderer | EvViewerUpdate =>
      true
  | _ => false
  end.

(** An episode is announced (line 405). *)
Definition is_announce_event (ev : Event T Meta) : bool :=
  match ev with
  | EvPrint (MsgPlayingBack _) => true
  | _ => false
  end.

(** The episodes a trace announces, in the order of the announcements. *)
Definition announced (tr : list (Event T Meta)) : list string :=
  flat_map (fun ev => match ev with
                      | EvPrint (MsgPlayingBack ep) => [ep]
                      | _ => []
                      end) tr.

(** The steps at which a frame is due: those whose index is a multiple of
    the period. *)
Definition sampled (video_skip : Z) (indices : list nat) : list nat :=
  filter (fun i => (Z.of_nat i mod video_skip =? 0)%Z) indices.

(** The steps a loop over [traj_len] steps executes. *)
Definition executed (first : bool) (traj_len : nat) : nat :=
  if first then Nat.min 1 traj_len else traj_len.

(** The calls that end a run that returns. *)
Definition closing_calls (args : Args) : list (Event T Meta) :=
  [EvFileClose] ++
  (if write_video_of args
   then [EvPrint (MsgSavedVideo (video_path_of args)); EvWriterClose]
   else []) ++
  (if use_obs args then [] else [EvEnvClose]).

End MoreReading.

Section MoreVocabulary.

Context {T Meta E : Type}.
Context {num : Numeric T} {host : Host Meta} {sim : Simulator T Meta E}.

(** The replay mode can run: nothing is asked of state injection; action
    replay needs as many actions as states, and recorded states of the
    dimension of the simulator state. *)
Definition mode_ready (states : list (list T))
  (actions : option (list (list T))) (d : nat) : Prop :=
  match actions with
  | Some acts =>
      List.length acts = List.length states /\
      Forall (fun r => List.length r = d) states /\
      (forall e : E, List.length (sim_get_state e) = d)
  | None => True
  end.

(** A writer is there and its frames can be produced. *)
Definition cameras_ready (video_skip : Z) (names : Names) : Prop :=
  video_skip <> 0%Z /\
  names_iter names <> [] /\
  (forall cam (env : E), Np.img_height (sim_render 512 512 cam env) = 512).

(** The image arrays of a trajectory group can be read for [traj_len]
    steps: each name has its array, long enough, and the images of one step
    have one height. *)
Definition images_ready (traj_grp : Episode T) (names : list string)
  (traj_len : nat) : Prop :=
  exists arrays : list (list Np.Image),
    Forall2 (fun k arr =>
               assoc (String.append k "_image") (ep_obs traj_grp) = Some arr /\
               traj_len <= List.length arr)
            names arrays /\
    forall i, i < traj_len ->
      exists h,
        Forall (fun arr =>
                  Np.img_height (nth i arr {| Np.img_width := 0;
                                              Np.img_rows := [] |}) = h)
               arrays.

(** [random.shuffle] permutes. *)
Definition shuffle_contract (shuffle : list string -> list string) : Prop :=
  forall l, Permutation (shuffle l) l.

End MoreVocabulary.

(** ** Reports of a replay *)

Section Reports.

Context {T Meta E : Type}.
Context {num : Numeric T} {host : Host Meta} {sim : Simulator T Meta E}.

(** The warning of line 176. *)
Definition is_not_success_event (ev : Event T Meta) : bool :=
  match ev with
  | EvPrint MsgNotSuccess => true
  | _ => false
  end.

(** A warning of the replay driver. *)
Definition is_warning_event (ev : Event T Meta) : bool :=
  match ev with
  | EvPrint MsgNotSuccess | EvPrint (MsgDiverged _ _) => true
  | _ => false
  end.

(** The handles a sequence of actions leads through, one per step, when
    nothing but [env.step] touches the simulator. *)
Fixpoint rollout (actions : list (list T)) (env : E) : list E :=
  match actions with
  | [] => []
  | a :: rest => env_step a env :: rollout rest (env_step a env)
  end.

(** The model an episode is restored from. *)
Definition model_used (args : Args) (env : E) (recorded : string) : string :=
  if use_current_model args then sim_model_get_xml env else recorded.

End Reports.

(** ** More data for the small simulator *)

Module Demo.

Import Toy.

(** An episode with two image keys, three frames each. *)
Definition filmed : Episode Z :=
  {| ep_states := Some [[0]; [1]; [2]]%Z;
     ep_actions := Some [[1]; [1]; [1]]%Z;
     ep_model_file := Some "<mujoco/>"%string;
     ep_ep_meta := None;
     ep_obs :=
       [("agentview_image"%string,
         [blank 2 3 red; blank 2 3 red; blank 2 3 red]);
        ("wrist_image"%string,
         [blank 2 1 blue; blank 2 1 blue; blank 2 1 blue])] |}.

Definition both_views : Names :=
  NameList ["agentview"; "wrist"]%string.

(** An episode without a model attribute. *)
Definition no_model : Episode Z :=
  {| ep_states := Some [[0]; [1]]%Z;
     ep_actions := Some [[1]; [1]]%Z;
     ep_model_file := None;
     ep_ep_meta := Some "{}"%string;
     ep_obs := [] |}.

(** [--use-obs] *)
Definition args_obs : Args :=
  {| dataset := "demo.hdf5"%string;
     filter_key := None;
     n := None;
     use_obs := true;
     use_actions := false;
     render := false;
     video_path := None;
     video_skip := 2%Z;
     render_image_names := Some ["agentview"; "wrist"]%string;
     first := false;
     extend_states := false;
     verbose := false;
     use_current_model := false |}.

(** [--render] with two cameras *)
Definition args_two_cameras : Args :=
  {| dataset := "demo.hdf5"%string;
     filter_key := None;
     n := None;
     use_obs := false;
     use_actions := false;
     render := true;
     video_path := None;
     video_skip := 5%Z;
     render_image_names := Some ["agentview"; "wrist"]%string;
     first := false;
     extend_states := false;
     verbose := false;
     use_current_model := false |}.

(** [--n 1] *)
Definition args_one : Args :=
  {| dataset := "demo.hdf5"%string;
     filter_key := None;
     n := Some 1%Z;
     use_obs := false;
     use_actions := false;
     render := false;
     video_path := None;
     video_skip := 5%Z;
     render_image_names := Some ["agentview"%string];
     first := false;
     extend_states := false;
     verbose := false;
     use_current_model := false |}.

(** [--verbose --use_current_model] *)
Definition args_verbose : Args :=
  {| dataset := "demo.hdf5"%string;
     filter_key := None;
     n := None;
     use_obs := false;
     use_actions := false;
     render := false;
     video_path := None;
     video_skip := 5%Z;
     render_image_names := Some ["agentview"%string];
     first := false;
     extend_states := false;
     verbose := true;
     use_current_model := true |}.



(** A file whose environment metadata is the empty object. *)
Definition bare_file : H5File Z :=
  {| h5_data := Some {| env_args := Some "{}"%string;
                        demos_of := [("demo_1"%string, episode)] |};
     h5_mask := [] |}.

(** A file with neither a data group nor filter keys. *)
Definition empty_file : H5File Z :=
  {| h5_data := None; h5_mask := [] |}.

(** The small simulator with a velocity in its flattened state, which then
    has two numbers. *)
Definition with_velocity : Simulator Z string Env :=
  let base := simulator caps_none in
  {| has_set_attrs_from_ep_meta := false;
     has_set_ep_meta := false;
     has_update_sites := false;
     has_update_state := false;
     set_attrs_from_ep_meta := @set_attrs_from_ep_meta _ _ _ base;
     set_ep_meta := @set_ep_meta _ _ _ base;
     env_reset := @env_reset _ _ _ base;
     edit_model_xml := @edit_model_xml _ _ _ base;
     reset_from_xml_string := @reset_from_xml_string _ _ _ base;
     sim_reset := @sim_reset _ _ _ base;
     sim_set_state_from_flattened := @sim_set_state_from_flattened _ _ _ base;
     sim_forward := @sim_forward _ _ _ base;
     update_sites := @update_sites _ _ _ base;
     update_state := @update_state _ _ _ base;
     env_step := @env_step _ _ _ base;
     check_success := @check_success _ _ _ base;
     sim_get_state := fun e => [qpos e; 0%Z];
     sim_model_get_xml := @sim_model_get_xml _ _ _ base;
     sim_render := @sim_render _ _ _ base;
     viewer_is_none := @viewer_is_none _ _ _ base;
     initialize_renderer := @initialize_renderer _ _ _ base;
     viewer_update := @viewer_update _ _ _ base;
     viewer_close := @viewer_close _ _ _ base;
     robosuite_make := @robosuite_make _ _ _ base |}.

Definition modalities : Modality.Dict :=
  [("agentview_image", "rgb"); ("robot0_eef_pos", "low_dim")]%string.

End Demo.

(** * Properties *)

(** ** The monad *)

Section MonadFacts.

Context {Ev : Type}.

Lemma count_app (p : Ev -> bool) (a b : list Ev) :
  List.length (filter p (a ++ b)) =
  List.length (filter p a) + List.length (filter p b).
Proof.
  now rewrite filter_app, length_app.
Qed.

Lemma runs_ret (A : Type) (p : Ev -> bool) (Q : Ev -> Prop) (a : A) :
  runs p Q (ret a) 0.
Proof.
  exists [], a. auto.
Qed.

Lemma runs_bind (A B : Type) (p : Ev -> bool) (Q : Ev -> Prop)
  (m : M Ev A) (f : A -> M Ev B) (k1 k2 : nat) :
  runs p Q m k1 -> (forall a, runs p Q (f a) k2) ->
  runs p Q (bind m f) (k1 + k2).
Proof.
  intros (t1 & a & -> & Hk1 & HQ1) Hf.
  destruct (Hf a) as (t2 & b & Hfa & Hk2 & HQ2).
  exists (t1 ++ t2), b. cbn. rewrite Hfa. repeat split.
  - rewrite count_app. lia.
  - apply Forall_app. auto.
Qed.

Lemma silent_bind (A B : Type) (p : Ev -> bool) (m : M Ev A)
  (f : A -> M Ev B) :
  silent p m -> (forall a, silent p (f a)) -> silent p (bind m f).
Proof.
  unfold silent, trace. destruct m as [t1 [a | e]]; cbn; intros H1 Hf.
  - specialize (Hf a). destruct (f a) as [t2 r]. cbn in *.
    rewrite count_app. lia.
  - exact H1.
Qed.

Lemma silent_bind_ok (A B : Type) (p : Ev -> bool) (m : M Ev A)
  (f : A -> M Ev B) :
  silent p m -> (forall t a, m = (t, Ok a) -> silent p (f a)) ->
  silent p (bind m f).
Proof.
  unfold silent, trace. destruct m as [t1 [a | e]]; cbn; intros H1 Hf.
  - specialize (Hf t1 a eq_refl). destruct (f a) as [t2 r]. cbn in *.
    rewrite count_app. lia.
  - exact H1.
Qed.

Lemma silent_pure (A : Type) (p : Ev -> bool) (r : Res A) :
  silent p (([], r) : M Ev A).
Proof.
  reflexivity.
Qed.

Lemma silent_emit (p : Ev -> bool) (ev : Ev) :
  p ev = false -> silent p (emit ev).
Proof.
  unfold silent. cbn. now intros ->.
Qed.



End MonadFacts.

(** ** [reset_to] *)

Section Restorer.

Context {T Meta E : Type}.
Context {num : Numeric T} {host : Host Meta} {sim : Simulator T Meta E}.

Ltac probe_simulator :=
  unfold apply_ep_meta, refresh, metadata_calls, refresh_calls,
    normalize_call, inject_calls;
  destruct has_set_attrs_from_ep_meta, has_set_ep_meta,
    has_update_sites, has_update_state,
    (robosuite_version_id <=? 3)%Z.

(** With a model in the request: metadata, hard reset, model load, engine
    reset, then the state branch and the refresh. *)
Lemma reset_to_with_model (env : E) (state : StateDict T) (model : string)
  (m : Meta) :
  d_model state = Some model ->
  decode_ep_meta state = Some m ->
  exists env',
    reset_to env state =
      (metadata_calls m ++
       [EvReset; normalize_call model;
        EvResetFromXmlString (normalized_model model m env); EvSimReset] ++
       inject_calls state ++ refresh_calls,
       Ok (env', None)).
Proof.
  intros Hmodel Hmeta. unfold reset_to, decode_ep_meta in *.
  rewrite Hmodel. unfold normalized_model, with_ep_meta.
  destruct (get_ep_meta state) as [s | ].
  - rewrite Hmeta. probe_simulator; destruct (d_states state); cbn;
      eexists; reflexivity.
  - injection Hmeta as <-. probe_simulator; destruct (d_states state); cbn;
      eexists; reflexivity.
Qed.

(** Without a model: only the state branch and the refresh. *)
Lemma reset_to_without_model (env : E) (state : StateDict T) :
  d_model state = None ->
  exists env',
    reset_to env state = (inject_calls state ++ refresh_calls, Ok (env', None)).
Proof.
  intros Hmodel. unfold reset_to. rewrite Hmodel.
  probe_simulator; destruct (d_states state); cbn; eexists; reflexivity.
Qed.

(** A metadata blob that does not decode stops the restoration before any
    call. *)
Lemma reset_to_bad_metadata (env : E) (state : StateDict T) :
  metadata_decodes state = false ->
  reset_to env state = ([], Raise JSONDecodeError).
Proof.
  unfold metadata_decodes, decode_ep_meta, reset_to.
  destruct (d_model state) as [model | ]; [ | discriminate ].
  destruct (get_ep_meta state) as [s | ]; [ | discriminate ].
  now destruct (json_loads s).
Qed.

Lemma reset_to_runs (env : E) (state : StateDict T) :
  metadata_decodes state = true ->
  exists tr env', reset_to env state = (tr, Ok (env', None)).
Proof.
  unfold metadata_decodes. intros Hdec.
  destruct (d_model state) as [model | ] eqn:Hmodel.
  - destruct (decode_ep_meta state) as [m | ] eqn:Hmeta; [ | discriminate ].
    destruct (reset_to_with_model env state Hmodel Hmeta) as (env' & ->).
    eauto.
  - destruct (reset_to_without_model env state Hmodel) as (env' & ->). eauto.
Qed.

Lemma no_refresh_before (state : StateDict T) (m : Meta) (model xml : string) :
  count (@is_refresh_event T Meta)
        (metadata_calls m ++
         [EvReset; normalize_call model; EvResetFromXmlString xml;
          EvSimReset] ++
         inject_calls state) = 0 /\
  count (@is_refresh_event T Meta) (inject_calls state) = 0.
Proof.
  unfold count. probe_simulator; destruct (d_states state); cbn; auto.
Qed.

(** C2, as amended: a request with neither a model nor a state vector is
    accepted.  [reset_to] loads no model and injects no state; it only makes
    the refresh calls the simulator has and returns [None]. *)
Theorem reset_to_accepts_empty_request (env : E) (state : StateDict T) :
  d_model state = None ->
  d_states state = None ->
  exists env', reset_to env state = (refresh_calls, Ok (env', None)).
Proof.
  intros Hmodel Hstates.
  destruct (reset_to_without_model env state Hmodel) as (env' & Hrun).
  exists env'. rewrite Hrun. unfold inject_calls. now rewrite Hstates.
Qed.

(** C3, as amended: with only a state vector, [reset_to] makes no metadata
    call and no model call: it injects the state, propagates it and
    refreshes.  With a model, and metadata that decodes, the calls are, in
    this order: the metadata call of the entry point the simulator has (the
    older one when it has it, else the newer one, none when it has
    neither), the hard reset, the normalisation of the recorded model and
    the load of its result, the engine reset, then the state injection and
    the forward pass when a state is given, then the refresh.  Each call is
    made on the handle that the call before it has left. *)
Theorem reset_to_call_order (env : E) (state : StateDict T) :
  (d_model state = None ->
   reset_to env state =
     (inject_calls state ++ refresh_calls,
      Ok (refreshed (with_states state env), None)) /\
   count (@is_metadata_event T Meta)
         (inject_calls state ++ refresh_calls) = 0 /\
   count (@is_model_event T Meta)
         (inject_calls state ++ refresh_calls) = 0) /\
  (forall model m,
     d_model state = Some model ->
     decode_ep_meta state = Some m ->
     reset_to env state =
       (metadata_calls m ++
        [EvReset; normalize_call model;
         EvResetFromXmlString (normalized_model model m env);
         EvSimReset] ++
        inject_calls state ++ refresh_calls,
        Ok (refreshed (with_states state (with_model model m env)), None))).
Proof.
  split.
  - intros Hmodel. split.
    + unfold reset_to, refreshed, with_states. rewrite Hmodel.
      probe_simulator; destruct (d_states state); reflexivity.
    + unfold count, inject_calls, refresh_calls.
      destruct (d_states state), has_update_sites, has_update_state;
        cbn; auto.
  - intros model m Hmodel Hmeta.
    unfold reset_to, decode_ep_meta in *. rewrite Hmodel.
    unfold refreshed, with_states, with_model, normalized_model, with_ep_meta.
    destruct (get_ep_meta state) as [s | ];
      [ rewrite Hmeta | injection Hmeta as <- ];
      probe_simulator; destruct (d_states state); reflexivity.
Qed.

(** C5, as amended: every successful restoration ends with the refresh
    calls, and makes none before: [update_sites] when the simulator has it,
    then [update_state] when the simulator has it.  A simulator with both
    gets both calls, a simulator with neither gets none, and the
    restoration succeeds in each case. *)
Theorem reset_to_refresh_calls (env : E) (state : StateDict T) :
  metadata_decodes state = true ->
  exists pre env',
    reset_to env state = (pre ++ refresh_calls, Ok (env', None)) /\
    count (@is_refresh_event T Meta) pre = 0 /\
    count (@is_refresh_event T Meta) (pre ++ refresh_calls) =
      (if has_update_sites then 1 else 0) + (if has_update_state then 1 else 0).
Proof.
  unfold metadata_decodes. intros Hdec.
  assert (Hcalls : count (@is_refresh_event T Meta) refresh_calls =
            (if has_update_sites then 1 else 0) +
            (if has_update_state then 1 else 0)).
  { unfold count, refresh_calls.
    destruct has_update_sites, has_update_state; reflexivity. }
  destruct (d_model state) as [model | ] eqn:Hmodel.
  - destruct (decode_ep_meta state) as [m | ] eqn:Hmeta; [ | discriminate ].
    destruct (reset_to_with_model env state Hmodel Hmeta)
      as (env' & Hrun).
    set (xml := normalized_model model m env) in *.
    destruct (no_refresh_before state m model xml) as [Hpre _].
    exists (metadata_calls m ++
            [EvReset; normalize_call model; EvResetFromXmlString xml;
             EvSimReset] ++ inject_calls state), env'.
    repeat split.
    + rewrite Hrun. f_equal. now rewrite <- !app_assoc.
    + exact Hpre.
    + unfold count in *. rewrite count_app. rewrite Hpre, Hcalls. reflexivity.
  - destruct (reset_to_without_model env state Hmodel) as (env' & Hrun).
    destruct (no_refresh_before state meta_empty "" "") as [_ Hpre].
    exists (inject_calls state), env'.
    repeat split.
    + exact Hrun.
    + exact Hpre.
    + unfold count in *. rewrite count_app. rewrite Hpre, Hcalls. reflexivity.
Qed.

(** C10: [reset_to] never returns an observation.  Whatever the handle and
    the request, a restoration that returns returns [None], also when a
    state vector was injected; it returns whenever the metadata of the
    request decodes, and otherwise [json.loads] raises before any call. *)
Theorem reset_to_returns_none (env : E) (state : StateDict T) :
  (forall tr env' r, reset_to env state = (tr, Ok (env', r)) -> r = None) /\
  (metadata_decodes state = true ->
   exists tr env', reset_to env state = (tr, Ok (env', None))) /\
  (metadata_decodes state = false ->
   reset_to env state = ([], Raise JSONDecodeError)).
Proof.
  split; [ | split ].
  - intros tr env' r Hrun.
    destruct (metadata_decodes state) eqn:Hdec.
    + destruct (reset_to_runs env state Hdec) as (tr' & env'' & Hrun').
      rewrite Hrun' in Hrun. now injection Hrun as _ _ <-.
    + rewrite (reset_to_bad_metadata env state Hdec) in Hrun. discriminate.
  - apply reset_to_runs.
  - apply reset_to_bad_metadata.
Qed.

End Restorer.

(** ** The frame multiplexer: [np.concatenate(frames, axis=1)] *)

Section Multiplexer.

Import Np.

Lemma hstack_rows_length (a b : list (list Pixel)) :
  List.length a = List.length b ->
  List.length (hstack_rows a b) = List.length a.
Proof.
  unfold hstack_rows. revert b.
  induction a as [ | x a IH]; intros [ | y b]; cbn; try discriminate; auto.
Qed.

Lemma hstack_rows_nth (a b : list (list Pixel)) (r : nat) :
  List.length a = List.length b ->
  r < List.length a ->
  nth r (hstack_rows a b) [] = nth r a [] ++ nth r b [].
Proof.
  unfold hstack_rows. revert b r.
  induction a as [ | x a IH]; intros [ | y b] r; cbn; try discriminate;
    try lia.
  intros [= Hlen] Hr. destruct r as [ | r]; [ reflexivity | ].
  apply IH; [ exact Hlen | lia ].
Qed.

Lemma fold_hstack (rest : list Image) (acc : list (list Pixel)) (h : nat) :
  List.length acc = h ->
  Forall (fun g => img_height g = h) rest ->
  List.length (fold_left (fun acc g => hstack_rows acc (img_rows g)) rest acc)
    = h /\
  forall r, r < h ->
    nth r (fold_left (fun acc g => hstack_rows acc (img_rows g)) rest acc) []
    = nth r acc [] ++ List.concat (map (fun g => nth r (img_rows g) []) rest).
Proof.
  revert acc. induction rest as [ | g rest IH]; intros acc Hacc Hall; cbn.
  - split; [ exact Hacc | ]. intros r _. now rewrite app_nil_r.
  - inversion Hall as [ | ? ? Hg Hrest]; subst. unfold img_height in Hg.
    assert (Hlen : List.length acc = List.length (img_rows g)) by congruence.
    destruct (IH (hstack_rows acc (img_rows g))) as [Hl Hn].
    + now rewrite hstack_rows_length.
    + exact Hrest.
    + split; [ exact Hl | ]. intros r Hr.
      rewrite (Hn r Hr), hstack_rows_nth by (auto; lia).
      now rewrite <- app_assoc.
Qed.

Lemma fold_width (rest : list Image) (w : nat) :
  fold_left (fun w g => w + img_width g) rest w =
  w + list_sum (map img_width rest).
Proof.
  revert w. induction rest as [ | g rest IH]; intros w; cbn.
  - lia.
  - rewrite IH. fold (list_sum (map img_width rest)). lia.
Qed.

Lemma heights_agree (f0 : Image) (rest : list Image) (h : nat) :
  Forall (fun g => img_height g = h) (f0 :: rest) ->
  forallb (fun g => img_height g =? img_height f0) rest = true.
Proof.
  intros Hall. inversion Hall as [ | ? ? H0 Hrest]; subst.
  apply forallb_forall. intros g Hin.
  rewrite Forall_forall in Hrest. apply Nat.eqb_eq. now apply Hrest.
Qed.

Lemma concatenate_equal_heights (f0 : Image) (rest : list Image) (h : nat) :
  Forall (fun g => img_height g = h) (f0 :: rest) ->
  exists out,
    concatenate_axis1 (f0 :: rest) = Ok out /\
    img_height out = h /\
    img_width out = list_sum (map img_width (f0 :: rest)) /\
    forall r, r < h ->
      nth r (img_rows out) [] =
      List.concat (map (fun g => nth r (img_rows g) []) (f0 :: rest)).
Proof.
  intros Hall. unfold concatenate_axis1.
  rewrite (heights_agree Hall).
  inversion Hall as [ | ? ? H0 Hrest]; subst.
  destruct (fold_hstack (img_rows f0) eq_refl Hrest) as [Hl Hn].
  eexists. split; [ reflexivity | ]. cbn.
  repeat split.
  - exact Hl.
  - apply fold_width.
  - exact Hn.
Qed.

Lemma concatenate_mismatch (frames : list Image) (f g : Image) :
  In f frames -> In g frames -> img_height f <> img_height g ->
  concatenate_axis1 frames = Raise ValueError.
Proof.
  intros Hf Hg Hne. destruct frames as [ | f0 rest]; [ reflexivity | ].
  unfold concatenate_axis1.
  destruct (forallb _ rest) eqn:Hall; [ exfalso | reflexivity ].
  rewrite forallb_forall in Hall.
  assert (Hh : forall x, In x (f0 :: rest) -> img_height x = img_height f0).
  { intros x [<- | Hx]; [ reflexivity | ]. now apply Nat.eqb_eq, Hall. }
  apply Hne. now rewrite (Hh f Hf), (Hh g Hg).
Qed.

Lemma well_shaped_row (im : Image) (r : nat) :
  well_shaped im -> r < img_height im ->
  List.length (nth r (img_rows im) []) = img_width im.
Proof.
  unfold well_shaped, img_height. intros Hw Hr.
  rewrite Forall_forall in Hw. apply Hw. now apply nth_In.
Qed.

Lemma pixel_at_nth (im : Image) (r c : nat) :
  r < img_height im ->
  pixel_at im r c = nth_error (nth r (img_rows im) []) c.
Proof.
  unfold pixel_at, img_height. intros Hr.
  now rewrite (nth_error_nth' _ [] Hr).
Qed.

Lemma concatenate_side_by_side (frames : list Image) (h : nat) :
  frames <> [] ->
  Forall (fun g => img_height g = h) frames ->
  exists out, concatenate_axis1 frames = Ok out /\ side_by_side frames out.
Proof.
  intros Hne Hall. destruct frames as [ | f0 rest]; [ contradiction | ].
  destruct (concatenate_equal_heights Hall) as (out & Hrun & Hh & Hw & Hrows).
  exists out. split; [ exact Hrun | ]. rewrite <- Hh in *.
  repeat split; assumption.
Qed.

Lemma side_by_side_pair (a b out : Image) (H W : nat) :
  side_by_side [a; b] out ->
  img_height a = H -> img_width a = W -> img_width b = W ->
  well_shaped a -> well_shaped b ->
  img_height out = H /\
  img_width out = 2 * W /\
  forall r c, r < H -> c < W ->
    pixel_at out r c = pixel_at a r c /\
    pixel_at out r (W + c) = pixel_at b r c.
Proof.
  intros (Hall & Hw & Hrows) Ha Hwa Hwb Hsa Hsb.
  inversion Hall as [ | ? ? Hha Hall']; subst.
  inversion Hall' as [ | ? ? Hhb _]; subst.
  split; [ now symmetry | ]. split; [ rewrite Hw; cbn; lia | ].
  intros r c Hr Hc. split.
  - rewrite pixel_at_nth, Hrows, pixel_at_nth by lia. cbn.
    rewrite app_nil_r. apply nth_error_app1.
    rewrite well_shaped_row; auto; lia.
  - rewrite pixel_at_nth, Hrows by lia.
    rewrite (pixel_at_nth b) by lia. cbn. rewrite app_nil_r.
    rewrite nth_error_app2; rewrite well_shaped_row; auto; try lia.
    f_equal. lia.
Qed.

End Multiplexer.

(** ** The divergence check and the replay loop *)

Section Replay.

Context {T Meta E : Type}.
Context {num : Numeric T} {host : Host Meta} {sim : Simulator T Meta E}.

Lemma ufunc2_same_length (A B : Type) (f : A -> A -> B) (x y : list A) :
  List.length x = List.length y ->
  Np.ufunc2 f x y = Ok (Np.zip_with f x y).
Proof.
  unfold Np.ufunc2. intros H. now rewrite H, Nat.eqb_refl.
Qed.

Lemma check_divergence_same_shape (verbose : bool) (traj_len i : nat)
  (expected actual : list T) :
  List.length expected = List.length actual ->
  check_divergence (Meta := Meta) verbose traj_len i expected actual =
    (if negb (Np.all (Np.zip_with s_eqb expected actual)) &&
        (verbose || (Z.of_nat i =? Z.of_nat traj_len - 2)%Z)
     then [EvPrint (MsgDiverged
                      (Np.linalg_norm (Np.zip_with s_sub expected actual)) i)]
     else [],
     Ok tt).
Proof.
  intros Hlen. unfold check_divergence, Np.equal, Np.subtract.
  rewrite !ufunc2_same_length by exact Hlen. cbn.
  destruct (Np.all _); cbn; [ reflexivity | ].
  destruct (verbose || _); reflexivity.
Qed.

Lemma checked_step (traj_len i : nat) :
  i + 1 < traj_len -> (Z.of_nat i <? Z.of_nat traj_len - 1)%Z = true.
Proof.
  intros H. apply Z.ltb_lt. lia.
Qed.

Lemma action_step_checked (states actions : list (list T)) (verbose : bool)
  (i : nat) (env : E) (success : bool) (a expected : list T) :
  nth_error actions i = Some a ->
  nth_error states (i + 1) = Some expected ->
  List.length expected = List.length (sim_get_state (env_step a env)) ->
  action_step states actions verbose (List.length states) i env success =
    ([EvStep a; EvCheckSuccess; EvGetState] ++
     fst (check_divergence verbose (List.length states) i expected
            (sim_get_state (env_step a env))),
     Ok (env_step a env,
         if check_success (env_step a env) then true else success)).
Proof.
  intros Ha Hexp Hlen.
  assert (Hi : i + 1 < List.length states).
  { apply nth_error_Some. now rewrite Hexp. }
  unfold action_step, index. rewrite Ha, Hexp, checked_step by exact Hi.
  cbn -[check_divergence].
  rewrite check_divergence_same_shape by exact Hlen. cbn.
  now rewrite app_nil_r.
Qed.

(** C4, as amended: in an action step before the last, whose recorded
    next state and simulator state have one shape, the distance is computed
    only when the two vectors are not element-wise equal; it is then the
    Euclidean norm of their element-wise difference, and it is reported,
    with the step index, only when logging is verbose or the step is the
    last checked one.  When the vectors are equal no distance is computed
    and nothing is reported. *)
Theorem divergence_distance (states actions : list (list T)) (verbose : bool)
  (i : nat) (env : E) (success : bool) (a expected : list T) :
  nth_error actions i = Some a ->
  nth_error states (i + 1) = Some expected ->
  List.length expected = List.length (sim_get_state (env_step a env)) ->
  let env' := env_step a env in
  let actual := sim_get_state env' in
  let exact_match := Np.all (Np.zip_with s_eqb expected actual) in
  let distance := s_sqrt (Np.sum_squares (Np.zip_with s_sub expected actual)) in
  let last_checked := (Z.of_nat i =? Z.of_nat (List.length states) - 2)%Z in
  let result := Ok (env', if check_success env' then true else success) in
  let run := action_step states actions verbose (List.length states) i env
                         success in
  (exact_match = true ->
   run = ([EvStep a; EvCheckSuccess; EvGetState], result)) /\
  (exact_match = false -> verbose || last_checked = true ->
   run = ([EvStep a; EvCheckSuccess; EvGetState;
           EvPrint (MsgDiverged distance i)], result)) /\
  (exact_match = false -> verbose || last_checked = false ->
   run = ([EvStep a; EvCheckSuccess; EvGetState], result)).
Proof.
  intros Ha Hexp Hlen. cbv zeta.
  erewrite action_step_checked; [ | eassumption .. ].
  rewrite check_divergence_same_shape by exact Hlen.
  unfold Np.linalg_norm.
  repeat split; intros Hm; try intros Hv; rewrite Hm; try rewrite Hv;
    reflexivity.
Qed.

(** *** The loop runs to its end *)

Section Loop.

Variables (verbose : bool) (traj_len : nat).

Lemma runs_as (A : Type) (m : M (Event T Meta) A) (k k' : nat) :
  runs is_step_event (warning_allowed verbose traj_len) m k -> k = k' ->
  runs is_step_event (warning_allowed verbose traj_len) m k'.
Proof.
  now intros H <-.
Qed.

Lemma renders_quiet (cams : list string) :
  List.length (filter is_step_event (map (@EvRender T Meta) cams)) = 0 /\
  Forall (warning_allowed verbose traj_len) (map (@EvRender T Meta) cams).
Proof.
  induction cams as [ | cam cams [IHc IHa]]; cbn; split; auto.
  constructor; [ exact I | exact IHa ].
Qed.

Lemma render_cameras_trace (env : E) (cams : list string) :
  render_cameras env cams =
    (map (@EvRender T Meta) cams,
     Ok (map (fun cam => Np.flip_rows (sim_render 512 512 cam env)) cams)).
Proof.
  induction cams as [ | cam cams IH]; [ reflexivity | ].
  cbn [render_cameras]. rewrite IH. cbn. now rewrite app_nil_r.
Qed.

Lemma render_part_runs (render : bool) (env : E) :
  runs is_step_event (warning_allowed verbose traj_len)
       (if render then render_step env else ret env) 0.
Proof.
  unfold render_step.
  destruct render; [ | apply runs_ret ].
  destruct (viewer_is_none env); cbn; do 2 eexists;
    (split; [ reflexivity | ]); split; auto;
    repeat constructor.
Qed.

Lemma video_part_runs (video_writer : option string) (video_skip : Z)
  (camera_names : option Names) (env : E) (video_count : Z) :
  video_ready video_writer video_skip camera_names ->
  runs is_step_event (warning_allowed verbose traj_len)
       (match video_writer with
        | Some _ => video_step camera_names video_skip env video_count
        | None => ret video_count
        end) 0.
Proof.
  intros [-> | (Hskip & (names & -> & Hnames) & Hheight)];
    [ apply runs_ret | ].
  destruct video_writer as [w | ]; [ | apply runs_ret ].
  unfold video_step, divides_count.
  apply Z.eqb_neq in Hskip. rewrite Hskip. cbn -[render_cameras Z.modulo].
  destruct (video_count mod video_skip =? 0)%Z; cbn -[render_cameras];
    [ | do 2 eexists; repeat split; auto ].
  rewrite render_cameras_trace.
  destruct (names_iter names) as [ | cam cams]; [ contradiction | ].
  assert (Hall : Forall (fun g => Np.img_height g = 512)
                   (Np.flip_rows (sim_render 512 512 cam env) ::
                    map (fun c => Np.flip_rows (sim_render 512 512 c env))
                        cams)).
  { apply Forall_forall. intros g Hin.
    assert (Hg : exists c, g = Np.flip_rows (sim_render 512 512 c env)).
    { destruct Hin as [<- | Hin]; [ now exists cam | ].
      apply in_map_iff in Hin. destruct Hin as (c & <- & _). now exists c. }
    destruct Hg as (c & ->).
    unfold Np.img_height, Np.flip_rows. cbn. rewrite length_rev.
    apply Hheight. }
  destruct (concatenate_equal_heights Hall) as (out & Hout & _).
  cbn [map]. cbn -[map Np.concatenate_axis1]. rewrite Hout. cbn -[map].
  destruct (renders_quiet cams) as [Hc Ha].
  do 2 eexists. split; [ reflexivity | ].
  split.
  - cbn -[map]. rewrite !count_app, Hc. reflexivity.
  - constructor; [ exact I | ].
    repeat (apply Forall_app; split); auto; repeat constructor.
Qed.

Lemma action_step_runs (states actions : list (list T)) (d i : nat)
  (env : E) (success : bool) :
  traj_len = List.length states ->
  List.length actions = List.length states ->
  i < List.length states ->
  Forall (fun r => List.length r = d) states ->
  (forall e, List.length (sim_get_state e) = d) ->
  runs is_step_event (warning_allowed verbose traj_len)
       (action_step states actions verbose traj_len i env success) 1.
Proof.
  intros -> Hacts Hi Hrows Hsim.
  destruct (nth_error actions i) as [a | ] eqn:Ha;
    [ | apply nth_error_None in Ha; lia ].
  destruct (nth_error states (i + 1)) as [expected | ] eqn:Hexp.
  - assert (Hlen : List.length expected =
                   List.length (sim_get_state (env_step a env))).
    { rewrite Hsim. rewrite Forall_forall in Hrows. apply Hrows.
      eapply nth_error_In; eassumption. }
    erewrite action_step_checked; [ | eassumption .. ].
    rewrite check_divergence_same_shape by exact Hlen. cbn [fst].
    do 2 eexists. split; [ reflexivity | ].
    destruct (negb _ && _) eqn:Hcond; cbn; (split; [ reflexivity | ]).
    + do 3 (apply Forall_cons; [ exact I | ]).
      apply Forall_cons; [ | apply Forall_nil ]. cbn.
      apply andb_prop in Hcond. destruct Hcond as [_ Hcond].
      apply orb_prop in Hcond. destruct Hcond as [Hv | Hlast]; [ now left | ].
      right. now apply Z.eqb_eq.
    + repeat constructor.
  - apply nth_error_None in Hexp.
    assert (Hlast : (Z.of_nat i <? Z.of_nat (List.length states) - 1)%Z = false)
      by (apply Z.ltb_ge; lia).
    unfold action_step, index. rewrite Ha, Hlast. cbn.
    do 2 eexists. split; [ reflexivity | ].
    cbn. split; auto. repeat constructor.
Qed.

Lemma loop_body_runs (states actions : list (list T)) (render : bool)
  (video_writer : option string) (video_skip : Z)
  (camera_names : option Names) (d i : nat) (s : LoopState E) :
  traj_len = List.length states ->
  List.length actions = List.length states ->
  i < List.length states ->
  Forall (fun r => List.length r = d) states ->
  (forall e, List.length (sim_get_state e) = d) ->
  video_ready video_writer video_skip camera_names ->
  runs is_step_event (warning_allowed verbose traj_len)
       (loop_body states (Some actions) render video_writer video_skip
                  camera_names verbose traj_len i s) 1.
Proof.
  intros Hn Hacts Hi Hrows Hsim Hvideo.
  destruct s as [[env video_count] success]. unfold loop_body.
  apply runs_as with (k := 1 + (0 + (0 + 0))); [ | reflexivity ].
  apply runs_bind; [ now apply action_step_runs with (d := d) | ].
  intros [env1 success1].
  apply runs_bind; [ apply render_part_runs | ].
  intros env2.
  apply runs_bind; [ now apply video_part_runs | ].
  intros video_count'. apply runs_ret.
Qed.

Lemma for_range_runs (S : Type) (body : nat -> S -> M (Event T Meta) S)
  (brk : bool) (indices : list nat) :
  (forall i s,
     In i indices ->
     runs is_step_event (warning_allowed verbose traj_len) (body i s) 1) ->
  forall s,
    runs is_step_event (warning_allowed verbose traj_len)
         (for_range body brk indices s)
         (if brk then Nat.min 1 (List.length indices)
          else List.length indices).
Proof.
  induction indices as [ | i rest IH]; intros Hbody s.
  - cbn. destruct brk; apply runs_ret.
  - cbn [for_range].
    apply runs_as with (k := 1 + (if brk then 0 else List.length rest)).
    + apply runs_bind; [ apply Hbody; now left | ].
      intros s'. destruct brk; [ apply runs_ret | ].
      apply (IH (fun j t Hj => Hbody j t (or_intror Hj))).
    + destruct brk; cbn; [ | reflexivity ]. now destruct (List.length rest).
Qed.

End Loop.

(** C7, as amended: a divergence between vectors of one shape never stops
    action replay, and its warning is limited.
    For states and actions of one length, recorded states of the
    dimension of the simulator state and a video part that can produce its
    frames, the loop returns whatever the recorded states are: every step
    is executed (one step in first-frame mode), and every divergence
    warning in the trace is for verbose logging or for the last checked
    step, [traj_len - 2]. *)
Theorem divergence_never_aborts (states actions : list (list T))
  (render : bool) (video_writer : option string) (video_skip : Z)
  (camera_names : option Names) (first verbose : bool) (d : nat)
  (s : LoopState E) :
  List.length actions = List.length states ->
  Forall (fun r => List.length r = d) states ->
  (forall e, List.length (sim_get_state e) = d) ->
  video_ready video_writer video_skip camera_names ->
  exists tr s',
    replay_loop states (Some actions) render video_writer video_skip
                camera_names first verbose s = (tr, Ok s') /\
    count (@is_step_event T Meta) tr =
      (if first then Nat.min 1 (List.length states)
       else List.length states) /\
    Forall (warning_allowed verbose (List.length states)) tr.
Proof.
  intros Hacts Hrows Hsim Hvideo. unfold replay_loop, count.
  match goal with
  | |- context [for_range ?body ?brk ?indices _] =>
      pose proof (@for_range_runs verbose (List.length states) _
                    body brk indices) as Hloop
  end.
  rewrite length_seq in Hloop. apply Hloop.
  intros i t Hin. apply in_seq in Hin.
  apply loop_body_runs with (d := d); auto. lia.
Qed.

End Replay.

(** ** The frames of a video *)

Section Frames.

Context {T Meta E : Type}.
Context {num : Numeric T} {host : Host Meta} {sim : Simulator T Meta E}.

Import Np.

Lemma stored_shots_read (traj_grp : Episode T) (names : list string)
  (i : nat) (ims : list Image) :
  Forall2 (fun k im =>
             exists arr,
               assoc (String.append k "_image") (ep_obs traj_grp) = Some arr /\
               nth_error arr i = Some im) names ims ->
  mapM (Meta := Meta) (fun k => arr <- obs_image traj_grp k ;; index arr i)
       names = ([], Ok ims).
Proof.
  induction 1 as [ | k im names ims (arr & Hk & Him) _ IH]; [ reflexivity | ].
  cbn [mapM]. rewrite IH. unfold obs_image, index. rewrite Hk. cbn.
  now rewrite Him.
Qed.

Lemma frame_is_due (video_skip video_count : Z) :
  frame_due video_skip video_count ->
  divides_count (T := T) (Meta := Meta) video_count video_skip =
    ([], Ok true).
Proof.
  intros [Hskip Hdue]. unfold divides_count.
  apply Z.eqb_neq in Hskip. rewrite Hskip.
  apply Z.eqb_eq in Hdue. now rewrite Hdue.
Qed.

(** C8: the frame multiplexer of the two drivers.  When a frame is due,
    the step of the simulator driver renders the cameras in the order of
    their names and the step of the image driver reads the stored images
    in the order of their names; each gives its images, in that order, to
    one concatenation along the width axis and writes the result: a frame
    of the height of the images, whose width is the sum of their widths
    and whose rows are their rows one after the other.  For two images of
    height [H] and width [W] the frame has height [H] and width [2 * W],
    with the first image in columns [0, W) and the second in columns
    [W, 2 * W).  Images of different heights are rejected: the step raises
    [ValueError] and writes no frame. *)
Theorem frames_concatenate_along_width (names : Names)
  (video_skip video_count : Z) (env : E) (traj_grp : Episode T)
  (w : string) (i : nat) (ims : list Image) :
  frame_due video_skip video_count ->
  names_iter names <> [] ->
  let shots := camera_shots names env in
  let renders := map (@EvRender T Meta) (names_iter names) in
  ((exists h, Forall (fun g => img_height g = h) shots) ->
   exists out,
     video_step (Some names) video_skip env video_count =
       (renders ++ [EvAppendData out], Ok (video_count + 1)%Z) /\
     side_by_side shots out) /\
  ((exists f g, In f shots /\ In g shots /\ img_height f <> img_height g) ->
   video_step (Some names) video_skip env video_count =
     (renders, Raise ValueError)) /\
  (stored_shots traj_grp names i ims ->
   (exists h, Forall (fun g => img_height g = h) ims) ->
   exists out,
     obs_step (Meta := Meta) traj_grp (Some w) video_skip names i
              video_count =
       ([EvAppendData out], Ok (video_count + 1)%Z) /\
     side_by_side ims out) /\
  (stored_shots traj_grp names i ims ->
   (exists f g, In f ims /\ In g ims /\ img_height f <> img_height g) ->
   obs_step (Meta := Meta) traj_grp (Some w) video_skip names i
            video_count =
     ([], Raise ValueError)) /\
  (forall a b out H W,
     side_by_side [a; b] out ->
     img_height a = H -> img_width a = W -> img_width b = W ->
     well_shaped a -> well_shaped b ->
     img_height out = H /\
     img_width out = 2 * W /\
     forall r c, r < H -> c < W ->
       pixel_at out r c = pixel_at a r c /\
       pixel_at out r (W + c) = pixel_at b r c).
Proof.
  intros Hdue Hnames shots renders.
  assert (Hshots : shots <> []).
  { unfold shots, camera_shots. destruct (names_iter names);
      [ contradiction | discriminate ]. }
  assert (Hims : stored_shots traj_grp names i ims -> ims <> []).
  { unfold stored_shots. intros Hstored. destruct Hstored;
      [ contradiction | discriminate ]. }
  split; [ | split; [ | split; [ | split ] ] ].
  - intros [h Hall].
    destruct (concatenate_side_by_side Hshots Hall) as (out & Hcat & Hside).
    exists out. split; [ | exact Hside ].
    unfold video_step. rewrite (frame_is_due Hdue). cbn -[render_cameras].
    rewrite render_cameras_trace. fold (camera_shots names env).
    fold shots. cbn. rewrite Hcat. cbn. now rewrite app_nil_r.
  - intros (f & g & Hf & Hg & Hne).
    unfold video_step. rewrite (frame_is_due Hdue). cbn -[render_cameras].
    rewrite render_cameras_trace. fold (camera_shots names env).
    fold shots. cbn. rewrite (@concatenate_mismatch _ f g Hf Hg Hne). cbn.
    now rewrite app_nil_r.
  - intros Hstored [h Hall].
    destruct (concatenate_side_by_side (Hims Hstored) Hall)
      as (out & Hcat & Hside).
    exists out. split; [ | exact Hside ].
    unfold obs_step. rewrite (frame_is_due Hdue). cbn -[mapM].
    rewrite (@stored_shots_read _ _ _ _ Hstored). cbn. rewrite Hcat. reflexivity.
  - intros Hstored (f & g & Hf & Hg & Hne).
    unfold obs_step. rewrite (frame_is_due Hdue). cbn -[mapM].
    rewrite (@stored_shots_read _ _ _ _ Hstored). cbn.
    rewrite (@concatenate_mismatch _ f g Hf Hg Hne). reflexivity.
  - intros a b out H W. apply side_by_side_pair.
Qed.

End Frames.

(** ** The episode list *)

Section Sorting.

Context {T Meta : Type} {host : Host Meta}.

Lemma map_nth_seq (A : Type) (l : list A) (d : A) :
  map (fun i => nth i l d) (seq 0 (List.length l)) = l.
Proof.
  induction l as [ | a l IH]; cbn; [ reflexivity | ].
  f_equal. rewrite <- seq_shift, map_map. exact IH.
Qed.

Lemma Forall2_at (A B : Type) (R : A -> B -> Prop) (l1 : list A)
  (l2 : list B) (d1 : A) (d2 : B) (i : nat) :
  Forall2 R l1 l2 -> i < List.length l1 -> R (nth i l1 d1) (nth i l2 d2).
Proof.
  intros H. revert i. induction H as [ | a b l1 l2 Hab _ IH]; intros i Hi.
  - cbn in Hi. lia.
  - destruct i as [ | i]; cbn; [ exact Hab | ]. apply IH. cbn in Hi. lia.
Qed.

Lemma keys_read (demos : list string) (keys : list Z) :
  Forall2 (fun elem k => demo_number elem = Some k) demos keys ->
  mapM (T := T) (Meta := Meta) (fun elem => int (slice_from 5 elem)) demos =
    ([], Ok keys).
Proof.
  induction 1 as [ | elem k demos keys Hk _ IH]; [ reflexivity | ].
  cbn [mapM]. rewrite IH. unfold int. unfold demo_number in Hk.
  destruct (is_ascii elem); [ | discriminate ].
  now rewrite Hk.
Qed.

Lemma demos_picked (demos : list string) (inds : list nat) :
  Forall (fun i => i < List.length demos) inds ->
  mapM (T := T) (Meta := Meta) (fun i => index demos i) inds =
    ([], Ok (map (fun i => nth i demos EmptyString) inds)).
Proof.
  induction 1 as [ | i inds Hi _ IH]; [ reflexivity | ].
  cbn [mapM map]. rewrite IH. unfold index.
  rewrite (nth_error_nth' demos EmptyString Hi). reflexivity.
Qed.

Lemma strictly_sorted (l : list Z) :
  Sorted Z.le l -> NoDup l -> Sorted Z.lt l.
Proof.
  intros Hs Hnd. apply StronglySorted_Sorted.
  apply Sorted_StronglySorted in Hs; [ | exact Z.le_trans ].
  induction Hs as [ | a l Hs IH Hall]; constructor.
  - apply IH. now inversion Hnd.
  - inversion Hnd as [ | ? ? Hnotin _]; subst.
    rewrite Forall_forall in *. intros x Hx.
    specialize (Hall x Hx).
    assert (a <> x) by (intros ->; contradiction). lia.
Qed.

Lemma sort_demos_sorted (demos : list string) (keys : list Z) :
  Np.argsort_contract np_argsort ->
  Forall2 (fun elem k => demo_number elem = Some k) demos keys ->
  Forall Np.in_int64 keys ->
  exists sorted skeys,
    sort_demos (T := T) (Meta := Meta) demos = ([], Ok sorted) /\
    Permutation sorted demos /\
    Forall2 (fun elem k => demo_number elem = Some k) sorted skeys /\
    Sorted Z.le skeys /\
    (NoDup keys -> Sorted Z.lt skeys).
Proof.
  intros Hargsort Hkeys Hrange.
  destruct (Hargsort keys Hrange) as [Hperm Hsorted].
  assert (Hlen : List.length demos = List.length keys)
    by (eapply Forall2_length; eassumption).
  assert (Hbound : Forall (fun i => i < List.length demos) (np_argsort keys)).
  { apply Forall_forall. intros i Hi.
    apply (Permutation_in _ Hperm) in Hi. apply in_seq in Hi. lia. }
  exists (map (fun i => nth i demos EmptyString) (np_argsort keys)),
         (map (fun i => nth i keys 0%Z) (np_argsort keys)).
  repeat split.
  - unfold sort_demos. erewrite keys_read by eassumption. cbn [bind].
    rewrite demos_picked by exact Hbound. reflexivity.
  - apply Permutation_trans
      with (map (fun i => nth i demos EmptyString)
                (seq 0 (List.length demos))).
    + apply Permutation_map. now rewrite Hlen.
    + now rewrite map_nth_seq.
  - clear Hperm Hsorted. induction Hbound as [ | i inds Hi _ IH]; cbn.
    + constructor.
    + constructor; [ | exact IH ].
      exact (@Forall2_at _ _ (fun elem k => demo_number elem = Some k)
               demos keys EmptyString 0%Z i Hkeys Hi).
  - exact Hsorted.
  - intros Hnd. apply strictly_sorted; [ exact Hsorted | ].
    apply Permutation_NoDup with (l := keys); [ | exact Hnd ].
    apply Permutation_trans
      with (map (fun i => nth i keys 0%Z) (seq 0 (List.length keys))).
    + now rewrite map_nth_seq.
    + apply Permutation_map. now apply Permutation_sym.
Qed.

(** C6, as amended: when every stored episode id is ASCII text made of
    five characters followed by an integer literal (as in demo_10) whose
    value fits [int64], and no cap on the number of episodes is set, the
    episode list, with or without a filter key, is the stored list
    reordered in ascending order of the integer that follows the first five
    characters, whatever the storage order; the order is strict when these
    integers are pairwise distinct. *)
Theorem list_demos_ascending (args : Args) (f : H5File T)
  (tr : list (Event T Meta)) (demos : list string) (keys : list Z) :
  Np.argsort_contract np_argsort ->
  n args = None ->
  stored_demos args f = (tr, Ok demos) ->
  Forall2 (fun elem k => demo_number elem = Some k) demos keys ->
  Forall Np.in_int64 keys ->
  exists sorted skeys,
    list_demos args f = (tr, Ok sorted) /\
    Permutation sorted demos /\
    Forall2 (fun elem k => demo_number elem = Some k) sorted skeys /\
    Sorted Z.le skeys /\
    (NoDup keys -> Sorted Z.lt skeys).
Proof.
  intros Hargsort Hn Hstored Hkeys Hrange.
  destruct (sort_demos_sorted Hargsort Hkeys Hrange)
    as (sorted & skeys & Hsort & Hrest).
  exists sorted, skeys. split; [ | exact Hrest ].
  unfold list_demos. rewrite Hstored, Hn. cbn [bind].
  rewrite Hsort. cbn. now rewrite app_nil_r.
Qed.

End Sorting.

(** ** The drivers *)

Section Driver.

Context {T Meta E : Type}.
Context {num : Numeric T} {host : Host Meta} {sim : Simulator T Meta E}.

Lemma silent_for_range (S : Type) (p : Event T Meta -> bool)
  (body : nat -> S -> M (Event T Meta) S) (brk : bool) (indices : list nat)
  (s : S) :
  (forall i t, silent p (body i t)) ->
  silent p (for_range body brk indices s).
Proof.
  intros Hbody. revert s.
  induction indices as [ | i rest IH]; intros s; cbn [for_range].
  - reflexivity.
  - apply silent_bind; [ apply Hbody | ]. intros s'.
    destruct brk; [ reflexivity | apply IH ].
Qed.

Lemma silent_for_each (A S : Type) (p : Event T Meta -> bool)
  (body : A -> S -> M (Event T Meta) S) (l : list A) (s : S) :
  (forall a t, silent p (body a t)) ->
  silent p (for_each body l s).
Proof.
  intros Hbody. revert s.
  induction l as [ | a rest IH]; intros s; cbn [for_each].
  - reflexivity.
  - apply silent_bind; [ apply Hbody | ]. intros s'. apply IH.
Qed.

Lemma silent_mapM (A B : Type) (p : Event T Meta -> bool)
  (f : A -> M (Event T Meta) B)
  (l : list A) :
  (forall a, silent p (f a)) -> silent p (mapM f l).
Proof.
  intros Hf. induction l as [ | a rest IH]; cbn [mapM].
  - reflexivity.
  - apply silent_bind; [ apply Hf | ]. intros b.
    apply silent_bind; [ apply IH | ]. intros bs. reflexivity.
Qed.

Ltac quiet_step :=
  first
    [ apply silent_pure
    | apply silent_emit; reflexivity
    | apply silent_bind; [ | intro ]
    | match goal with
      | |- silent _ (if ?b then _ else _) => destruct b
      | |- silent _ (match ?x with _ => _ end) => destruct x
      end ].

Ltac quiet :=
  unfold meta_getitem, meta_get_lang, meta_setitem_check;
  unfold call, ret, raise, lift, py_assert, getitem, index;
  repeat quiet_step.

Lemma reset_to_quiet (env : E) (state : StateDict T) :
  silent is_step_event (reset_to env state) /\
  silent is_frame_event (reset_to env state).
Proof.
  unfold reset_to, apply_ep_meta, refresh. split; quiet.
Qed.

Lemma announce_quiet (initial_state : StateDict T) :
  silent (@is_step_event T Meta) (announce initial_state) /\
  silent (@is_frame_event T Meta) (announce initial_state).
Proof.
  unfold announce. split; quiet.
Qed.

Lemma extend_nonempty (s0 : list T) (rest : list (list T)) :
  exists final,
    extend (Meta := Meta) (s0 :: rest) =
      ([], Ok ((s0 :: rest) ++ repeat final 50)).
Proof.
  unfold extend, index.
  destruct (nth_error (s0 :: rest) (List.length (s0 :: rest) - 1))
    as [final | ] eqn:Hlast.
  - now exists final.
  - apply nth_error_None in Hlast. cbn in Hlast. lia.
Qed.

Lemma announce_runs (verbose : bool) (state : StateDict T)
  (blob : option string) :
  d_ep_meta state = Some blob ->
  metadata_usable verbose blob = true ->
  exists tr,
    (if verbose then announce state else ret tt) = (tr, Ok tt).
Proof.
  intros Hblob Husable. unfold metadata_usable in Husable.
  destruct verbose; [ | now exists [] ].
  unfold announce. rewrite Hblob.
  destruct blob as [s | ]; [ | discriminate ].
  destruct (json_loads s) as [m | ] eqn:Hdecode; [ | discriminate ].
  cbn in Husable. cbn -[meta_get_lang]. rewrite Hdecode.
  cbn -[meta_get_lang]. unfold meta_get_lang. rewrite Husable.
  cbn. destruct (meta_lang m); cbn; eexists; reflexivity.
Qed.

Lemma usable_decodes (verbose : bool) (state : StateDict T)
  (blob : option string) :
  d_ep_meta state = Some blob ->
  metadata_usable verbose blob = true ->
  metadata_decodes state = true.
Proof.
  unfold metadata_usable, metadata_decodes, decode_ep_meta, get_ep_meta.
  intros -> Husable. destruct (d_model state); [ | reflexivity ].
  destruct blob as [text | ]; [ | reflexivity ].
  now destruct (json_loads text).
Qed.



(** *** No video without a writer *)

Lemma reset_to_no_frame (env : E) (state : StateDict T) :
  silent is_frame_event (reset_to env state).
Proof.
  apply reset_to_quiet.
Qed.

Lemma announce_no_frame (initial_state : StateDict T) :
  silent (@is_frame_event T Meta) (announce initial_state).
Proof.
  apply announce_quiet.
Qed.

Ltac hush :=
  repeat first
    [ apply reset_to_no_frame
    | apply announce_no_frame
    | apply silent_mapM; intro
    | apply silent_for_range; intros
    | apply silent_for_each; intros
    | quiet_step
    | progress unfold call, ret, raise, lift, py_assert, getitem, index, int,
        meta_getitem, meta_get_lang, meta_setitem_check,
        action_step, check_divergence, state_step, render_step,
        divides_count, obs_step, obs_image, extend ].

Lemma loop_body_no_frame (states : list (list T))
  (actions : option (list (list T))) (render : bool) (video_skip : Z)
  (camera_names : option Names) (verbose : bool) (traj_len i : nat)
  (s : LoopState E) :
  silent is_frame_event
         (loop_body states actions render None video_skip camera_names
                    verbose traj_len i s).
Proof.
  unfold loop_body. hush.
Qed.

Lemma with_env_no_frame (env : E) (initial_state : StateDict T)
  (states : list (list T)) (actions : option (list (list T)))
  (render : bool) (video_skip : Z) (camera_names : option Names)
  (first verbose : bool) :
  silent is_frame_event
         (playback_trajectory_with_env env initial_state states actions
            render None video_skip camera_names first verbose).
Proof.
  unfold playback_trajectory_with_env, replay_loop.
  apply silent_bind; [ hush | intro ].
  apply silent_bind; [ hush | intro ].
  apply silent_bind; [ hush | intro ].
  apply silent_bind; [ hush | intro ].
  apply silent_bind; [ hush | intro ].
  apply silent_bind.
  - apply silent_for_range. intros. apply loop_body_no_frame.
  - intros [[env' video_count] success]. hush.
Qed.

Lemma with_obs_no_frame (traj_grp : Episode T) (video_skip : Z)
  (image_names : option Names) (first : bool) :
  silent (@is_frame_event T Meta)
         (playback_trajectory_with_obs traj_grp None video_skip image_names
                                       first).
Proof.
  unfold playback_trajectory_with_obs. hush.
Qed.

Lemma playback_episode_no_frame (args : Args) (f : H5File T) (names : Names)
  (ep : string) (env : option E) :
  silent is_frame_event (playback_episode args f names None ep env).
Proof.
  unfold playback_episode.
  apply silent_bind; [ hush | intro ].
  destruct (use_obs args).
  - apply silent_bind; [ hush | intro ].
    apply silent_bind; [ apply with_obs_no_frame | intro ]. hush.
  - do 4 (apply silent_bind; [ hush | intro ]).
    destruct env as [e | ]; [ | hush ].
    do 3 (apply silent_bind; [ hush | intro ]).
    apply silent_bind; [ apply with_env_no_frame | intro ]. hush.
Qed.

(** C1, as amended: on-screen rendering and video output are never both
    on.  Video output is on exactly when the render flag is off, so the
    check of line 328 never fails and a run that asks for rendering
    together with a video path is not rejected: the path is ignored, the
    run is the one without it, no video writer is opened and no frame is
    written. *)
Theorem render_excludes_video (args : Args) (f : H5File T) :
  write_video_of args = negb (render args) /\
  py_assert (Ev := Event T Meta) (negb (render args && write_video_of args))
    = ret tt /\
  (render args = true ->
   silent is_frame_event (playback_dataset args f) /\
   forall p,
     playback_dataset (with_video_path args p) f = playback_dataset args f).
Proof.
  split; [ reflexivity | ]. split.
  - unfold write_video_of. now destruct (render args).
  - intros Hrender. split.
    + unfold playback_dataset, write_video_of. rewrite Hrender. cbn [negb].
      apply silent_bind;
        [ unfold check_args, get_env_metadata_from_dataset; hush | intro ].
      apply silent_bind;
        [ unfold make_env, get_env_metadata_from_dataset; hush | intro ].
      apply silent_bind;
        [ unfold list_demos, stored_demos, sort_demos; hush | intro ].
      apply silent_bind_ok; [ reflexivity | intros t video_writer [= _ <-] ].
      apply silent_bind;
        [ apply silent_for_each; intros; apply playback_episode_no_frame
        | intro ].
      hush.
    + intros p. destruct args. cbn in Hrender. subst. reflexivity.
Qed.

End Driver.

(** ** The small simulator meets the contracts *)

Section ToyFacts.

Import Toy.

Lemma insert_key_perm (k : Z) (i : nat) (l : list (Z * nat)) :
  Permutation (insert_key k i l) ((k, i) :: l).
Proof.
  induction l as [ | [k' i'] l IH]; cbn; [ reflexivity | ].
  destruct (k <=? k')%Z; [ reflexivity | ].
  rewrite IH. apply perm_swap.
Qed.

Lemma sort_pairs_perm (l : list (Z * nat)) : Permutation (sort_pairs l) l.
Proof.
  induction l as [ | [k i] l IH]; cbn; [ reflexivity | ].
  rewrite insert_key_perm. now constructor.
Qed.

Lemma insert_key_sorted (k : Z) (i : nat) (l : list (Z * nat)) :
  Sorted by_key l -> Sorted by_key (insert_key k i l).
Proof.
  induction 1 as [ | [k' i'] l Hs IH Hhd]; cbn.
  - repeat constructor.
  - destruct (k <=? k')%Z eqn:Hle.
    + apply Z.leb_le in Hle. repeat constructor; assumption.
    + apply Z.leb_gt in Hle. constructor; [ exact IH | ].
      destruct l as [ | [k'' i''] l]; cbn.
      * constructor. unfold by_key. cbn. lia.
      * destruct (k <=? k'')%Z; constructor; unfold by_key; cbn.
        -- lia.
        -- now inversion Hhd.
Qed.

Lemma sort_pairs_sorted (l : list (Z * nat)) : Sorted by_key (sort_pairs l).
Proof.
  induction l as [ | [k i] l IH]; cbn; [ constructor | ].
  now apply insert_key_sorted.
Qed.

Lemma sorted_keys (l : list (Z * nat)) :
  Sorted by_key l -> Sorted Z.le (map fst l).
Proof.
  induction 1 as [ | p l Hs IH Hhd]; cbn; constructor; [ exact IH | ].
  destruct Hhd; cbn; constructor. assumption.
Qed.

Lemma numbered (keys : list Z) (s : nat) (k : Z) (i : nat) :
  In (k, i) (combine keys (seq s (List.length keys))) ->
  s <= i /\ nth (i - s) keys 0%Z = k.
Proof.
  revert s. induction keys as [ | k0 keys IH]; intros s; cbn.
  - contradiction.
  - intros [[= <- <-] | Hin].
    + split; [ lia | ]. now rewrite Nat.sub_diag.
    + destruct (IH (S s) Hin) as [Hle Hnth]. split; [ lia | ].
      replace (i - s) with (S (i - S s)) by lia. exact Hnth.
Qed.

Lemma indices_kept (keys : list Z) (l : list nat) :
  List.length keys = List.length l -> map snd (combine keys l) = l.
Proof.
  revert l. induction keys as [ | k keys IH]; intros [ | i l]; cbn;
    try discriminate; [ reflexivity | ].
  intros [= Hlen]. f_equal. now apply IH.
Qed.

Lemma argsort_meets_contract : Np.argsort_contract argsort.
Proof.
  intros keys _. unfold argsort.
  set (pairs := combine keys (seq 0 (List.length keys))).
  split.
  - rewrite <- (indices_kept keys (seq 0 (List.length keys)))
      by now rewrite length_seq.
    apply Permutation_map, sort_pairs_perm.
  - rewrite map_map.
    rewrite map_ext_in with (g := fst).
    + apply sorted_keys, sort_pairs_sorted.
    + intros [k i] Hin. cbn.
      apply (Permutation_in _ (sort_pairs_perm pairs)) in Hin.
      apply numbered in Hin. destruct Hin as [_ Hnth].
      now rewrite Nat.sub_0_r in Hnth.
Qed.

End ToyFacts.

(** * Concrete runs *)

Section Runs.

Import Toy.

(** A run that asks for on-screen rendering and for a video file is not
    rejected: it replays both episodes, three steps each. *)
Lemma render_and_video_path_accepted :
  outcome run_render_and_video = Ok tt /\
  count is_step_event (trace run_render_and_video) = 6 /\
  count is_episode_event (trace run_render_and_video) = 12.
Proof.
  vm_compute. auto.
Qed.

Lemma render_excludes_video_witness :
  render args_render_and_video = true /\
  silent is_frame_event run_render_and_video.
Proof.
  split; [ reflexivity | ].
  apply (proj2 (proj2 (render_excludes_video (sim := simulator caps_new)
                         args_render_and_video two_demos))).
  reflexivity.
Defined.

(** A request with neither a model nor a state is a silent no-op. *)
Lemma empty_request_is_accepted :
  reset_to (sim := simulator caps_none) env0 request_empty =
    ([], Ok (env0, None)).
Proof.
  reflexivity.
Qed.

Lemma reset_to_accepts_empty_request_witness :
  exists env',
    reset_to (sim := simulator caps_all) env0 request_empty =
      ([EvUpdateSites; EvUpdateState], Ok (env', None)).
Proof.
  apply (reset_to_accepts_empty_request (sim := simulator caps_all) env0
           request_empty); reflexivity.
Defined.

(** A simulator without a metadata entry point gets no metadata call: the
    first call of the restoration is the hard reset. *)
Lemma no_metadata_without_entry_point :
  reset_to (sim := simulator caps_none) env0 request_full =
    ([EvReset; EvEditModelXml "<mujoco/>"; EvResetFromXmlString "<mujoco/>";
      EvSimReset; EvSetStateFromFlattened [7%Z]; EvSimForward],
     Ok (env_at 7, None)) /\
  count is_metadata_event
        (trace (reset_to (sim := simulator caps_none) env0 request_full)) = 0.
Proof.
  split; reflexivity.
Qed.

Lemma reset_to_call_order_witness :
  reset_to (sim := simulator caps_old) env0 request_full =
    ([EvSetAttrsFromEpMeta "{}"%string; EvReset;
      EvEditModelXml "<mujoco/>"; EvResetFromXmlString "<mujoco/>";
      EvSimReset; EvSetStateFromFlattened [7%Z]; EvSimForward;
      EvUpdateSites],
     Ok ({| model_xml := "<mujoco/>"; ep_meta := Some "{}"%string;
            qpos := 7%Z; viewer := false |}, None)).
Proof.
  exact (proj2 (reset_to_call_order (sim := simulator caps_old) env0
                  request_full) "<mujoco/>"%string "{}"%string
               eq_refl eq_refl).
Defined.

(** Equal vectors: no distance is computed or reported, even with verbose
    logging. *)
Lemma exact_match_reports_nothing :
  action_step (sim := simulator caps_none)
              [[0]; [1]; [2]]%Z [[1]; [1]; [1]]%Z true 3 0 (env_at 0) false =
    ([EvStep [1%Z]; EvCheckSuccess; EvGetState], Ok (env_at 1, false)) /\
  count is_divergence_warning
        (trace (action_step (sim := simulator caps_none)
                  [[0]; [1]; [2]]%Z [[1]; [1]; [1]]%Z true 3 0 (env_at 0)
                  false)) = 0.
Proof.
  split; reflexivity.
Qed.

Lemma divergence_distance_witness :
  action_step (sim := simulator caps_none)
              [[0]; [1]; [5]]%Z [[1]; [1]; [1]]%Z false 3 1 (env_at 1) false =
    ([EvStep [1%Z]; EvCheckSuccess; EvGetState;
      EvPrint (MsgDiverged 3%Z 1)],
     Ok (env_at 2, false)).
Proof.
  exact (proj1 (proj2 (divergence_distance (sim := simulator caps_none)
                         [[0]; [1]; [5]]%Z [[1]; [1]; [1]]%Z false 1
                         (env_at 1) false (a := [1%Z]) (expected := [5%Z])
                         eq_refl eq_refl eq_refl))
               eq_refl eq_refl).
Defined.

(** A simulator with both refresh entry points gets both calls. *)
Lemma both_refresh_calls_made :
  reset_to (sim := simulator caps_all) env0 request_states =
    ([EvSetStateFromFlattened [7%Z]; EvSimForward; EvUpdateSites;
      EvUpdateState],
     Ok (env_at 7, None)) /\
  count is_refresh_event
        (trace (reset_to (sim := simulator caps_all) env0 request_states)) = 2.
Proof.
  split; reflexivity.
Qed.

Lemma reset_to_refresh_calls_witness :
  exists pre env',
    reset_to (sim := simulator caps_all) env0 request_full =
      (pre ++ [EvUpdateSites; EvUpdateState], Ok (env', None)) /\
    count is_refresh_event pre = 0 /\
    count is_refresh_event (pre ++ [EvUpdateSites; EvUpdateState]) = 1 + 1.
Proof.
  exact (reset_to_refresh_calls (sim := simulator caps_all) env0
           request_full eq_refl).
Defined.

(** Ids that end in a number but do not have it after five characters
    cannot be sorted; ids whose numbers are equal are not in strict
    order. *)
Lemma ids_outside_the_format :
  list_demos (T := Z) (Meta := string) args0
             (file_of ["ep10"; "ep2"]%string episode) =
    ([], Raise ValueError) /\
  list_demos (T := Z) (Meta := string) args0
             (file_of ["demo_01"; "demo_1"]%string episode) =
    ([], Ok ["demo_01"; "demo_1"]%string) /\
  demo_number "demo_1" = Some 1%Z /\
  demo_number "demo_01" = Some 1%Z.
Proof.
  repeat split; reflexivity.
Qed.

Lemma list_demos_ascending_witness :
  exists sorted skeys,
    list_demos (T := Z) (Meta := string) args0 two_demos = ([], Ok sorted) /\
    Permutation sorted ["demo_10"; "demo_2"]%string /\
    Forall2 (fun elem k => demo_number elem = Some k) sorted skeys /\
    Sorted Z.le skeys /\
    (NoDup [10; 2]%Z -> Sorted Z.lt skeys).
Proof.
  apply (list_demos_ascending (T := Z) (host := host) args0 two_demos
           (tr := []) (demos := ["demo_10"; "demo_2"]%string)
           (keys := [10; 2]%Z) argsort_meets_contract).
  - reflexivity.
  - reflexivity.
  - repeat constructor.
  - repeat (apply Forall_cons; [ unfold Np.in_int64; lia | ]).
    apply Forall_nil.
Defined.

(** Recorded states of three numbers against a simulator state of two:
    the comparison of the first checked step raises, and the two steps
    that remain are not executed. *)
Lemma mismatched_states_stop_replay :
  replay_loop (sim := Demo.with_velocity)
              [[0; 0; 0]; [1; 0; 0]; [2; 0; 0]]%Z (Some [[1]; [1]; [1]]%Z)
              false None 5%Z (Some (NameList ["agentview"%string])) false
              false (env0, 0%Z, false) =
    ([EvStep [1%Z]; EvCheckSuccess; EvGetState], Raise ValueError) /\
  count is_step_event
        (trace (replay_loop (sim := Demo.with_velocity)
                  [[0; 0; 0]; [1; 0; 0]; [2; 0; 0]]%Z
                  (Some [[1]; [1]; [1]]%Z) false None 5%Z
                  (Some (NameList ["agentview"%string])) false false
                  (env0, 0%Z, false))) = 1.
Proof.
  split; reflexivity.
Qed.

Lemma divergence_never_aborts_witness :
  exists tr s',
    replay_loop (sim := simulator caps_none)
                [[0]; [1]; [5]]%Z (Some [[1]; [1]; [1]]%Z) false None 5%Z
                (Some (NameList ["agentview"%string])) false false
                (env0, 0%Z, false) = (tr, Ok s') /\
    count is_step_event tr = 3 /\
    Forall (warning_allowed false 3) tr.
Proof.
  apply (@divergence_never_aborts Z string Env numeric_Z host
           (simulator caps_none) [[0]; [1]; [5]]%Z [[1]; [1]; [1]]%Z false
           None 5%Z (Some (NameList ["agentview"%string])) false false 1
           (env0, 0%Z, false)).
  - reflexivity.
  - repeat constructor.
  - intros e. reflexivity.
  - left. reflexivity.
Defined.

Lemma frames_concatenate_along_width_witness :
  exists out,
    obs_step (Meta := string) Demo.filmed (Some "demo.mp4"%string) 2%Z
             Demo.both_views 0 0%Z = ([EvAppendData out], Ok 1%Z) /\
    side_by_side [blank 2 3 red; blank 2 1 blue] out.
Proof.
  refine (proj1 (proj2 (proj2
            (@frames_concatenate_along_width Z string Env
               (simulator caps_new) Demo.both_views 2%Z 0%Z env0
               Demo.filmed "demo.mp4"%string 0
               [blank 2 3 red; blank 2 1 blue] _ _))) _ _).
  - split; [ discriminate | reflexivity ].
  - discriminate.
  - apply Forall2_cons; [ eexists; split; reflexivity | ].
    apply Forall2_cons; [ eexists; split; reflexivity | ].
    apply Forall2_nil.
  - exists 2. repeat (apply Forall_cons; [ reflexivity | ]). apply Forall_nil.
Defined.


Lemma reset_to_returns_none_witness :
  exists tr env',
    reset_to (sim := simulator caps_new) env0 request_full =
      (tr, Ok (env', None)).
Proof.
  apply (proj1 (proj2 (reset_to_returns_none (sim := simulator caps_new)
                         env0 request_full))).
  reflexivity.
Defined.

End Runs.

(** * Further properties *)

(** ** [ObservationKeyToModalityDict] *)

Section ModalityFacts.

Import Modality.

Lemma contains_assoc (item : string) (self : Dict) :
  contains item self = match assoc item self with
                       | Some _ => true
                       | None => false
                       end.
Proof.
  induction self as [ | [k v] rest IH]; cbn; [ reflexivity | ].
  destruct (String.eqb item k); cbn; [ reflexivity | exact IH ].
Qed.

Lemma assoc_setitem_same (item value : string) (self : Dict) :
  assoc item (setitem item value self) = Some value.
Proof.
  induction self as [ | [k v] rest IH]; cbn.
  - now rewrite String.eqb_refl.
  - destruct (String.eqb item k) eqn:Hk; cbn; rewrite Hk;
      [ reflexivity | exact IH ].
Qed.

Lemma setitem_new (item value : string) (self : Dict) :
  assoc item self = None -> setitem item value self = self ++ [(item, value)].
Proof.
  induction self as [ | [k v] rest IH]; cbn; [ reflexivity | ].
  destruct (String.eqb item k); [ discriminate | ].
  intros Hrest. now rewrite IH.
Qed.

Lemma assoc_kept (k v item value : string) (self : Dict) :
  assoc k self = Some v -> assoc k (self ++ [(item, value)]) = Some v.
Proof.
  induction self as [ | [k' v'] rest IH]; cbn; [ discriminate | ].
  destruct (String.eqb k k'); [ trivial | exact IH ].
Qed.

Lemma assoc_absent (item : string) (self : Dict) :
  assoc item self = None -> ~ In item (map fst self).
Proof.
  induction self as [ | [k v] rest IH]; cbn; [ tauto | ].
  destruct (String.eqb item k) eqn:Hk; [ discriminate | ].
  apply String.eqb_neq in Hk. intros Hrest [Heq | Hin].
  - now apply Hk.
  - now apply IH.
Qed.

Lemma known_key (item v : string) (self : Dict) :
  assoc item self = Some v ->
  getitem_default item self = ([], Ok (v, self)).
Proof.
  intros Hv. unfold getitem_default, dict_getitem.
  rewrite contains_assoc, Hv. cbn. now rewrite Hv.
Qed.

Lemma unknown_key (item : string) (self : Dict) :
  assoc item self = None ->
  getitem_default item self =
    ([NotFound item], Ok ("low_dim"%string, self ++ [(item, "low_dim"%string)])).
Proof.
  intros Hnone. unfold getitem_default, dict_getitem.
  rewrite contains_assoc, Hnone. cbn.
  rewrite assoc_setitem_same. cbn. now rewrite setitem_new.
Qed.

(** X1: a lookup in an [ObservationKeyToModalityDict] never raises.  It
    returns a value; afterwards the key is in the dictionary with that
    value, and the same lookup again returns the same value, prints nothing
    and leaves the dictionary as it is. *)
Theorem modality_lookup_registers (item : string) (self : Dict) :
  exists notices value self',
    getitem_default item self = (notices, Ok (value, self')) /\
    assoc item self' = Some value /\
    getitem_default item self' = ([], Ok (value, self')).
Proof.
  destruct (assoc item self) as [v | ] eqn:Hv.
  - exists [], v, self. rewrite (known_key _ _ Hv). auto.
  - exists [NotFound item], "low_dim"%string,
           (self ++ [(item, "low_dim"%string)]).
    assert (Hin : assoc item (self ++ [(item, "low_dim"%string)]) =
                  Some "low_dim"%string).
    { rewrite <- (setitem_new _ "low_dim" _ Hv). apply assoc_setitem_same. }
    rewrite (unknown_key _ _ Hv), (known_key _ _ Hin). auto.
Qed.

(** X2: a key that is in the dictionary is looked up without a notice and
    without a change.  A key that is not is given the modality low_dim: one
    notice is printed, the key goes to the end of the dictionary, every
    entry that was there keeps its value, and keys stay unique. *)
Theorem modality_lookup_default (item : string) (self : Dict) :
  (forall v,
     assoc item self = Some v ->
     getitem_default item self = ([], Ok (v, self))) /\
  (assoc item self = None ->
   getitem_default item self =
     ([NotFound item],
      Ok ("low_dim"%string, self ++ [(item, "low_dim"%string)])) /\
   (forall k v,
      assoc k self = Some v ->
      assoc k (self ++ [(item, "low_dim"%string)]) = Some v) /\
   (NoDup (map fst self) ->
    NoDup (map fst (self ++ [(item, "low_dim"%string)])))).
Proof.
  split; [ intros v; apply known_key | ].
  intros Hnone. split; [ now apply unknown_key | ]. split.
  - intros k v. apply assoc_kept.
  - intros Hnd. rewrite map_app. cbn.
    apply NoDup_app; [ exact Hnd | repeat constructor; tauto | ].
    intros k Hk [<- | []]. now apply (assoc_absent _ _ Hnone).
Qed.

End ModalityFacts.

(** ** The default video path *)

Section VideoPath.

Lemma split_head_index (sep s : string) :
  sep <> EmptyString ->
  split_head sep s = match String.index 0 sep s with
                     | Some k => String.substring 0 k s
                     | None => s
                     end.
Proof.
  intros Hsep. induction s as [ | c s IH]; cbn.
  - destruct sep; [ contradiction | reflexivity ].
  - change (match sep with
            | EmptyString => true
            | String a s1' =>
                if Ascii.ascii_dec a c then String.prefix s1' s else false
            end) with (String.prefix sep (String c s)).
    destruct (String.prefix sep (String c s)); [ reflexivity | ].
    rewrite IH. now destruct (String.index 0 sep s).
Qed.

(** X3: a video path given on the command line is used as it is.
    Without one, the video goes next to the dataset: its path is what comes
    before the first .hdf5 in the dataset path (all of it when there is
    none), followed by _use_actions.mp4 for action replay and by .mp4
    otherwise. *)
Theorem default_video_path (args : Args) :
  (forall p, video_path args = Some p -> video_path_of args = p) /\
  (video_path args = None ->
   video_path_of args =
     String.append
       match String.index 0 ".hdf5" (dataset args) with
       | Some k => String.substring 0 k (dataset args)
       | None => dataset args
       end
       (if use_actions args then "_use_actions.mp4" else ".mp4")%string).
Proof.
  unfold video_path_of. split.
  - now intros p ->.
  - intros ->. rewrite split_head_index by discriminate.
    now destruct (use_actions args).
Qed.

End VideoPath.

(** ** The replay loop, step by step *)

Section Steps.

Context {T Meta E : Type}.
Context {num : Numeric T} {host : Host Meta} {sim : Simulator T Meta E}.

Ltac mute_step :=
  first
    [ apply silent_pure
    | apply silent_emit; reflexivity
    | apply silent_bind; [ | intro ]
    | apply silent_mapM; intro
    | apply silent_for_range; intros
    | apply silent_for_each; intros
    | match goal with
      | |- silent _ (if ?b then _ else _) => destruct b
      | |- silent _ (match ?x with _ => _ end) => destruct x
      end ].

Ltac mute :=
  repeat first
    [ mute_step
    | progress unfold call, ret, raise, lift, py_assert, getitem, index, int,
        meta_getitem, meta_get_lang, meta_setitem_check,
        action_step, check_divergence, state_step, render_step,
        divides_count, obs_step, obs_image, extend, reset_to, apply_ep_meta,
        refresh, announce ].

Lemma bind_returns (Ev A B : Type) (m : M Ev A) (f : A -> M Ev B)
  (t : list Ev) (b : B) :
  bind m f = (t, Ok b) ->
  exists t1 a t2, m = (t1, Ok a) /\ f a = (t2, Ok b) /\ t = t1 ++ t2.
Proof.
  destruct m as [t1 [a | e]]; cbn.
  - destruct (f a) as [t2 r] eqn:Hf. intros [= <- ->].
    now exists t1, a, t2.
  - discriminate.
Qed.

Lemma for_range_counts (S : Type) (p : Event T Meta -> bool)
  (Q : Event T Meta -> Prop) (body : nat -> S -> M (Event T Meta) S)
  (brk : bool) (indices : list nat) :
  (forall i s, In i indices -> runs p Q (body i s) 1) ->
  forall s,
    runs p Q (for_range body brk indices s)
         (executed brk (List.length indices)).
Proof.
  unfold executed.
  induction indices as [ | i rest IH]; intros Hbody s.
  - cbn. destruct brk; apply runs_ret.
  - cbn [for_range].
    assert (Hsum : 1 + (if brk then 0 else List.length rest) =
                   if brk then Nat.min 1 (List.length (i :: rest))
                   else List.length (i :: rest)).
    { destruct brk; cbn; [ | reflexivity ]. now destruct (List.length rest). }
    rewrite <- Hsum.
    apply runs_bind; [ apply Hbody; now left | ].
    intros s'. destruct brk; [ apply runs_ret | ].
    apply (IH (fun j t Hj => Hbody j t (or_intror Hj))).
Qed.

Lemma video_step_trace (video_skip : Z) (names : Names) (env : E)
  (video_count : Z) :
  cameras_ready video_skip names ->
  exists frame,
    Np.concatenate_axis1
      (map (fun cam => Np.flip_rows (sim_render 512 512 cam env))
           (names_iter names)) = Ok frame /\
    video_step (Some names) video_skip env video_count =
      (if (video_count mod video_skip =? 0)%Z
       then map (@EvRender T Meta) (names_iter names) ++ [EvAppendData frame]
       else [],
       Ok (video_count + 1)%Z).
Proof.
  intros (Hskip & Hnames & Hheight).
  destruct (names_iter names) as [ | cam cams] eqn:Hiter;
    [ contradiction | ].
  assert (Hall : Forall (fun g => Np.img_height g = 512)
                   (Np.flip_rows (sim_render 512 512 cam env) ::
                    map (fun c => Np.flip_rows (sim_render 512 512 c env))
                        cams)).
  { apply Forall_forall. intros g Hin.
    assert (Hg : exists c, g = Np.flip_rows (sim_render 512 512 c env)).
    { destruct Hin as [<- | Hin]; [ now exists cam | ].
      apply in_map_iff in Hin. destruct Hin as (c & <- & _). now exists c. }
    destruct Hg as (c & ->).
    unfold Np.img_height, Np.flip_rows. cbn. rewrite length_rev.
    apply Hheight. }
  destruct (concatenate_equal_heights Hall) as (frame & Hframe & _).
  exists frame. split; [ exact Hframe | ].
  unfold video_step, divides_count.
  apply Z.eqb_neq in Hskip. rewrite Hskip. cbn -[render_cameras Z.modulo].
  destruct (video_count mod video_skip =? 0)%Z; [ | reflexivity ].
  rewrite Hiter, render_cameras_trace.
  cbn [map]. cbn -[map Np.concatenate_axis1]. rewrite Hframe. cbn -[map].
  now rewrite <- !app_assoc, !app_nil_r.
Qed.

Lemma state_step_trace (states : list (list T)) (i : nat) (env : E)
  (st : list T) :
  nth_error states i = Some st ->
  exists env',
    state_step states i env =
      ([EvSetStateFromFlattened st; EvSimForward] ++ refresh_calls, Ok env').
Proof.
  intros Hst. unfold state_step, index. rewrite Hst.
  destruct (reset_to_without_model env
              {| d_states := Some st; d_model := None; d_ep_meta := None |}
              eq_refl) as (env' & Hrun).
  exists env'. cbn -[reset_to]. rewrite Hrun. cbn. now rewrite app_nil_r.
Qed.

Lemma render_part_trace (render : bool) (env : E) :
  exists env',
    (if render then render_step env else ret env) =
      (if render
       then (if viewer_is_none env then [EvInitializeRenderer] else []) ++
            [@EvViewerUpdate T Meta]
       else [],
       Ok env').
Proof.
  unfold render_step. destruct render; [ | now exists env ].
  destruct (viewer_is_none env); cbn; eexists; reflexivity.
Qed.

Lemma all_of_kind (p q : Event T Meta -> bool) (tr : list (Event T Meta)) :
  Forall (fun ev => q ev = true) tr ->
  (forall ev, q ev = true -> p ev = false) ->
  List.length (filter p tr) = 0.
Proof.
  intros Hall Hpq. induction Hall as [ | ev tr Hev _ IH]; cbn; [ reflexivity | ].
  now rewrite (Hpq ev Hev).
Qed.

Lemma renders_of_kind (q : Event T Meta -> bool) (cams : list string) :
  (forall cam, q (EvRender cam) = true) ->
  Forall (fun ev => q ev = true) (map (@EvRender T Meta) cams).
Proof.
  intros Hq. induction cams; cbn; constructor; auto.
Qed.

Lemma state_loop_body_runs (states : list (list T)) (render : bool)
  (video_writer : option string) (video_skip : Z)
  (camera_names : option Names) (verbose : bool) (traj_len i : nat)
  (s : LoopState E) :
  i < List.length states ->
  video_ready video_writer video_skip camera_names ->
  runs is_inject_event (fun ev => is_state_replay_event ev = true)
       (loop_body states None render video_writer video_skip camera_names
                  verbose traj_len i s) 1.
Proof.
  intros Hi Hvideo. destruct s as [[env video_count] success].
  destruct (nth_error states i) as [st | ] eqn:Hst;
    [ | apply nth_error_None in Hst; lia ].
  destruct (state_step_trace _ _ env Hst) as (env1 & Hstep).
  destruct (render_part_trace render env1) as (env2 & Hrender).
  unfold loop_body. rewrite Hstep. cbn -[render_step video_step].
  rewrite Hrender. cbn -[video_step].
  assert (Hvid : exists tr vc,
            match video_writer with
            | Some _ => video_step camera_names video_skip env2 video_count
            | None => ret video_count
            end = (tr, Ok vc) /\
            Forall (fun ev => is_render_event ev || is_append_event ev = true)
                   tr).
  { destruct Hvideo as [-> | (Hskip & (names & -> & Hnames) & Hheight)].
    - exists [], video_count. auto.
    - destruct video_writer as [w | ]; [ | exists [], video_count; auto ].
      destruct (video_step_trace env2 video_count
                  (conj Hskip (conj Hnames Hheight))) as (frame & _ & ->).
      do 2 eexists. split; [ reflexivity | ].
      destruct (_ =? 0)%Z; [ | constructor ].
      apply Forall_app. split; [ now apply renders_of_kind | ].
      repeat constructor. }
  destruct Hvid as (tr & vc & -> & Hkind).
  do 2 eexists. split; [ reflexivity | ].
  assert (Hquiet : List.length (filter (@is_inject_event T Meta) tr) = 0).
  { apply all_of_kind
      with (q := fun ev => is_render_event ev || is_append_event ev);
      [ exact Hkind | now intros [] ]. }
  assert (Hallowed : Forall (fun ev => is_state_replay_event ev = true) tr).
  { eapply Forall_impl; [ | exact Hkind ]. now intros []. }
  unfold refresh_calls. split.
  - destruct has_update_sites, has_update_state, render,
      (viewer_is_none env1); cbn; rewrite ?count_app, ?app_nil_r, Hquiet;
      reflexivity.
  - destruct has_update_sites, has_update_state, render,
      (viewer_is_none env1); cbn; rewrite ?app_nil_r;
      repeat (constructor; [ reflexivity | ]); exact Hallowed.
Qed.

(** X4: state-injection replay.  Without actions, and with a video part
    that can produce its frames, the loop returns after one state
    injection per executed step: every step of the episode, or one step in
    first-frame mode.  It makes no calls but injections, forward passes,
    refreshes and the rendering of the step: the simulator is never
    stepped, no model is loaded, no metadata is applied and no warning is
    printed. *)
Theorem state_injection_replay (states : list (list T)) (render : bool)
  (video_writer : option string) (video_skip : Z)
  (camera_names : option Names) (first verbose : bool) (s : LoopState E) :
  video_ready video_writer video_skip camera_names ->
  exists tr s',
    replay_loop states None render video_writer video_skip camera_names
                first verbose s = (tr, Ok s') /\
    count is_inject_event tr = executed first (List.length states) /\
    Forall (fun ev => is_state_replay_event ev = true) tr.
Proof.
  intros Hvideo. unfold replay_loop, count.
  match goal with
  | |- context [for_range ?body ?brk ?indices _] =>
      pose proof (@for_range_counts _ is_inject_event
                    (fun ev => is_state_replay_event ev = true)
                    body brk indices) as Hloop
  end.
  rewrite length_seq in Hloop. apply Hloop.
  intros i t Hin. apply in_seq in Hin.
  apply state_loop_body_runs; [ lia | exact Hvideo ].
Qed.

(** *** Frames *)

Lemma renders_counted (cams : list string) :
  List.length (filter is_render_event (map (@EvRender T Meta) cams)) =
  List.length cams /\
  List.length (filter is_append_event (map (@EvRender T Meta) cams)) = 0.
Proof.
  induction cams as [ | cam cams [IHr IHa]]; cbn; auto.
Qed.

Lemma mode_part_returns (states : list (list T))
  (actions : option (list (list T))) (verbose : bool) (d i : nat) (env : E)
  (success : bool) :
  mode_ready states actions d ->
  i < List.length states ->
  exists tr r,
    match actions with
    | Some acts =>
        action_step states acts verbose (List.length states) i env success
    | None => env <- state_step states i env ;; ret (env, success)
    end = (tr, Ok r) /\
    List.length (filter is_append_event tr) = 0 /\
    List.length (filter is_render_event tr) = 0.
Proof.
  intros Hmode Hi. destruct actions as [acts | ].
  - destruct Hmode as (Hacts & Hrows & Hsim).
    destruct (@action_step_runs _ _ _ _ _ verbose _ _ acts d i env success
                eq_refl Hacts Hi Hrows Hsim) as (tr & r & Hrun & _ & _).
    exists tr, r. split; [ exact Hrun | ].
    assert (Ha : silent is_append_event
                   (action_step states acts verbose (List.length states) i
                                env success)) by mute.
    assert (Hr : silent is_render_event
                   (action_step states acts verbose (List.length states) i
                                env success)) by mute.
    unfold silent in Ha, Hr. rewrite Hrun in Ha, Hr. auto.
  - destruct (nth_error states i) as [st | ] eqn:Hst;
      [ | apply nth_error_None in Hst; lia ].
    destruct (state_step_trace _ _ env Hst) as (env1 & ->).
    do 2 eexists. split; [ reflexivity | ].
    unfold refresh_calls.
    destruct has_update_sites, has_update_state; cbn; auto.
Qed.

Lemma loop_body_frames (states : list (list T))
  (actions : option (list (list T))) (render : bool) (w : string)
  (video_skip : Z) (names : Names) (verbose : bool) (d i : nat) (env : E)
  (video_count : Z) (success : bool) :
  mode_ready states actions d ->
  cameras_ready video_skip names ->
  i < List.length states ->
  exists tr env' success',
    loop_body states actions render (Some w) video_skip (Some names) verbose
              (List.length states) i (env, video_count, success) =
      (tr, Ok (env', (video_count + 1)%Z, success')) /\
    List.length (filter is_append_event tr) =
      (if (video_count mod video_skip =? 0)%Z then 1 else 0) /\
    List.length (filter is_render_event tr) =
      (if (video_count mod video_skip =? 0)%Z
       then List.length (names_iter names) else 0).
Proof.
  intros Hmode Hcams Hi.
  destruct (@mode_part_returns states actions verbose d i env success
              Hmode Hi) as (tr0 & [env1 success1] & Hrun & Ha0 & Hr0).
  destruct (render_part_trace render env1) as (env2 & Hrender).
  destruct (video_step_trace env2 video_count Hcams)
    as (frame & _ & Hvideo).
  unfold loop_body. rewrite Hrun. cbn -[render_step video_step].
  rewrite Hrender. cbn -[video_step]. rewrite Hvideo. cbn.
  do 3 eexists. split; [ reflexivity | ].
  destruct (renders_counted (names_iter names)) as [Hrc Hac].
  rewrite !count_app, Ha0, Hr0.
  destruct (video_count mod video_skip =? 0)%Z, render,
    (viewer_is_none env1); cbn; rewrite ?count_app, ?Hrc, ?Hac; cbn;
    split; lia.
Qed.

Lemma frames_loop (states : list (list T))
  (actions : option (list (list T))) (render : bool) (w : string)
  (video_skip : Z) (names : Names) (brk verbose : bool) (d : nat) :
  mode_ready states actions d ->
  cameras_ready video_skip names ->
  forall len a env success,
    a + len <= List.length states ->
    exists tr s',
      for_range (loop_body states actions render (Some w) video_skip
                           (Some names) verbose (List.length states))
                brk (seq a len) (env, Z.of_nat a, success) = (tr, Ok s') /\
      List.length (filter is_append_event tr) =
        List.length (sampled video_skip (seq a (executed brk len))) /\
      List.length (filter is_render_event tr) =
        List.length (sampled video_skip (seq a (executed brk len))) *
        List.length (names_iter names).
Proof.
  intros Hmode Hcams. unfold executed, sampled.
  induction len as [ | len IH]; intros a env success Hle.
  - exists [], (env, Z.of_nat a, success). destruct brk; cbn; auto.
  - destruct (@loop_body_frames states actions render w video_skip names
                verbose d a env (Z.of_nat a) success Hmode Hcams)
      as (tr1 & env1 & success1 & Hbody & Ha1 & Hr1); [ lia | ].
    cbn [seq for_range]. rewrite Hbody. cbn [bind].
    destruct brk.
    + do 2 eexists. split; [ reflexivity | ].
      rewrite app_nil_r, Ha1, Hr1.
      replace (Nat.min 1 (S len)) with 1 by (destruct len; reflexivity).
      cbn. destruct (Z.of_nat a mod video_skip =? 0)%Z; cbn; lia.
    + replace (Z.of_nat a + 1)%Z with (Z.of_nat (S a)) by lia.
      destruct (IH (S a) env1 success1) as (tr2 & s2 & Hrest & Ha2 & Hr2);
        [ lia | ].
      rewrite Hrest. do 2 eexists. split; [ reflexivity | ].
      rewrite !count_app, Ha1, Hr1, Ha2, Hr2. cbn [seq filter].
      destruct (Z.of_nat a mod video_skip =? 0)%Z; cbn [List.length]; nia.
Qed.

(** X5: the frames of a video.  With a video writer, a non-zero period,
    at least one camera and renders of one height, the loop returns in
    either replay mode (for action replay: as many actions as states, and
    recorded states of the dimension of the simulator state).  It writes
    one frame at each executed step whose index is a multiple of
    [video_skip], the first step included, and no other; for each frame it
    renders every camera once. *)
Theorem frames_every_period (states : list (list T))
  (actions : option (list (list T))) (render : bool) (w : string)
  (video_skip : Z) (names : Names) (first verbose : bool) (d : nat)
  (env : E) (success : bool) :
  mode_ready states actions d ->
  cameras_ready video_skip names ->
  exists tr s',
    replay_loop states actions render (Some w) video_skip (Some names)
                first verbose (env, 0%Z, success) = (tr, Ok s') /\
    count is_append_event tr =
      List.length
        (sampled video_skip (seq 0 (executed first (List.length states)))) /\
    count is_render_event tr =
      List.length
        (sampled video_skip (seq 0 (executed first (List.length states)))) *
      List.length (names_iter names).
Proof.
  intros Hmode Hcams. unfold replay_loop, count.
  apply (@frames_loop states actions render w video_skip names first verbose
           d Hmode Hcams (List.length states) 0 env success).
  lia.
Qed.

(** *** Playback from stored images *)

Lemma obs_images_read (traj_grp : Episode T) (names : list string)
  (traj_len i : nat) :
  images_ready traj_grp names traj_len ->
  i < traj_len ->
  exists imgs h,
    mapM (Meta := Meta)
         (fun k => arr <- obs_image traj_grp k ;; index arr i) names =
      ([], Ok imgs) /\
    List.length imgs = List.length names /\
    Forall (fun g => Np.img_height g = h) imgs.
Proof.
  intros (arrays & Hread & Hheights) Hi.
  destruct (Hheights i Hi) as (h & Hh). clear Hheights.
  set (blank := {| Np.img_width := 0; Np.img_rows := [] |}) in *.
  exists (map (fun arr => nth i arr blank) arrays), h.
  split; [ | split ].
  - clear Hh. induction Hread as [ | k arr names arrays [Hk Hlen] _ IH];
      [ reflexivity | ].
    cbn [mapM map]. rewrite IH. unfold obs_image, index. rewrite Hk. cbn.
    rewrite (nth_error_nth' arr blank) by lia. reflexivity.
  - rewrite length_map. symmetry. eapply Forall2_length. exact Hread.
  - apply Forall_forall. intros g Hg. apply in_map_iff in Hg.
    destruct Hg as (arr & <- & Harr).
    rewrite Forall_forall in Hh. now apply Hh.
Qed.

Lemma obs_step_frames (traj_grp : Episode T) (w : string) (video_skip : Z)
  (names : Names) (traj_len i : nat) (video_count : Z) :
  video_skip <> 0%Z ->
  names_iter names <> [] ->
  images_ready traj_grp (names_iter names) traj_len ->
  i < traj_len ->
  exists tr,
    obs_step (Meta := Meta) traj_grp (Some w) video_skip names i video_count =
      (tr, Ok (video_count + 1)%Z) /\
    Forall (fun ev => is_append_event ev = true) tr /\
    List.length tr = (if (video_count mod video_skip =? 0)%Z then 1 else 0).
Proof.
  intros Hskip Hnames Hready Hi.
  destruct (obs_images_read Hready Hi) as (imgs & h & Hread & Hlen & Hh).
  unfold obs_step, divides_count.
  apply Z.eqb_neq in Hskip. rewrite Hskip. cbn -[mapM Z.modulo].
  destruct (video_count mod video_skip =? 0)%Z;
    [ | exists []; cbn; auto ].
  rewrite Hread.
  destruct imgs as [ | f0 rest].
  { destruct (names_iter names); [ contradiction | discriminate ]. }
  destruct (concatenate_equal_heights Hh) as (frame & Hframe & _).
  cbn -[Np.concatenate_axis1]. rewrite Hframe.
  exists [EvAppendData frame]. cbn. auto.
Qed.

Lemma obs_loop (traj_grp : Episode T) (w : string) (video_skip : Z)
  (names : Names) (brk : bool) (traj_len : nat) :
  video_skip <> 0%Z ->
  names_iter names <> [] ->
  images_ready traj_grp (names_iter names) traj_len ->
  forall len a,
    a + len <= traj_len ->
    exists tr video_count,
      for_range (obs_step (Meta := Meta) traj_grp (Some w) video_skip names)
                brk (seq a len) (Z.of_nat a) = (tr, Ok video_count) /\
      Forall (fun ev => is_append_event ev = true) tr /\
      List.length tr =
        List.length (sampled video_skip (seq a (executed brk len))).
Proof.
  intros Hskip Hnames Hready. unfold executed, sampled.
  induction len as [ | len IH]; intros a Hle.
  - exists [], (Z.of_nat a). destruct brk; cbn; auto.
  - destruct (@obs_step_frames traj_grp w video_skip names traj_len a
                (Z.of_nat a) Hskip Hnames Hready)
      as (tr1 & Hbody & Hk1 & Hl1); [ lia | ].
    cbn [seq for_range]. rewrite Hbody. cbn [bind].
    destruct brk.
    + do 2 eexists. split; [ reflexivity | ].
      rewrite app_nil_r. split; [ exact Hk1 | ]. rewrite Hl1.
      replace (Nat.min 1 (S len)) with 1 by (destruct len; reflexivity).
      cbn. now destruct (Z.of_nat a mod video_skip =? 0)%Z.
    + replace (Z.of_nat a + 1)%Z with (Z.of_nat (S a)) by lia.
      destruct (IH (S a)) as (tr2 & vc & Hrest & Hk2 & Hl2); [ lia | ].
      rewrite Hrest. do 2 eexists. split; [ reflexivity | ]. split.
      * apply Forall_app. auto.
      * rewrite length_app, Hl1, Hl2. cbn [seq filter].
        now destruct (Z.of_nat a mod video_skip =? 0)%Z.
Qed.

(** X6: playback from stored images.  The length of the episode is that
    of the array of the first image name.  When every name has its array,
    long enough, and the images of a step have one height, the driver
    returns; it makes no call but writing frames, one at each executed step
    whose index is a multiple of a non-zero [video_skip]. *)
Theorem observation_frames (traj_grp : Episode T) (w : string)
  (video_skip : Z) (names : Names) (first : bool) (k0 : string)
  (rest : list string) (arr0 : list Np.Image) :
  names_iter names = k0 :: rest ->
  assoc (String.append k0 "_image") (ep_obs traj_grp) = Some arr0 ->
  images_ready traj_grp (k0 :: rest) (List.length arr0) ->
  video_skip <> 0%Z ->
  exists tr,
    playback_trajectory_with_obs (Meta := Meta) traj_grp (Some w) video_skip
                                 (Some names) first = (tr, Ok tt) /\
    Forall (fun ev => is_append_event ev = true) tr /\
    List.length tr =
      List.length
        (sampled video_skip (seq 0 (executed first (List.length arr0)))).
Proof.
  intros Hnames Hfirst Hready Hskip.
  unfold playback_trajectory_with_obs, index, obs_image.
  rewrite Hnames. cbn [nth_error]. cbn -[for_range]. rewrite Hfirst.
  cbn -[for_range].
  destruct (@obs_loop traj_grp w video_skip names first (List.length arr0)
              Hskip) with (len := List.length arr0) (a := 0)
    as (tr & vc & Hloop & Hkind & Hlen).
  - rewrite Hnames. discriminate.
  - now rewrite Hnames.
  - lia.
  - cbn [Z.of_nat] in Hloop. rewrite Hloop. exists tr. cbn.
    rewrite app_nil_r. auto.
Qed.

(** X7: what playback from stored images rejects, each time before a
    frame is written: no image names ([AssertionError]), an empty list of
    names ([IndexError]), a first name without its array ([KeyError]), and
    a period of zero on an episode that has a step
    ([ZeroDivisionError]).  An episode whose first array is empty is played
    back as nothing at all. *)
Theorem observation_playback_rejects (traj_grp : Episode T)
  (video_writer : option string) (video_skip : Z) (first : bool) :
  playback_trajectory_with_obs (Meta := Meta) traj_grp video_writer
    video_skip None first = ([], Raise AssertionError) /\
  (forall names,
     names_iter names = [] ->
     playback_trajectory_with_obs (Meta := Meta) traj_grp video_writer
       video_skip (Some names) first = ([], Raise IndexError)) /\
  (forall names k0 rest,
     names_iter names = k0 :: rest ->
     assoc (String.append k0 "_image") (ep_obs traj_grp) = None ->
     playback_trajectory_with_obs (Meta := Meta) traj_grp video_writer
       video_skip (Some names) first = ([], Raise KeyError)) /\
  (forall names k0 rest im arr0,
     names_iter names = k0 :: rest ->
     assoc (String.append k0 "_image") (ep_obs traj_grp) = Some (im :: arr0) ->
     video_skip = 0%Z ->
     playback_trajectory_with_obs (Meta := Meta) traj_grp video_writer
       video_skip (Some names) first = ([], Raise ZeroDivisionError)) /\
  (forall names k0 rest,
     names_iter names = k0 :: rest ->
     assoc (String.append k0 "_image") (ep_obs traj_grp) = Some [] ->
     playback_trajectory_with_obs (Meta := Meta) traj_grp video_writer
       video_skip (Some names) first = ([], Ok tt)).
Proof.
  unfold playback_trajectory_with_obs, index, obs_image.
  repeat split.
  - intros names ->. reflexivity.
  - intros names k0 rest -> Hnone. cbn. now rewrite Hnone.
  - intros names k0 rest im arr0 -> Harr ->. cbn -[for_range].
    rewrite Harr. reflexivity.
  - intros names k0 rest -> Harr. cbn. now rewrite Harr.
Qed.

(** *** The checks of a run *)

(** X8: configuration errors.  With camera names given, a run is
    rejected with an [AssertionError] before the environment is made and
    before the file is read when it asks for on-screen rendering with a
    number of cameras other than one, for playback from images together
    with on-screen rendering, or for playback from images together with
    action replay. *)
Theorem configuration_errors (args : Args) (f : H5File T)
  (l : list string) :
  render_image_names args = Some l ->
  (render args = true /\ List.length l <> 1) \/
  (use_obs args = true /\ render args = true) \/
  (use_obs args = true /\ use_actions args = true) ->
  playback_dataset args f = ([], Raise AssertionError).
Proof.
  intros Hnames Hbad.
  unfold playback_dataset, check_args, write_video_of, names_len.
  rewrite Hnames. revert Hbad.
  destruct (render args), (use_obs args), (use_actions args);
    destruct l as [ | cam [ | cam' l]]; cbn; intros Hbad;
    try reflexivity;
    destruct Hbad as [[Hr Hl] | [[Ho Hr] | [Ho Ha]]];
    try discriminate; exfalso; apply Hl; reflexivity.
Qed.


(** X10: a file without a data group.  Once the argument checks pass, a
    run with the simulator raises [KeyError] before the environment is
    made; a run from stored images with no filter key raises
    [UnboundLocalError], the episode list never having been assigned. *)
Theorem missing_data_group (args : Args) (f : H5File T) (names : Names) :
  h5_data f = None ->
  check_args args f = ([], Ok names) ->
  (use_obs args = false ->
   playback_dataset args f = ([], Raise KeyError)) /\
  (use_obs args = true -> filter_key args = None ->
   playback_dataset args f = ([], Raise UnboundLocalError)).
Proof.
  intros Hdata Hcheck. unfold playback_dataset. rewrite Hcheck. split.
  - intros Hobs.
    unfold make_env, get_env_metadata_from_dataset. rewrite Hobs, Hdata.
    reflexivity.
  - intros Hobs Hkey.
    unfold make_env, list_demos, stored_demos. rewrite Hobs, Hkey, Hdata.
    reflexivity.
Qed.

Lemma in_firstn (A : Type) (c : nat) (l : list A) (x : A) :
  In x (firstn c l) -> In x l.
Proof.
  intros Hx. rewrite <- (firstn_skipn c l). apply in_or_app. now left.
Qed.

(** X11: the cap on the number of episodes.  For stored ids that are
    ASCII text with an integer literal that fits [int64] after the first
    five characters, and with [n] set, the sorted list is shuffled and cut:
    the episodes played are the first [n] of a permutation of the stored
    ones, so at most [n], each a stored episode, none twice when the stored
    ids are distinct.  A negative [n] cuts from the end instead: all but
    [-n] episodes are played. *)
Theorem episode_cap (args : Args) (f : H5File T)
  (tr : list (Event T Meta)) (demos : list string) (keys : list Z) (k : Z) :
  Np.argsort_contract np_argsort ->
  shuffle_contract random_shuffle ->
  n args = Some k ->
  stored_demos args f = (tr, Ok demos) ->
  Forall2 (fun elem key => demo_number elem = Some key) demos keys ->
  Forall Np.in_int64 keys ->
  exists shuffled,
    Permutation shuffled demos /\
    list_demos args f = (tr ++ [EvShuffle], Ok (slice_to k shuffled)) /\
    List.length (slice_to k shuffled) =
      (if (0 <=? k)%Z then Nat.min (Z.to_nat k) (List.length demos)
       else List.length demos - Z.to_nat (- k)) /\
    incl (slice_to k shuffled) demos /\
    (NoDup demos -> NoDup (slice_to k shuffled)).
Proof.
  intros Hargsort Hshuffle Hn Hstored Hkeys Hrange.
  destruct (@sort_demos_sorted T Meta host demos keys Hargsort Hkeys Hrange)
    as (sorted & skeys & Hsort & Hperm & _).
  assert (Hmixed : Permutation (random_shuffle sorted) demos).
  { eapply Permutation_trans; [ apply Hshuffle | exact Hperm ]. }
  exists (random_shuffle sorted). split; [ exact Hmixed | ].
  split; [ | split; [ | split ] ].
  - unfold list_demos. rewrite Hstored, Hn. cbn [bind].
    rewrite Hsort. cbn. rewrite ?app_nil_r. reflexivity.
  - unfold slice_to. rewrite <- (Permutation_length Hmixed).
    destruct (0 <=? k)%Z eqn:Hk; rewrite length_firstn.
    + reflexivity.
    + apply Z.leb_gt in Hk. lia.
  - intros x Hx. apply (Permutation_in _ Hmixed).
    unfold slice_to in Hx.
    destruct (0 <=? k)%Z; eapply in_firstn; exact Hx.
  - intros Hnd.
    assert (Hnd' : NoDup (random_shuffle sorted)).
    { eapply Permutation_NoDup; [ apply Permutation_sym, Hmixed | exact Hnd ]. }
    unfold slice_to.
    destruct (0 <=? k)%Z;
      match goal with
      | |- NoDup (firstn ?c ?l) =>
          rewrite <- (firstn_skipn c l) in Hnd';
          exact (NoDup_app_remove_r _ _ Hnd')
      end.
Qed.

(** *** Episodes that cannot be played *)

(** X12: a malformed episode is rejected before the simulator is
    touched.  With the simulator, an episode id that is not in the file, an
    episode without states and an episode without a model attribute raise
    [KeyError], and an episode with no state at all raises [IndexError];
    the only call made is the print of the episode id.  The model
    attribute is required even when the current model is used. *)
Theorem malformed_episode (args : Args) (f : H5File T) (names : Names)
  (video_writer : option string) (ep : string) (env : option E) :
  use_obs args = false ->
  let run := playback_episode args f names video_writer ep env in
  (h5_episode f ep = None ->
   run = ([EvPrint (MsgPlayingBack ep)], Raise KeyError)) /\
  (forall grp,
     h5_episode f ep = Some grp -> ep_states grp = None ->
     run = ([EvPrint (MsgPlayingBack ep)], Raise KeyError)) /\
  (forall grp,
     h5_episode f ep = Some grp -> ep_states grp = Some [] ->
     run = ([EvPrint (MsgPlayingBack ep)], Raise IndexError)) /\
  (forall grp s0 rest,
     h5_episode f ep = Some grp -> ep_states grp = Some (s0 :: rest) ->
     ep_model_file grp = None ->
     run = ([EvPrint (MsgPlayingBack ep)], Raise KeyError)).
Proof.
  intros Hobs run. subst run. unfold playback_episode. rewrite Hobs.
  repeat split.
  - intros ->. reflexivity.
  - intros grp -> Hstates. cbn. rewrite Hstates. reflexivity.
  - intros grp -> Hstates. cbn. rewrite Hstates. reflexivity.
  - intros grp s0 rest -> Hstates Hmodel. cbn. rewrite Hstates. cbn.
    rewrite Hmodel. reflexivity.
Qed.

(** X13: verbose playback needs episode metadata.  With verbose logging,
    an episode that has states and a model but no metadata attribute
    raises [TypeError] in the preamble of the replay driver: nothing has
    been restored in the simulator, whose only use so far is the reading of
    the current model when that is asked for. *)
Theorem verbose_needs_metadata (args : Args) (f : H5File T) (names : Names)
  (video_writer : option string) (ep : string) (env : E) (grp : Episode T)
  (s0 : list T) (rest : list (list T)) (model : string) :
  use_obs args = false ->
  verbose args = true ->
  h5_episode f ep = Some grp ->
  ep_states grp = Some (s0 :: rest) ->
  ep_model_file grp = Some model ->
  ep_ep_meta grp = None ->
  (use_actions args = true -> ep_actions grp <> None) ->
  (render args = true -> video_writer = None) ->
  playback_episode args f names video_writer ep (Some env) =
    (EvPrint (MsgPlayingBack ep) ::
     (if use_current_model args then [EvGetXml] else []),
     Raise TypeError).
Proof.
  intros Hobs Hverbose Hgrp Hstates Hmodel Hmeta Hacts Hvideo.
  unfold playback_episode. rewrite Hobs, Hgrp.
  cbn -[playback_trajectory_with_env extend index].
  rewrite Hstates.
  cbn -[playback_trajectory_with_env extend].
  rewrite Hmodel.
  cbn -[playback_trajectory_with_env extend].
  destruct (extend_nonempty (Meta := Meta) s0 rest) as [final Hext].
  rewrite Hext.
  assert (Hmix : negb (render args && match video_writer with
                                      | Some _ => true
                                      | None => false
                                      end) = true).
  { destruct (render args); [ now rewrite Hvideo | reflexivity ]. }
  unfold playback_trajectory_with_env, announce.
  rewrite Hverbose, Hmeta, Hmix.
  destruct (use_actions args);
    [ destruct (ep_actions grp); [ | now contradiction Hacts ] | ];
    destruct (use_current_model args), (extend_states args); reflexivity.
Qed.


(** *** The metadata of the environment *)

(** X22: the environment metadata must name the environment and hold its
    keyword arguments.  With the simulator, once the argument checks pass
    and the metadata of the file decodes, the run raises before any call,
    no environment having been made: [TypeError] when the metadata is not a
    [dict], [KeyError] when it has no [env_kwargs], [KeyError] when it has
    no [env_name], and [TypeError] when its [env_kwargs] are not a
    [dict]. *)
Theorem environment_metadata_required (args : Args) (f : H5File T)
  (names : Names) (d : DataGroup T) (s : string) (m : Meta) :
  use_obs args = false ->
  check_args args f = ([], Ok names) ->
  h5_data f = Some d ->
  env_args d = Some s ->
  json_loads s = Some m ->
  (meta_is_dict m = false ->
   playback_dataset args f = ([], Raise TypeError)) /\
  (meta_is_dict m = true ->
   meta_item "env_kwargs" m = None ->
   playback_dataset args f = ([], Raise KeyError)) /\
  (forall kwargs,
     meta_is_dict m = true ->
     meta_item "env_kwargs" m = Some kwargs ->
     meta_item "env_name" m = None ->
     playback_dataset args f = ([], Raise KeyError)) /\
  (forall kwargs name,
     meta_is_dict m = true ->
     meta_item "env_kwargs" m = Some kwargs ->
     meta_item "env_name" m = Some name ->
     meta_is_dict kwargs = false ->
     playback_dataset args f = ([], Raise TypeError)).
Proof.
  intros Hobs Hcheck Hdata Hargs Hdecode.
  unfold playback_dataset. rewrite Hcheck.
  unfold make_env, get_env_metadata_from_dataset, meta_getitem,
    meta_setitem_check.
  rewrite Hobs, Hdata. cbn. rewrite Hargs. cbn. rewrite Hdecode. cbn.
  repeat split.
  - intros ->. reflexivity.
  - intros -> ->. reflexivity.
  - intros kwargs -> -> ->. reflexivity.
  - intros kwargs name -> -> -> Hkwargs. cbn. now rewrite Hkwargs.
Qed.

(** *** What a run closes *)

Lemma render_cameras_silent (p : Event T Meta -> bool) (env : E)
  (cams : list string) :
  (forall cam, p (EvRender cam) = false) ->
  silent p (render_cameras env cams).
Proof.
  intros Hp. unfold silent, trace. rewrite render_cameras_trace. cbn [fst].
  induction cams as [ | cam cams IH]; cbn; [ reflexivity | ].
  now rewrite Hp.
Qed.

Ltac mute_all :=
  repeat first
    [ apply render_cameras_silent; intro; reflexivity
    | mute_step
    | progress unfold call, ret, raise, lift, py_assert, getitem, index, int,
        meta_getitem, meta_get_lang, meta_setitem_check,
        action_step, check_divergence, state_step, render_step,
        divides_count, obs_step, obs_image, extend, reset_to, apply_ep_meta,
        refresh, announce, loop_body, video_step, replay_loop,
        playback_trajectory_with_env, playback_trajectory_with_obs,
        playback_episode, check_args, make_env, list_demos, stored_demos,
        sort_demos, get_env_metadata_from_dataset ].

Lemma episode_closes_nothing (args : Args) (f : H5File T) (names : Names)
  (video_writer : option string) (ep : string) (env : option E) :
  silent is_close_event (playback_episode args f names video_writer ep env).
Proof.
  mute_all.
Qed.

Lemma fails_silent_bind (A B : Type) (p : Event T Meta -> bool)
  (m : M (Event T Meta) A) (f : A -> M (Event T Meta) B) :
  silent p m ->
  (forall a, fails (f a) -> silent p (f a)) ->
  fails (bind m f) -> silent p (bind m f).
Proof.
  unfold silent, fails, trace, outcome.
  destruct m as [t1 [a | e]]; cbn; intros Hm Hf Hfails.
  - specialize (Hf a). destruct (f a) as [t2 r]. cbn in *.
    rewrite count_app, Hm. now apply Hf.
  - exact Hm.
Qed.

(** X14: a run that raises closes nothing.  Whatever makes
    [playback_dataset] raise, a rejected configuration or a failure in an
    episode, neither the dataset file it opened (line 381) nor the video
    writer nor the environment is closed: the closing calls of lines 446-452
    are only reached by a run that returns. *)
Theorem failed_run_closes_nothing (args : Args) (f : H5File T) :
  fails (playback_dataset args f) ->
  silent is_close_event (playback_dataset args f).
Proof.
  unfold playback_dataset.
  apply fails_silent_bind; [ mute_all | intros names ].
  apply fails_silent_bind; [ mute_all | intros env ].
  apply fails_silent_bind; [ mute_all | intros demos ].
  apply fails_silent_bind; [ mute_all | intros video_writer ].
  apply fails_silent_bind;
    [ apply silent_for_each; intros; apply episode_closes_nothing
    | intros env' ].
  intros [e He]. exfalso.
  destruct (write_video_of args), env'; cbn in He; discriminate.
Qed.

Lemma made_env (args : Args) (f : H5File T) (t : list (Event T Meta))
  (env : option E) :
  make_env args f = (t, Ok env) ->
  (use_obs args = true -> env = None) /\
  (use_obs args = false -> env <> None).
Proof.
  unfold make_env. destruct (use_obs args).
  - intros [= _ <-]. split; [ reflexivity | discriminate ].
  - intros H. split; [ discriminate | intros _ ].
    apply bind_returns in H as (t1 & m & t2 & _ & H & _).
    apply bind_returns in H as (t3 & kwargs & t4 & _ & H & _).
    apply bind_returns in H as (t5 & name & t6 & _ & H & _).
    apply bind_returns in H as (t7 & [] & t8 & _ & H & _).
    apply bind_returns in H as (t9 & [] & t10 & _ & H & _).
    apply bind_returns in H as (t11 & e & t12 & _ & H & _).
    injection H as _ <-. discriminate.
Qed.

Lemma episode_keeps_env (args : Args) (f : H5File T) (names : Names)
  (video_writer : option string) (ep : string) (env env' : option E)
  (t : list (Event T Meta)) :
  playback_episode args f names video_writer ep env = (t, Ok env') ->
  (use_obs args = true -> env' = env) /\
  (use_obs args = false -> env' <> None).
Proof.
  unfold playback_episode. intros H.
  apply bind_returns in H as (t1 & [] & t2 & _ & H & _).
  destruct (use_obs args).
  - split; [ intros _ | discriminate ].
    apply bind_returns in H as (t3 & grp & t4 & _ & H & _).
    apply bind_returns in H as (t5 & [] & t6 & _ & H & _).
    now injection H as _ <-.
  - split; [ discriminate | intros _ ].
    apply bind_returns in H as (t3 & grp & t4 & _ & H & _).
    apply bind_returns in H as (t5 & states & t6 & _ & H & _).
    apply bind_returns in H as (t7 & s0 & t8 & _ & H & _).
    apply bind_returns in H as (t9 & model & t10 & _ & H & _).
    destruct env as [e | ]; [ | discriminate ].
    apply bind_returns in H as (u1 & model' & u2 & _ & H & _).
    apply bind_returns in H as (u3 & states' & u4 & _ & H & _).
    apply bind_returns in H as (u5 & actions & u6 & _ & H & _).
    apply bind_returns in H as (u7 & e' & u8 & _ & H & _).
    injection H as _ <-. discriminate.
Qed.

Lemma episodes_keep_env (args : Args) (f : H5File T) (names : Names)
  (video_writer : option string) (demos : list string) :
  forall (env env' : option E) (t : list (Event T Meta)),
    for_each (playback_episode args f names video_writer) demos env =
      (t, Ok env') ->
    (use_obs args = true -> env = None -> env' = None) /\
    (use_obs args = false -> env <> None -> env' <> None).
Proof.
  induction demos as [ | ep demos IH]; intros env env' t; cbn [for_each].
  - intros [= _ <-]. auto.
  - intros H. apply bind_returns in H as (t1 & env1 & t2 & Hep & H & _).
    apply episode_keeps_env in Hep. apply IH in H.
    destruct Hep as [Hobs Hsim], H as [Hobs' Hsim']. split.
    + intros Ho Hnone. apply Hobs'; [ exact Ho | ].
      rewrite (Hobs Ho). exact Hnone.
    + intros Hs _. apply Hsim'; [ exact Hs | now apply Hsim ].
Qed.

(** X15: a run that returns closes what it opened, last and once.  Its
    final calls are, in this order: the dataset file is closed; when a video
    was written, its path is printed and the writer is closed; when the
    simulator was used, the environment is closed.  None of the three is
    closed before. *)
Theorem returned_run_closes_last (args : Args) (f : H5File T) :
  outcome (playback_dataset args f) = Ok tt ->
  exists pre,
    trace (playback_dataset args f) = pre ++ closing_calls args /\
    count is_close_event pre = 0.
Proof.
  destruct (playback_dataset args f) as [t r] eqn:Hrun. cbn. intros ->.
  unfold playback_dataset in Hrun.
  apply bind_returns in Hrun as (t1 & names & u1 & Hcheck & Hrun & ->).
  apply bind_returns in Hrun as (t2 & env0 & u2 & Henv & Hrun & ->).
  apply bind_returns in Hrun as (t3 & demos & u3 & Hdemos & Hrun & ->).
  apply bind_returns in Hrun as (t4 & writer & u4 & Hwriter & Hrun & ->).
  apply bind_returns in Hrun as (t5 & env1 & u5 & Hloop & Hrun & ->).
  exists (t1 ++ t2 ++ t3 ++ t4 ++ t5). split.
  - rewrite <- !app_assoc. do 5 f_equal.
    apply made_env in Henv. apply episodes_keep_env in Hloop.
    destruct Henv as [Ho Hs], Hloop as [Ho' Hs'].
    unfold closing_calls.
    destruct (use_obs args).
    + rewrite (Ho' eq_refl (Ho eq_refl)) in Hrun.
      destruct (write_video_of args); cbn in Hrun;
        now injection Hrun as <-.
    + specialize (Hs' eq_refl (Hs eq_refl)).
      destruct env1 as [e | ]; [ | contradiction ].
      destruct (write_video_of args); cbn in Hrun;
        now injection Hrun as <-.
  - assert (H1 : silent is_close_event (check_args args f)) by mute_all.
    assert (H2 : silent is_close_event (make_env args f)) by mute_all.
    assert (H3 : silent is_close_event (list_demos args f)) by mute_all.
    assert (H4 : silent (@is_close_event T Meta)
                   (if write_video_of args
                    then call (EvGetWriter (video_path_of args))
                              (Some (video_path_of args))
                    else ret (@None string))) by mute_all.
    assert (H5 : silent is_close_event
                   (for_each (playback_episode args f names writer)
                             demos env0)).
    { apply silent_for_each. intros. apply episode_closes_nothing. }
    unfold silent, trace in *.
    rewrite Hcheck in H1. rewrite Henv in H2. rewrite Hdemos in H3.
    rewrite Hwriter in H4. rewrite Hloop in H5. cbn [fst] in *.
    unfold count. rewrite !count_app. lia.
Qed.

(** *** A whole episode *)

Lemma restoration_injects (env : E) (state : StateDict T) :
  metadata_decodes state = true ->
  exists tr env',
    reset_to env state = (tr, Ok (env', None)) /\
    List.length (filter is_inject_event tr) =
      match d_states state with Some _ => 1 | None => 0 end.
Proof.
  unfold metadata_decodes. intros Hdec.
  destruct (d_model state) as [model | ] eqn:Hmodel.
  - destruct (decode_ep_meta state) as [m | ] eqn:Hmeta; [ | discriminate ].
    destruct (reset_to_with_model env state Hmodel Hmeta)
      as (env' & Hrun).
    do 2 eexists. split; [ exact Hrun | ].
    unfold metadata_calls, normalize_call, inject_calls, refresh_calls.
    destruct has_set_attrs_from_ep_meta, has_set_ep_meta, has_update_sites,
      has_update_state, (robosuite_version_id <=? 3)%Z, (d_states state);
      reflexivity.
  - destruct (reset_to_without_model env state Hmodel) as (env' & Hrun).
    do 2 eexists. split; [ exact Hrun | ].
    unfold inject_calls, refresh_calls.
    destruct has_update_sites, has_update_state, (d_states state);
      reflexivity.
Qed.

Lemma with_env_state_replay (env : E) (initial_state : StateDict T)
  (states : list (list T)) (video_writer : option string) (video_skip : Z)
  (camera_names : option Names) (first verbose : bool)
  (blob : option string) :
  d_ep_meta initial_state = Some blob ->
  metadata_usable verbose blob = true ->
  video_ready video_writer video_skip camera_names ->
  exists tr env',
    playback_trajectory_with_env env initial_state states None false
      video_writer video_skip camera_names first verbose = (tr, Ok env') /\
    count is_inject_event tr =
      match d_states initial_state with Some _ => 1 | None => 0 end +
      executed first (List.length states) /\
    count is_step_event tr = 0 /\
    count is_warning_event tr = 0 /\
    incl (trace (reset_to env initial_state)) tr.
Proof.
  intros Hblob Husable Hvideo.
  destruct (announce_runs _ _ Hblob Husable) as [tr_a Hannounce].
  destruct (restoration_injects env initial_state
              (usable_decodes _ _ Hblob Husable))
    as (tr_r & env1 & Hreset & Hinject).
  assert (Hrun : exists tr s',
            replay_loop states None false video_writer video_skip
                        camera_names first verbose (env1, 0%Z, false) =
              (tr, Ok s') /\
            List.length (filter is_inject_event tr) =
              executed first (List.length states) /\
            Forall (fun ev => is_state_replay_event ev = true) tr).
  { unfold replay_loop.
    match goal with
    | |- context [for_range ?body ?brk ?indices _] =>
        pose proof (@for_range_counts _ is_inject_event
                      (fun ev => is_state_replay_event ev = true)
                      body brk indices) as Hloop
    end.
    rewrite length_seq in Hloop. apply Hloop.
    intros i t Hin. apply in_seq in Hin.
    apply state_loop_body_runs; [ lia | exact Hvideo ]. }
  destruct Hrun
    as (tr_l & [[env2 video_count] success] & Hloop & Hcount & Hkind).
  assert (Ha : List.length (filter is_inject_event tr_a) = 0 /\
               List.length (filter is_step_event tr_a) = 0 /\
               List.length (filter is_warning_event tr_a) = 0).
  { assert (H1 : silent (@is_inject_event T Meta)
                   (if verbose then announce initial_state else ret tt))
      by mute.
    assert (H2 : silent (@is_step_event T Meta)
                   (if verbose then announce initial_state else ret tt))
      by mute.
    assert (H3 : silent (@is_warning_event T Meta)
                   (if verbose then announce initial_state else ret tt))
      by mute.
    unfold silent, trace in H1, H2, H3.
    rewrite Hannounce in H1, H2, H3. auto. }
  destruct Ha as (Hai & Has & Haw).
  assert (Hrs : List.length (filter is_step_event tr_r) = 0).
  { assert (Hs : silent is_step_event (reset_to env initial_state)) by mute.
    unfold silent, trace in Hs. now rewrite Hreset in Hs. }
  assert (Hrw : List.length (filter is_warning_event tr_r) = 0).
  { assert (Hs : silent is_warning_event (reset_to env initial_state))
      by mute.
    unfold silent, trace in Hs. now rewrite Hreset in Hs. }
  assert (Hls : List.length (filter is_step_event tr_l) = 0).
  { apply all_of_kind with (q := is_state_replay_event);
      [ exact Hkind | now intros [] ]. }
  assert (Hlw : List.length (filter is_warning_event tr_l) = 0).
  { apply all_of_kind with (q := is_state_replay_event);
      [ exact Hkind | now intros [] ]. }
  unfold playback_trajectory_with_env. cbn [andb negb py_assert].
  rewrite Hannounce, Hreset. cbn -[replay_loop]. rewrite Hloop. cbn.
  do 2 eexists. split; [ reflexivity | ].
  unfold count, trace in *. rewrite ?app_nil_r, !count_app. cbn.
  rewrite Hai, Has, Haw, Hinject, Hrs, Hrw, Hcount, Hls, Hlw.
  repeat split; try lia.
  intros ev Hin. apply in_or_app. right. apply in_or_app. now left.
Qed.


(** X16: state-injection playback of a whole episode.  Without actions
    and without on-screen rendering, when the metadata of the initial state
    can be used and the video part can produce its frames, the replay
    driver returns.  The state is injected once by the initial restoration
    when it holds a state, and once per executed step; the simulator is
    never stepped and no warning is printed. *)
Theorem state_playback_returns (env : E) (initial_state : StateDict T)
  (states : list (list T)) (video_writer : option string) (video_skip : Z)
  (camera_names : option Names) (first verbose : bool)
  (blob : option string) :
  d_ep_meta initial_state = Some blob ->
  metadata_usable verbose blob = true ->
  video_ready video_writer video_skip camera_names ->
  exists tr env',
    playback_trajectory_with_env env initial_state states None false
      video_writer video_skip camera_names first verbose = (tr, Ok env') /\
    count is_inject_event tr =
      match d_states initial_state with Some _ => 1 | None => 0 end +
      executed first (List.length states) /\
    count is_step_event tr = 0 /\
    count is_warning_event tr = 0.
Proof.
  intros Hblob Husable Hvideo.
  destruct (@with_env_state_replay env initial_state states video_writer
              video_skip camera_names first verbose blob Hblob Husable Hvideo)
    as (tr & env' & Hrun & Hinject & Hstep & Hwarn & _).
  exists tr, env'. auto.
Qed.

(** *** The success report of action replay *)

Lemma skipn_next (A : Type) (l : list A) (i : nat) (a : A) :
  nth_error l i = Some a -> skipn i l = a :: skipn (S i) l.
Proof.
  revert i. induction l as [ | x l IH]; intros [ | i]; cbn;
    try discriminate.
  - now intros [= ->].
  - apply IH.
Qed.

Lemma action_step_result (states actions : list (list T)) (verbose : bool)
  (d i : nat) (env : E) (success : bool) (a : list T) :
  mode_ready states (Some actions) d ->
  nth_error actions i = Some a ->
  exists tr,
    action_step states actions verbose (List.length states) i env success =
      (tr, Ok (env_step a env, check_success (env_step a env) || success)) /\
    List.length (filter is_not_success_event tr) = 0.
Proof.
  intros (Hacts & Hrows & Hsim) Ha.
  assert (Hquiet : silent is_not_success_event
                     (action_step states actions verbose
                        (List.length states) i env success)) by mute.
  unfold silent, trace in Hquiet.
  destruct (nth_error states (i + 1)) as [expected | ] eqn:Hexp.
  - assert (Hlen : List.length expected =
                   List.length (sim_get_state (env_step a env))).
    { rewrite Hsim. rewrite Forall_forall in Hrows. apply Hrows.
      eapply nth_error_In; eassumption. }
    erewrite action_step_checked in *; [ | eassumption .. ].
    eexists. split; [ reflexivity | exact Hquiet ].
  - apply nth_error_None in Hexp.
    assert (Hlast : (Z.of_nat i <? Z.of_nat (List.length states) - 1)%Z = false)
      by (apply Z.ltb_ge; lia).
    unfold action_step, index in *. rewrite Ha, Hlast in *. cbn in *.
    eexists. split; [ reflexivity | exact Hquiet ].
Qed.

Lemma action_loop_result (states actions : list (list T)) (video_skip : Z)
  (camera_names : option Names) (brk verbose : bool) (d : nat) :
  mode_ready states (Some actions) d ->
  forall len a env video_count success,
    a + len <= List.length states ->
    exists tr env',
      for_range (loop_body states (Some actions) false None video_skip
                           camera_names verbose (List.length states))
                brk (seq a len) (env, video_count, success) =
        (tr, Ok (env', video_count,
                 existsb check_success
                         (rollout (firstn (executed brk len) (skipn a actions))
                                  env) || success)) /\
      List.length (filter is_not_success_event tr) = 0.
Proof.
  intros Hmode. pose proof Hmode as (Hacts & _).
  unfold executed.
  induction len as [ | len IH]; intros a env video_count success Hle.
  - exists [], env. destruct brk; cbn; auto.
  - destruct (nth_error actions a) as [x | ] eqn:Hx;
      [ | apply nth_error_None in Hx; lia ].
    destruct (@action_step_result states actions verbose d a env success x
                Hmode Hx) as (tr1 & Hstep & Hq1).
    rewrite (skipn_next _ _ Hx).
    cbn [seq for_range]. unfold loop_body at 1. rewrite Hstep.
    cbn [bind ret app].
    destruct brk.
    + replace (Nat.min 1 (S len)) with 1 by (destruct len; reflexivity).
      do 2 eexists. split.
      * cbn. rewrite Bool.orb_false_r. reflexivity.
      * cbn. now rewrite !app_nil_r.
    + destruct (IH (S a) (env_step x env) video_count
                  (check_success (env_step x env) || success))
        as (tr2 & env2 & Hrest & Hq2); [ lia | ].
      rewrite Hrest. exists ((tr1 ++ []) ++ tr2), env2. split.
      * cbn [firstn rollout existsb]. cbn [bind ret app].
        match goal with
        | |- (_, Ok (_, _, ?x)) = (_, Ok (_, _, ?y)) =>
            replace x with y; [ reflexivity | ]
        end.
        destruct (check_success (env_step x env)), success,
          (existsb check_success _); reflexivity.
      * rewrite !app_nil_r, count_app. lia.
Qed.

(** X17: the success report of action replay.  Without on-screen
    rendering and without a video writer, when the initial restoration
    returns, the metadata can be used, the actions are as many as the
    states and the recorded states have the dimension of the simulator
    state, the replay driver returns, and it prints the warning that the
    playback did not succeed exactly when the success check failed after
    every executed step; it prints it once. *)
Theorem success_report (env env1 : E) (initial_state : StateDict T)
  (states actions : list (list T)) (video_skip : Z)
  (camera_names : option Names) (first verbose : bool) (d : nat)
  (blob : option string) (tr_r : list (Event T Meta))
  (r : option (Observation T)) :
  reset_to env initial_state = (tr_r, Ok (env1, r)) ->
  d_ep_meta initial_state = Some blob ->
  metadata_usable verbose blob = true ->
  mode_ready states (Some actions) d ->
  exists tr env',
    playback_trajectory_with_env env initial_state states (Some actions)
      false None video_skip camera_names first verbose = (tr, Ok env') /\
    count is_not_success_event tr =
      (if existsb check_success
                  (rollout (firstn (executed first (List.length states))
                                   actions) env1)
       then 0 else 1).
Proof.
  intros Hreset Hblob Husable Hmode.
  destruct (announce_runs _ _ Hblob Husable) as [tr_a Hannounce].
  destruct (@action_loop_result states actions video_skip camera_names
              first verbose d Hmode (List.length states) 0 env1 0%Z false)
    as (tr_l & env2 & Hloop & Hlq); [ lia | ].
  assert (Haq : List.length (filter is_not_success_event tr_a) = 0).
  { assert (H1 : silent (@is_not_success_event T Meta)
                   (if verbose then announce initial_state else ret tt))
      by mute.
    unfold silent, trace in H1. now rewrite Hannounce in H1. }
  assert (Hrq : List.length (filter is_not_success_event tr_r) = 0).
  { assert (Hs : silent is_not_success_event (reset_to env initial_state))
      by mute.
    unfold silent, trace in Hs. now rewrite Hreset in Hs. }
  destruct Hmode as (Hacts & _).
  unfold playback_trajectory_with_env, replay_loop.
  cbn [andb negb py_assert].
  rewrite Hannounce, Hreset, Hacts, Nat.eqb_refl.
  cbn -[for_range]. rewrite Hloop.
  rewrite Bool.orb_false_r. cbn [skipn].
  destruct (existsb check_success _); cbn;
    do 2 eexists; (split; [ reflexivity | ]);
    unfold count; rewrite ?app_nil_r, !count_app; cbn;
    rewrite ?count_app, Haq, Hrq, Hlq; cbn; lia.
Qed.

(** *** A whole episode in state-injection mode *)

(** X18: an episode replayed by state injection.  Without observations,
    actions and on-screen rendering, for an episode with at least one
    state, a model and usable metadata, and a video part that can produce
    its frames, the body of the episode loop returns.  The model it
    normalises is the recorded one, or the live model of the simulator
    when the current model is asked for; the state is injected
    once by the restoration and once per executed step, where the steps
    are the recorded states plus fifty when the states are extended; the
    simulator is never stepped. *)
Theorem episode_state_replay (args : Args) (f : H5File T) (names : Names)
  (video_writer : option string) (ep : string) (env : E) (grp : Episode T)
  (s0 : list T) (rest : list (list T)) (model : string) :
  use_obs args = false ->
  use_actions args = false ->
  render args = false ->
  h5_episode f ep = Some grp ->
  ep_states grp = Some (s0 :: rest) ->
  ep_model_file grp = Some model ->
  metadata_usable (verbose args) (ep_ep_meta grp) = true ->
  video_ready video_writer (video_skip args) (Some names) ->
  exists tr env',
    playback_episode args f names video_writer ep (Some env) =
      (tr, Ok (Some env')) /\
    In (normalize_call (model_used args env model)) tr /\
    count is_inject_event tr =
      1 + executed (first args)
            (S (List.length rest) + (if extend_states args then 50 else 0)) /\
    count is_step_event tr = 0.
Proof.
  intros Hobs Hact Hrender Hgrp Hstates Hmodel Husable Hvideo.
  destruct (extend_nonempty (Meta := Meta) s0 rest) as [final Hext].
  set (initial_state := {| d_states := Some s0;
                           d_model := Some (model_used args env model);
                           d_ep_meta := Some (ep_ep_meta grp) |}).
  set (states := if extend_states args
                 then (s0 :: rest) ++ repeat final 50 else s0 :: rest).
  destruct (@with_env_state_replay env initial_state states video_writer
              (video_skip args) (Some names) (first args) (verbose args)
              (ep_ep_meta grp) eq_refl Husable Hvideo)
    as (tr & env' & Hrun & Hinject & Hstep & _ & Hincl).
  assert (Hlen : List.length states =
                 S (List.length rest) +
                 (if extend_states args then 50 else 0)).
  { unfold states. destruct (extend_states args); cbn [List.length].
    - rewrite length_app, repeat_length. reflexivity.
    - lia. }
  assert (Hload : In (normalize_call (model_used args env model)) tr).
  { apply Hincl.
    pose proof (usable_decodes (verbose args) initial_state eq_refl Husable)
      as Hdec.
    unfold metadata_decodes in Hdec. cbn [d_model initial_state] in Hdec.
    destruct (decode_ep_meta initial_state) as [m | ] eqn:Hmeta;
      [ | discriminate ].
    destruct (reset_to_with_model env initial_state
                (model := model_used args env model) eq_refl Hmeta)
      as (env1 & Hreset).
    unfold trace. rewrite Hreset. cbn [fst].
    apply in_or_app. right. right. now left. }
  unfold playback_episode. rewrite Hobs, Hgrp. cbn [getitem].
  cbn -[playback_trajectory_with_env extend index]. rewrite Hstates.
  cbn -[playback_trajectory_with_env extend]. rewrite Hmodel, Hact.
  cbn -[playback_trajectory_with_env extend].
  subst initial_state states. unfold model_used in *. rewrite Hrender in *.
  destruct (use_current_model args), (extend_states args);
    cbv iota in *;
    cbn -[playback_trajectory_with_env extend];
    rewrite ?Hext; cbn -[playback_trajectory_with_env app repeat];
    rewrite Hrun; cbn;
    do 2 eexists; (split; [ reflexivity | ]);
    unfold count in *; cbn; rewrite ?app_nil_r;
    rewrite Hinject, Hstep, Hlen; cbn [d_states];
    (split; [ auto using in_cons | split; reflexivity ]).
Qed.

(** *** Recorded states of another shape *)

(** X20: a recorded state of another shape aborts action replay.  At a
    checked step, when the recorded next state and the state read back from
    the simulator have different lengths, neither of them 1, the comparison
    raises [ValueError]: the action has been applied and the success check
    made, and no divergence is reported. *)
Theorem shape_mismatch_aborts (states actions : list (list T))
  (verbose : bool) (i : nat) (env : E) (success : bool) (a expected : list T) :
  nth_error actions i = Some a ->
  nth_error states (i + 1) = Some expected ->
  List.length expected <> List.length (sim_get_state (env_step a env)) ->
  List.length expected <> 1 ->
  List.length (sim_get_state (env_step a env)) <> 1 ->
  action_step states actions verbose (List.length states) i env success =
    ([EvStep a; EvCheckSuccess; EvGetState], Raise ValueError).
Proof.
  intros Ha Hexp Hlen Hone Hone'.
  assert (Hi : i + 1 < List.length states)
    by (apply nth_error_Some; rewrite Hexp; discriminate).
  assert (Hchecked : (Z.of_nat i <? Z.of_nat (List.length states) - 1)%Z = true)
    by (apply Z.ltb_lt; lia).
  unfold action_step, index. rewrite Ha, Hchecked. cbn -[check_divergence].
  rewrite Hexp. cbn -[check_divergence].
  unfold check_divergence, Np.equal, Np.ufunc2.
  apply Nat.eqb_neq in Hlen. rewrite Hlen.
  destruct expected as [ | x [ | x' expected]];
    destruct (sim_get_state (env_step a env)) as [ | y [ | y' st]];
    cbn in *; try reflexivity; congruence.
Qed.

(** *** The order of the episodes *)

Lemma announced_none (tr : list (Event T Meta)) :
  List.length (filter is_announce_event tr) = 0 -> announced tr = [].
Proof.
  induction tr as [ | ev tr IH]; [ reflexivity | ].
  destruct ev as [[] | | | | | | | | | | | | | | | | | | | | | | | | | | ];
    cbn; try exact IH; discriminate.
Qed.

Lemma announced_bind (A B : Type) (m : M (Event T Meta) A)
  (k : A -> M (Event T Meta) B) :
  announced (trace (bind m k)) =
    announced (trace m) ++
    match outcome m with
    | Ok a => announced (trace (k a))
    | Raise _ => []
    end.
Proof.
  unfold trace, outcome, announced.
  destruct m as [t1 [a | e]]; cbn.
  - destruct (k a) as [t2 r]. cbn. apply flat_map_app.
  - now rewrite app_nil_r.
Qed.

Lemma announced_silent_bind (A B : Type) (m : M (Event T Meta) A)
  (k : A -> M (Event T Meta) B) :
  silent is_announce_event m ->
  announced (trace (bind m k)) =
    match outcome m with
    | Ok a => announced (trace (k a))
    | Raise _ => []
    end.
Proof.
  intros Hm. rewrite announced_bind. now rewrite (announced_none _ Hm).
Qed.

Lemma outcome_bind (A B : Type) (m : M (Event T Meta) A)
  (k : A -> M (Event T Meta) B) :
  outcome (bind m k) =
    match outcome m with
    | Ok a => outcome (k a)
    | Raise e => Raise e
    end.
Proof.
  unfold outcome. destruct m as [t1 [a | e]]; cbn; [ | reflexivity ].
  now destruct (k a).
Qed.

Lemma episode_announced (args : Args) (f : H5File T) (names : Names)
  (video_writer : option string) (ep : string) (env : option E) :
  announced (trace (playback_episode args f names video_writer ep env)) =
    [ep].
Proof.
  unfold playback_episode. rewrite announced_bind.
  cbn [emit trace fst outcome snd announced flat_map app].
  rewrite announced_none; [ reflexivity | ].
  match goal with
  | |- List.length (filter _ (trace ?m)) = 0 =>
      change (silent is_announce_event m)
  end.
  mute_all.
Qed.

Lemma episodes_announced (args : Args) (f : H5File T) (names : Names)
  (video_writer : option string) (demos : list string) :
  forall env : option E,
    exists k,
      announced (trace (for_each (playback_episode args f names video_writer)
                                 demos env)) = firstn k demos /\
      (forall env',
         outcome (for_each (playback_episode args f names video_writer)
                           demos env) = Ok env' ->
         k = List.length demos).
Proof.
  induction demos as [ | ep demos IH]; intros env; cbn [for_each].
  - exists 0. split; reflexivity.
  - rewrite announced_bind, outcome_bind, episode_announced.
    destruct (outcome (playback_episode args f names video_writer ep env))
      as [env1 | e].
    + destruct (IH env1) as (k & Hk & Hall).
      exists (S k). rewrite Hk. split; [ reflexivity | ].
      intros env' Hok. cbn [List.length]. f_equal. now apply (Hall env').
    + exists 1. split; [ reflexivity | discriminate ].
Qed.

(** X21: the order of the episodes.  The episodes a run announces are the
    first ones of the episode list, in its order, each once: the run plays
    the list from its start and stops at the first episode that raises.  A
    run that returns has announced the whole list. *)
Theorem episodes_in_order (args : Args) (f : H5File T)
  (tr : list (Event T Meta)) (demos : list string) :
  list_demos args f = (tr, Ok demos) ->
  exists k,
    announced (trace (playback_dataset args f)) = firstn k demos /\
    (outcome (playback_dataset args f) = Ok tt -> k = List.length demos).
Proof.
  intros Hlist.
  assert (Hquiet : silent is_announce_event (list_demos args f)) by mute_all.
  unfold playback_dataset.
  rewrite announced_silent_bind, outcome_bind by mute_all.
  destruct (outcome (check_args args f)) as [names | e];
    [ | exists 0; split; [ reflexivity | discriminate ] ].
  rewrite announced_silent_bind, outcome_bind by mute_all.
  destruct (outcome (make_env args f)) as [env | e];
    [ | exists 0; split; [ reflexivity | discriminate ] ].
  rewrite announced_silent_bind, outcome_bind by exact Hquiet.
  rewrite Hlist. cbn [outcome snd].
  rewrite announced_silent_bind, outcome_bind by mute_all.
  destruct (episodes_announced args f names
              (if write_video_of args then Some (video_path_of args)
               else None) demos env) as (k & Hk & Hall).
  exists k.
  destruct (write_video_of args); cbn [call emit ret bind outcome snd app];
    rewrite announced_bind, outcome_bind, Hk;
    (destruct (outcome (for_each _ demos env)) as [env' | e];
     [ | split; [ now rewrite app_nil_r | discriminate ] ]);
    (split; [ | intros _; now apply (Hall env') ]);
    destruct env'; cbn; now rewrite app_nil_r.
Qed.

(** *** Playback from stored images and the simulator *)

(** X19: playback from stored images never touches the simulator.  With
    [use_obs], whether the run returns or raises, no environment is made
    and no call is made on one: the run only prints, shuffles the episode
    list, opens the video writer, writes frames, and closes the writer and
    the file. *)
Theorem observations_need_no_simulator (args : Args) (f : H5File T) :
  use_obs args = true ->
  silent is_simulator_event (playback_dataset args f).
Proof.
  intros Hobs. unfold playback_dataset.
  apply silent_bind; [ mute_all | intros names ].
  apply silent_bind_ok; [ unfold make_env; rewrite Hobs; mute_all | ].
  intros t env Henv.
  apply made_env in Henv as [Hnone _]. specialize (Hnone Hobs). subst env.
  apply silent_bind; [ mute_all | intros demos ].
  apply silent_bind; [ mute_all | intros video_writer ].
  apply silent_bind_ok.
  - apply silent_for_each. intros ep env.
    unfold playback_episode. rewrite Hobs. mute_all.
  - intros t' env' Hrun.
    apply episodes_keep_env in Hrun as [Hkeep _].
    rewrite (Hkeep Hobs eq_refl). mute_all.
Qed.

End Steps.

(** * More concrete runs *)

Section MoreRuns.

Import Toy Demo Modality.

Lemma rev_meets_contract : shuffle_contract (@rev string).
Proof.
  intros l. apply Permutation_sym, Permutation_rev.
Qed.

Lemma modality_lookup_default_witness :
  getitem_default "robot0_gripper_qpos" modalities =
    ([NotFound "robot0_gripper_qpos"],
     Ok ("low_dim"%string,
         modalities ++ [("robot0_gripper_qpos", "low_dim")]%string)).
Proof.
  exact (proj1 (proj2 (modality_lookup_default "robot0_gripper_qpos"
                         modalities) eq_refl)).
Defined.

Lemma default_video_path_witness :
  video_path_of args_extend = "demo_use_actions.mp4"%string.
Proof.
  exact (proj2 (default_video_path args_extend) eq_refl).
Defined.

Lemma state_injection_replay_witness :
  exists tr s',
    replay_loop (sim := simulator caps_new) [[0]; [1]; [2]]%Z None true None
                5%Z None true false (env0, 0%Z, false) = (tr, Ok s') /\
    count is_inject_event tr = 1 /\
    Forall (fun ev => is_state_replay_event ev = true) tr.
Proof.
  exact (@state_injection_replay Z string Env numeric_Z host
           (simulator caps_new) [[0]; [1]; [2]]%Z true None 5%Z None true
           false (env0, 0%Z, false) (or_introl eq_refl)).
Defined.

Lemma frames_every_period_witness :
  exists tr s',
    replay_loop (sim := simulator caps_new) [[0]; [1]; [2]]%Z
                (Some [[1]; [1]; [1]]%Z) false (Some "demo.mp4"%string) 2%Z
                (Some both_views) false false (env0, 0%Z, false) =
      (tr, Ok s') /\
    count is_append_event tr = 2 /\
    count is_render_event tr = 2 * 2.
Proof.
  refine (@frames_every_period Z string Env numeric_Z host
            (simulator caps_new) [[0]; [1]; [2]]%Z (Some [[1]; [1]; [1]]%Z)
            false "demo.mp4"%string 2%Z both_views false false 1 env0 false
            _ _).
  - split; [ reflexivity | ]. split; [ | intros e; reflexivity ].
    repeat (apply Forall_cons; [ reflexivity | ]). apply Forall_nil.
  - split; [ discriminate | ]. split; [ discriminate | ].
    intros cam env. apply repeat_length.
Defined.

Lemma observation_frames_witness :
  exists tr,
    playback_trajectory_with_obs (Meta := string) filmed
      (Some "demo.mp4"%string) 2%Z (Some both_views) false = (tr, Ok tt) /\
    Forall (fun ev => is_append_event ev = true) tr /\
    List.length tr = 2.
Proof.
  refine (@observation_frames Z string filmed "demo.mp4"%string 2%Z
            both_views false "agentview"%string ["wrist"%string]
            [blank 2 3 red; blank 2 3 red; blank 2 3 red]
            eq_refl eq_refl _ _).
  - exists [[blank 2 3 red; blank 2 3 red; blank 2 3 red];
            [blank 2 1 blue; blank 2 1 blue; blank 2 1 blue]].
    split.
    + apply Forall2_cons; [ split; [ reflexivity | cbn; lia ] | ].
      apply Forall2_cons; [ split; [ reflexivity | cbn; lia ] | ].
      apply Forall2_nil.
    + intros i Hi. exists 2.
      destruct i as [ | [ | [ | i]]]; [ | | | cbn in Hi; lia ];
        (apply Forall_cons; [ reflexivity | ]);
        (apply Forall_cons; [ reflexivity | ]); apply Forall_nil.
  - discriminate.
Defined.

Lemma observation_playback_rejects_witness :
  playback_trajectory_with_obs (Meta := string) filmed
    (Some "demo.mp4"%string) 0%Z (Some both_views) false =
    ([], Raise ZeroDivisionError).
Proof.
  exact (proj1 (proj2 (proj2 (proj2
           (@observation_playback_rejects Z string filmed
              (Some "demo.mp4"%string) 0%Z false))))
           both_views "agentview"%string ["wrist"%string] (blank 2 3 red)
           [blank 2 3 red; blank 2 3 red] eq_refl eq_refl eq_refl).
Defined.

Lemma configuration_errors_witness :
  playback_dataset (sim := simulator caps_new) args_two_cameras two_demos =
    ([], Raise AssertionError).
Proof.
  apply (@configuration_errors Z string Env numeric_Z host
           (simulator caps_new) args_two_cameras two_demos
           ["agentview"; "wrist"]%string).
  - reflexivity.
  - left. split; [ reflexivity | discriminate ].
Defined.


Lemma missing_data_group_witness :
  playback_dataset (sim := simulator caps_new) args0 empty_file =
    ([], Raise KeyError).
Proof.
  exact (proj1 (@missing_data_group Z string Env numeric_Z host
                  (simulator caps_new) args0 empty_file
                  (NameList ["agentview"%string]) eq_refl eq_refl) eq_refl).
Defined.

Lemma episode_cap_witness :
  exists shuffled,
    Permutation shuffled ["demo_10"; "demo_2"]%string /\
    list_demos (T := Z) (Meta := string) args_one two_demos =
      ([EvShuffle], Ok (slice_to 1 shuffled)) /\
    List.length (slice_to 1 shuffled) = 1 /\
    incl (slice_to 1 shuffled) ["demo_10"; "demo_2"]%string /\
    (NoDup ["demo_10"; "demo_2"]%string -> NoDup (slice_to 1 shuffled)).
Proof.
  apply (@episode_cap Z string host args_one two_demos []
           ["demo_10"; "demo_2"]%string [10; 2]%Z 1%Z
           argsort_meets_contract rev_meets_contract eq_refl eq_refl).
  - apply Forall2_cons; [ reflexivity | ].
    apply Forall2_cons; [ reflexivity | ].
    apply Forall2_nil.
  - repeat (apply Forall_cons; [ unfold Np.in_int64; lia | ]).
    apply Forall_nil.
Defined.

Lemma malformed_episode_witness :
  playback_episode (sim := simulator caps_new) args0
    (file_of ["demo_1"%string] no_model) (NameList ["agentview"%string])
    None "demo_1" (Some env0) =
    ([EvPrint (MsgPlayingBack "demo_1")], Raise KeyError).
Proof.
  exact (proj2 (proj2 (proj2
           (@malformed_episode Z string Env numeric_Z host
              (simulator caps_new) args0
              (file_of ["demo_1"%string] no_model)
              (NameList ["agentview"%string]) None "demo_1"%string
              (Some env0) eq_refl)))
           no_model [0%Z] [[1%Z]] eq_refl eq_refl eq_refl).
Defined.

Lemma verbose_needs_metadata_witness :
  playback_episode (sim := simulator caps_new) args_verbose
    (file_of ["demo_1"%string] filmed) (NameList ["agentview"%string])
    None "demo_1" (Some env0) =
    ([EvPrint (MsgPlayingBack "demo_1"); EvGetXml], Raise TypeError).
Proof.
  apply (@verbose_needs_metadata Z string Env numeric_Z host
           (simulator caps_new) args_verbose
           (file_of ["demo_1"%string] filmed)
           (NameList ["agentview"%string]) None "demo_1"%string env0 filmed
           [0%Z] [[1]; [2]]%Z "<mujoco/>"%string).
  - reflexivity.
  - reflexivity.
  - reflexivity.
  - reflexivity.
  - reflexivity.
  - reflexivity.
  - discriminate.
  - reflexivity.
Defined.

Lemma failed_run_closes_nothing_witness :
  silent is_close_event
         (playback_dataset (sim := simulator caps_new) args_extend two_demos).
Proof.
  apply (@failed_run_closes_nothing Z string Env numeric_Z host
           (simulator caps_new) args_extend two_demos).
  exists AssertionError. vm_compute. reflexivity.
Defined.

Lemma returned_run_closes_last_witness :
  exists pre,
    trace run_render_and_video = pre ++ [EvFileClose; EvEnvClose] /\
    count is_close_event pre = 0.
Proof.
  refine (@returned_run_closes_last Z string Env numeric_Z host
            (simulator caps_new) args_render_and_video two_demos _).
  vm_compute. reflexivity.
Defined.

Lemma state_playback_returns_witness :
  exists tr env',
    playback_trajectory_with_env (sim := simulator caps_new) env0
      request_full [[0]; [1]; [2]]%Z None false None 5%Z None false false =
      (tr, Ok env') /\
    count is_inject_event tr = 1 + 3 /\
    count is_step_event tr = 0 /\
    count is_warning_event tr = 0.
Proof.
  exact (@state_playback_returns Z string Env numeric_Z host
           (simulator caps_new) env0 request_full [[0]; [1]; [2]]%Z None
           5%Z None false false (Some "{}"%string) eq_refl eq_refl
           (or_introl eq_refl)).
Defined.

Lemma success_report_witness :
  exists tr env',
    playback_trajectory_with_env (sim := simulator caps_none) env0
      request_full [[0]; [1]; [5]]%Z (Some [[1]; [1]; [1]]%Z) false None 5%Z
      None false false = (tr, Ok env') /\
    count is_not_success_event tr = 0.
Proof.
  refine (@success_report Z string Env numeric_Z host (simulator caps_none)
            env0 (env_at 7) request_full [[0]; [1]; [5]]%Z
            [[1]; [1]; [1]]%Z 5%Z None false false 1 (Some "{}"%string)
            [EvReset; EvEditModelXml "<mujoco/>";
             EvResetFromXmlString "<mujoco/>"; EvSimReset;
             EvSetStateFromFlattened [7%Z]; EvSimForward]
            None eq_refl eq_refl eq_refl _).
  split; [ reflexivity | ]. split; [ | intros e; reflexivity ].
  repeat (apply Forall_cons; [ reflexivity | ]). apply Forall_nil.
Defined.

Lemma episode_state_replay_witness :
  exists tr env',
    playback_episode (sim := simulator caps_new) args_verbose two_demos
      (NameList ["agentview"%string]) None "demo_2" (Some env0) =
      (tr, Ok (Some env')) /\
    In (EvEditModelXml "<mujoco/>") tr /\
    count is_inject_event tr = 1 + 3 /\
    count is_step_event tr = 0.
Proof.
  exact (@episode_state_replay Z string Env numeric_Z host
           (simulator caps_new) args_verbose two_demos
           (NameList ["agentview"%string]) None "demo_2"%string env0 episode
           [0%Z] [[1]; [5]]%Z "<mujoco/>"%string eq_refl eq_refl eq_refl
           eq_refl eq_refl eq_refl eq_refl (or_introl eq_refl)).
Defined.

Lemma observations_need_no_simulator_witness :
  silent is_simulator_event
         (playback_dataset (sim := simulator caps_new) args_obs
                           (file_of ["demo_1"%string] filmed)).
Proof.
  apply (@observations_need_no_simulator Z string Env numeric_Z host
           (simulator caps_new) args_obs (file_of ["demo_1"%string] filmed)).
  reflexivity.
Defined.

Lemma shape_mismatch_aborts_witness :
  action_step (Meta := string) (sim := with_velocity)
              [[0; 0; 0]; [1; 0; 0]; [2; 0; 0]]%Z [[1]; [1]; [1]]%Z
              false 3 0 env0 false =
    ([EvStep [1%Z]; EvCheckSuccess; EvGetState], Raise ValueError).
Proof.
  apply (@shape_mismatch_aborts Z string Env numeric_Z with_velocity
           [[0; 0; 0]; [1; 0; 0]; [2; 0; 0]]%Z [[1]; [1]; [1]]%Z false 0
           env0 false [1%Z] [1; 0; 0]%Z).
  - reflexivity.
  - reflexivity.
  - discriminate.
  - discriminate.
  - discriminate.
Defined.

Lemma episodes_in_order_witness :
  exists k,
    announced (trace (playback_dataset (sim := simulator caps_new) args0
                                       two_demos)) =
      firstn k ["demo_2"; "demo_10"]%string /\
    (outcome (playback_dataset (sim := simulator caps_new) args0 two_demos) =
       Ok tt ->
     k = 2).
Proof.
  apply (@episodes_in_order Z string Env numeric_Z host (simulator caps_new)
           args0 two_demos [] ["demo_2"; "demo_10"]%string).
  reflexivity.
Defined.


Lemma environment_metadata_required_witness :
  playback_dataset (sim := simulator caps_new) args0 bare_file =
    ([], Raise KeyError).
Proof.
  refine (proj1 (proj2 (@environment_metadata_required Z string Env
                          numeric_Z host (simulator caps_new) args0
                          bare_file (NameList ["agentview"%string])
                          {| env_args := Some "{}"%string;
                             demos_of := [("demo_1"%string, episode)] |}
                          "{}"%string "{}"%string
                          eq_refl eq_refl eq_refl eq_refl eq_refl))
            eq_refl eq_refl).
Defined.

End MoreRuns.
